(** * SUCHAI flight software: the persistent storage core

    A shallow embedding of the flash/FRAM storage engine
    ([storage_flash.c], simulation backend) and of the repository facade
    ([repoData.c]), followed by the properties of the status table, the
    flight-plan TLB, the payload addressing scheme and the [fpl_queue]
    counter.

    Conventions.
    - C integers are [Z]; every conversion to a fixed width is written out
      with [to_uint32], [to_int32], [to_uint16].
    - The process-wide C globals are the fields of one record [storage]
      that is threaded through every call by the monad [M].
    - [None] in [M] stands for undefined behaviour of the C program: an
      access outside an array, a NULL dereference, a division by zero.
    - Semaphores and log lines have no effect on the data and are left out,
      except for the line that announces a TLB rebuild, kept as an event. *)

From stdpp Require Import base list.
From Stdlib Require Import ZArith Lia.

Local Open Scope Z_scope.

(** ** Fixed-width integers and byte strings *)

Definition to_uint8 (z : Z) : Z := z mod 2 ^ 8.
Definition to_uint16 (z : Z) : Z := z mod 2 ^ 16.
Definition to_uint32 (z : Z) : Z := z mod 2 ^ 32.
Definition to_int32 (z : Z) : Z := (z + 2 ^ 31) mod 2 ^ 32 - 2 ^ 31.

Definition INT_MAX : Z := 2 ^ 31 - 1.
Definition INT_MIN : Z := - 2 ^ 31.

(** The four bytes of a 32-bit object as [memcpy] sees them (little endian). *)
Definition encode32 (v : Z) : list Z :=
  [to_uint8 v; to_uint8 (v / 2 ^ 8); to_uint8 (v / 2 ^ 16); to_uint8 (v / 2 ^ 24)].

Definition decode32 (bs : list Z) : Z :=
  match bs with
  | [b0; b1; b2; b3] => b0 + 2 ^ 8 * b1 + 2 ^ 16 * b2 + 2 ^ 24 * b3
  | _ => 0
  end.

(** [value32_t]: the 32 stored bits, read as [.u]; [.i] is the signed view. *)
Definition value32_t := Z.
Definition value32_of_int (i : Z) : value32_t := to_uint32 i.
Definition value32_i (v : value32_t) : Z := to_int32 v.

(** The characters of a C string up to its terminating NUL. *)
Fixpoint cstring (s : list Z) : list Z :=
  match s with
  | [] => []
  | c :: s' => if c =? 0 then [] else c :: cstring s'
  end.

(** [memset(dst, 0, n); strncpy(dst, src, n)]. *)
Definition strncpy (n : nat) (src : list Z) : list Z :=
  let s := take n (cstring src) in s ++ replicate (n - length s)%nat 0.

(** The string starting at [off] in a buffer; [None] when no NUL lies
    between [off] and the end of the buffer (the scan leaves the object). *)
Fixpoint scan_nul (bs : list Z) : option (list Z) :=
  match bs with
  | [] => None
  | c :: bs' => if c =? 0 then Some [] else option_map (cons c) (scan_nul bs')
  end.

Definition strdup_at (buf : list Z) (off : nat) : option (list Z) :=
  scan_nul (drop off buf).

(** ** Byte-addressed memories *)

Definition memory := Z -> Z.

Definition mem_read (m : memory) (a : Z) (len : nat) : list Z :=
  map (fun k => m (a + Z.of_nat k)) (seq 0 len).

Definition mem_write (m : memory) (a : Z) (bs : list Z) : memory :=
  fun x =>
    if (a <=? x) && (x <? a + Z.of_nat (length bs))
    then nth (Z.to_nat (x - a)) bs 0
    else m x.

Definition mem_fill (m : memory) (a : Z) (len : Z) (v : Z) : memory :=
  fun x => if (a <=? x) && (x <? a + len) then v else m x.

Definition mem_zero : memory := fun _ => 0.

(** ** Compile-time configuration

    The macros and tables below are declared in headers that are not part
    of the sources at hand ([config.h], [repoDataSchema.h]); they are taken
    as parameters. [ST_FRAME_SIZE] is the length of the simulated FRAM
    array. *)

Record config := {
  SCH_FP_MAX_ENTRIES : Z;
  SCH_SIZE_PER_SECTION : Z;
  SCH_SECTIONS_PER_PAYLOAD : Z;
  SCH_FLASH_INIT_MEMORY : Z;
  SCH_STORAGE_TRIPLE_WR : bool;
  SCH_COMM_NODE : Z;
  ST_FRAME_SIZE : Z;
  dat_status_last_address : Z;
  dat_status_last_var : Z;
  dat_fpl_queue : Z;
}.

Definition SCH_ST_OK : Z := 0.
Definition SCH_ST_ERROR : Z := -1.
Definition ST_FP_NULL : Z := -1.

Definition ST_CMD_MAX_STR_PARAMS : Z := 248.
Definition ST_CMD_MAX_STR_NAME : Z := 248.
Definition ST_PAGE_SIZE : Z := 512.
Definition ST_FRAM_SIZE : Z := 32 * 1024.
Definition FP_CONTAINER_SIZE : Z := 512.
Definition sizeof_fp_addr_t : Z := 8.
Definition sizeof_value32_t : Z := 4.
Definition FLASH_SECTIONS : Z := 256.

(** ** Data model *)

(** [fp_entry_t]: a flight-plan row as the callers see it. [cmd] and [args]
    point to C strings. *)
Record fp_entry_t := {
  unixtime : Z;
  executions : Z;
  periodical : Z;
  node : Z;
  cmd : list Z;
  args : list Z;
}.

(** [fp_addr_t]: a TLB slot. [addr] is a [uint32_t]; the [int32_t] field
    [unixtime] of the C structure is [tlb_unixtime] here. *)
Record fp_addr_t := {
  addr : Z;
  tlb_unixtime : Z;
}.

(** [data_map_t], as far as the storage engine reads it; [size] is a
    [uint16_t]. *)
Record data_map_t := {
  size : Z;
  sys_index : Z;
}.

(** Changes of the media, and the log line of the rebuild. *)
Inductive event :=
| FlashWrite (a len : Z)
| FlashErase (a : Z)
| FramWrite (a len : Z)
| LogRebuild.

(** The globals of [storage_flash.c] together with the two simulated
    memories. [junk] is the content of freshly allocated heap blocks;
    [trace] lists the events, the latest first. *)
Record storage := {
  storage_is_open : bool;
  st_flightplan_addr : option (list Z);
  st_flightplan_base_addr : Z;
  st_flightplan_entries : Z;
  st_flightplan_tlb_base_addr : Z;
  st_flightplan_tlb : list fp_addr_t;
  st_payload_addr : option (list Z);
  st_payload_sections : Z;
  st_payloads_entries : Z;
  st_payload_base_addr : Z;
  flash : memory;
  fram : memory;
  junk : memory;
  trace : list event;
}.

Definition set_flash (f : memory) (e : event) (st : storage) : storage :=
  {| storage_is_open := storage_is_open st;
     st_flightplan_addr := st_flightplan_addr st;
     st_flightplan_base_addr := st_flightplan_base_addr st;
     st_flightplan_entries := st_flightplan_entries st;
     st_flightplan_tlb_base_addr := st_flightplan_tlb_base_addr st;
     st_flightplan_tlb := st_flightplan_tlb st;
     st_payload_addr := st_payload_addr st;
     st_payload_sections := st_payload_sections st;
     st_payloads_entries := st_payloads_entries st;
     st_payload_base_addr := st_payload_base_addr st;
     flash := f;
     fram := fram st;
     junk := junk st;
     trace := e :: trace st |}.

Definition set_fram (f : memory) (e : event) (st : storage) : storage :=
  {| storage_is_open := storage_is_open st;
     st_flightplan_addr := st_flightplan_addr st;
     st_flightplan_base_addr := st_flightplan_base_addr st;
     st_flightplan_entries := st_flightplan_entries st;
     st_flightplan_tlb_base_addr := st_flightplan_tlb_base_addr st;
     st_flightplan_tlb := st_flightplan_tlb st;
     st_payload_addr := st_payload_addr st;
     st_payload_sections := st_payload_sections st;
     st_payloads_entries := st_payloads_entries st;
     st_payload_base_addr := st_payload_base_addr st;
     flash := flash st;
     fram := f;
     junk := junk st;
     trace := e :: trace st |}.

Definition set_tlb (t : list fp_addr_t) (st : storage) : storage :=
  {| storage_is_open := storage_is_open st;
     st_flightplan_addr := st_flightplan_addr st;
     st_flightplan_base_addr := st_flightplan_base_addr st;
     st_flightplan_entries := st_flightplan_entries st;
     st_flightplan_tlb_base_addr := st_flightplan_tlb_base_addr st;
     st_flightplan_tlb := t;
     st_payload_addr := st_payload_addr st;
     st_payload_sections := st_payload_sections st;
     st_payloads_entries := st_payloads_entries st;
     st_payload_base_addr := st_payload_base_addr st;
     flash := flash st;
     fram := fram st;
     junk := junk st;
     trace := trace st |}.

Definition log_event (e : event) (st : storage) : storage :=
  {| storage_is_open := storage_is_open st;
     st_flightplan_addr := st_flightplan_addr st;
     st_flightplan_base_addr := st_flightplan_base_addr st;
     st_flightplan_entries := st_flightplan_entries st;
     st_flightplan_tlb_base_addr := st_flightplan_tlb_base_addr st;
     st_flightplan_tlb := st_flightplan_tlb st;
     st_payload_addr := st_payload_addr st;
     st_payload_sections := st_payload_sections st;
     st_payloads_entries := st_payloads_entries st;
     st_payload_base_addr := st_payload_base_addr st;
     flash := flash st;
     fram := fram st;
     junk := junk st;
     trace := e :: trace st |}.

(** ** The state monad with undefined behaviour *)

Definition M (A : Type) : Type := storage -> option (A * storage).

Definition ret {A} (a : A) : M A := fun st => Some (a, st).

Definition bind {A B} (m : M A) (k : A -> M B) : M B :=
  fun st => match m st with
            | Some (a, st') => k a st'
            | None => None
            end.

Definition undefined {A} : M A := fun _ => None.

Definition gets {A} (f : storage -> A) : M A := fun st => Some (f st, st).

Definition modify (f : storage -> storage) : M unit := fun st => Some (tt, f st).

Notation "'do' x <- m ; k" := (bind m (fun x => k))
  (at level 10, x name, m at level 100, k at level 200).
Notation "'do' ' p <- m ; k" := (bind m (fun x => match x with p => k end))
  (at level 10, p pattern, m at level 100, k at level 200).
Notation "'run' m ; k" := (bind m (fun _ => k))
  (at level 10, m at level 100, k at level 200).

(** [for (i = lo; i < lo + n; i++) acc = body(i, acc);] *)
Fixpoint for_range {A} (lo : Z) (n : nat) (body : Z -> A -> M A) (acc : A) : M A :=
  match n with
  | O => ret acc
  | S n' => do acc' <- body lo acc; for_range (lo + 1) n' body acc'
  end.

(** Integer division of C: undefined for a zero divisor, truncating. *)
Definition c_div (a b : Z) : M Z :=
  if b =? 0 then undefined else ret (Z.quot a b).

Definition c_mod (a b : Z) : M Z :=
  if b =? 0 then undefined else ret (Z.rem a b).

(** [a[i]] for an array held in a list. *)
Definition array_get {A} (l : list A) (i : Z) : M A :=
  if i <? 0 then undefined
  else match l !! Z.to_nat i with
       | Some x => ret x
       | None => undefined
       end.

(** [*p] for a pointer that may be NULL. *)
Definition deref {A} (p : option A) : M A :=
  match p with
  | Some x => ret x
  | None => undefined
  end.

Inductive ptr := NULL | PTR.

Definition is_null (p : ptr) : bool :=
  match p with NULL => true | PTR => false end.

(** A sub-object of [len] bytes at offset [off] of a buffer. *)
Definition buffer_slice (buf : list Z) (off len : Z) : M (list Z) :=
  if (0 <=? off) && (0 <=? len) && (off + len <=? Z.of_nat (length buf))
  then ret (take (Z.to_nat len) (drop (Z.to_nat off) buf))
  else undefined.

Definition in_bounds (a len bound : Z) : bool :=
  (0 <=? a) && (0 <=? len) && (a + len <=? bound).

(** ** storage_flash.c *)

Section StorageFlash.

Variable cfg : config.

Definition st_flightplan_sections : Z :=
  Z.quot (SCH_FP_MAX_ENTRIES cfg * FP_CONTAINER_SIZE) (SCH_SIZE_PER_SECTION cfg) + 1.

Definition commands_per_section : Z :=
  Z.quot (SCH_SIZE_PER_SECTION cfg) FP_CONTAINER_SIZE.

(** [sizeof(st_flightplan_tlb)], an array of [SCH_FP_MAX_ENTRIES+1] slots. *)
Definition sizeof_tlb : Z := sizeof_fp_addr_t * (SCH_FP_MAX_ENTRIES cfg + 1).

Definition flash_size : Z := FLASH_SECTIONS * SCH_SIZE_PER_SECTION cfg.

(** *** Media backend (debug mode: two arrays in memory) *)

Definition storage_read_flash (partition addr len : Z) : M (Z * list Z) :=
  let addr := to_uint32 addr in
  let len := to_uint16 len in
  do f <- gets flash;
  if in_bounds addr len flash_size
  then ret (SCH_ST_OK, mem_read f addr (Z.to_nat len))
  else undefined.

Definition storage_write_flash (partition addr : Z) (data : list Z) (len : Z) : M Z :=
  let addr := to_uint32 addr in
  let len := to_uint16 len in
  do src <- buffer_slice data 0 len;
  do f <- gets flash;
  if in_bounds addr len flash_size
  then run modify (set_flash (mem_write f addr src) (FlashWrite addr len));
       ret SCH_ST_OK
  else undefined.

Definition storage_erase_flash (partition addr : Z) : M Z :=
  let addr := to_uint32 addr in
  do section <- c_div addr (SCH_SIZE_PER_SECTION cfg);
  let addr := to_uint32 (section * SCH_SIZE_PER_SECTION cfg) in
  do f <- gets flash;
  if in_bounds addr (SCH_SIZE_PER_SECTION cfg) flash_size
  then run modify (set_flash (mem_fill f addr (SCH_SIZE_PER_SECTION cfg) 0) (FlashErase addr));
       ret SCH_ST_OK
  else undefined.

Definition storage_write_fram (add : Z) (value : list Z) (len : Z) : M Z :=
  let add := to_uint32 add in
  do src <- buffer_slice value 0 len;
  do f <- gets fram;
  if in_bounds add len (ST_FRAME_SIZE cfg)
  then run modify (set_fram (mem_write f add src) (FramWrite add len));
       ret SCH_ST_OK
  else undefined.

Definition storage_read_fram (add len : Z) : M (Z * list Z) :=
  let add := to_uint32 add in
  do f <- gets fram;
  if in_bounds add len (ST_FRAME_SIZE cfg)
  then ret (SCH_ST_OK, mem_read f add (Z.to_nat len))
  else undefined.

(** *** Status variables *)

Definition storage_status_get_value_idx (index : Z) : M (Z * value32_t) :=
  let index := to_uint32 index in
  let add := to_uint16 (index * sizeof_value32_t) in
  do '(rc, bs) <- storage_read_fram add sizeof_value32_t;
  ret (rc, decode32 bs).

Definition storage_status_set_value_idx (index : Z) (value : value32_t) : M Z :=
  let add := to_uint16 (index * sizeof_value32_t) in
  storage_write_fram add (encode32 value) sizeof_value32_t.

(** *** Flight-plan TLB *)

Definition encode_fp_addr (e : fp_addr_t) : list Z :=
  encode32 (addr e) ++ encode32 (tlb_unixtime e).

Definition decode_fp_addr (bs : list Z) : fp_addr_t :=
  {| addr := decode32 (take 4 bs);
     tlb_unixtime := to_int32 (decode32 (take 4 (drop 4 bs))) |}.

Definition tlb_bytes (tlb : list fp_addr_t) : list Z :=
  concat (map encode_fp_addr tlb).

Fixpoint decode_tlb (n : nat) (bs : list Z) : list fp_addr_t :=
  match n with
  | O => []
  | S n' => decode_fp_addr (take 8 bs) :: decode_tlb n' (drop 8 bs)
  end.

(** [st_flightplan_tlb[index] = f(st_flightplan_tlb[index])]. *)
Definition tlb_store (index : Z) (f : fp_addr_t -> fp_addr_t) : M unit :=
  do tlb <- gets st_flightplan_tlb;
  do e <- array_get tlb index;
  modify (set_tlb (<[Z.to_nat index := f e]> tlb)).

Definition tlb_load (index : Z) : M fp_addr_t :=
  do tlb <- gets st_flightplan_tlb;
  array_get tlb index.

(** The all-ones slot written by [memset(.., -1, ..)] and by the erase. *)
Definition tlb_null : fp_addr_t :=
  {| addr := to_uint32 ST_FP_NULL; tlb_unixtime := ST_FP_NULL |}.

Definition tlb_addr_start : Z := to_uint32 (ST_FRAM_SIZE - sizeof_tlb).

Definition storage_flightplan_load_tlb : M Z :=
  do '(rc, bs) <- storage_read_fram (ST_FRAM_SIZE - sizeof_tlb) sizeof_tlb;
  run modify (set_tlb (decode_tlb (Z.to_nat (SCH_FP_MAX_ENTRIES cfg + 1)) bs));
  ret rc.

Definition storage_flightplan_dump_tlb (index : Z) : M Z :=
  do tlb <- gets st_flightplan_tlb;
  if index <? 0
  then storage_write_fram tlb_addr_start (tlb_bytes tlb) sizeof_tlb
  else do e <- array_get tlb index;
       storage_write_fram (tlb_addr_start + index * sizeof_fp_addr_t)
                          (encode_fp_addr e) sizeof_fp_addr_t.

Definition storage_flightplan_update_tlb (index unixtime addr_ : Z) : M Z :=
  run tlb_store index (fun e => {| addr := addr e; tlb_unixtime := to_int32 unixtime |});
  run tlb_store index (fun e => {| addr := to_uint32 addr_; tlb_unixtime := tlb_unixtime e |});
  run tlb_store (SCH_FP_MAX_ENTRIES cfg)
        (fun e => {| addr := to_uint32 (1 + addr e); tlb_unixtime := tlb_unixtime e |});
  do rc <- storage_flightplan_dump_tlb index;
  if rc =? SCH_ST_OK
  then storage_flightplan_dump_tlb (SCH_FP_MAX_ENTRIES cfg)
  else ret rc.

(** One round of the rewriting loop of the rebuild. *)
Definition rebuild_entry (fp_entries : list Z) (index_tlb rc : Z) : M Z :=
  do e <- tlb_load index_tlb;
  if negb (tlb_unixtime e =? ST_FP_NULL) then
    do fp_addr <- gets st_flightplan_addr;
    do fp_addr <- deref fp_addr;
    do addr0 <- array_get fp_addr 0;
    let old_index_flash := to_int32 (to_uint32 (addr e - addr0) / FP_CONTAINER_SIZE) in
    do meta <- tlb_load (SCH_FP_MAX_ENTRIES cfg);
    let new_index_flash := to_int32 (addr meta) in
    do section_index <- c_div new_index_flash commands_per_section;
    do index_in_section <- c_mod new_index_flash commands_per_section;
    do base <- array_get fp_addr section_index;
    let new_addr := to_uint32 (base + index_in_section * FP_CONTAINER_SIZE) in
    do rc1 <- storage_flightplan_update_tlb index_tlb (tlb_unixtime e) new_addr;
    do fp_entry <- buffer_slice fp_entries (old_index_flash * FP_CONTAINER_SIZE) FP_CONTAINER_SIZE;
    do rc2 <- storage_write_flash 0 new_addr fp_entry FP_CONTAINER_SIZE;
    ret (rc + rc1 + rc2)
  else ret rc.

(** [malloc] is taken to succeed. The block holds [junk] until the read
    fills it; the length handed to [storage_read_flash] is a [uint16_t]. *)
Definition flight_plan_rebuild_tlb : M Z :=
  run modify (log_event LogRebuild);
  let buf_len := commands_per_section * FP_CONTAINER_SIZE in
  do j <- gets junk;
  do fp_addr <- gets st_flightplan_addr;
  do fp_addr <- deref fp_addr;
  do addr0 <- array_get fp_addr 0;
  do '(rc1, bs) <- storage_read_flash 0 addr0 buf_len;
  let fp_entries := bs ++ drop (length bs) (mem_read j 0 (Z.to_nat buf_len)) in
  do rc2 <- storage_erase_flash 0 addr0;
  run tlb_store (SCH_FP_MAX_ENTRIES cfg) (fun e => {| addr := addr e; tlb_unixtime := 0 |});
  run tlb_store (SCH_FP_MAX_ENTRIES cfg) (fun e => {| addr := 0; tlb_unixtime := tlb_unixtime e |});
  do rc <- for_range 0 (Z.to_nat (SCH_FP_MAX_ENTRIES cfg))
             (rebuild_entry fp_entries) (0 + rc1 + rc2);
  do rc3 <- storage_flightplan_dump_tlb (-1);
  ret (rc + rc3).

Fixpoint find_index_from (tlb : list fp_addr_t) (unixtime_ : Z) (i : Z) (n : nat) : M Z :=
  match n with
  | O => ret (-1)
  | S n' =>
      do e <- array_get tlb i;
      if tlb_unixtime e =? unixtime_ then ret i
      else find_index_from tlb unixtime_ (i + 1) n'
  end.

Definition storage_flightplan_find_index_tlb (unixtime_ : Z) : M Z :=
  do tlb <- gets st_flightplan_tlb;
  find_index_from tlb (to_int32 unixtime_) 0 (Z.to_nat (SCH_FP_MAX_ENTRIES cfg)).

Definition flight_plan_erase_index_tlb (index : Z) : M Z :=
  do n <- gets st_flightplan_entries;
  if (index <? 0) || (index >=? n) then ret (-1)
  else
    run tlb_store index (fun e => {| addr := addr e; tlb_unixtime := ST_FP_NULL |});
    run tlb_store index (fun e => {| addr := to_uint32 ST_FP_NULL; tlb_unixtime := tlb_unixtime e |});
    storage_flightplan_dump_tlb index.

(** *** Flight plan *)

(** [fp_container_t]: the 512 bytes of a stored entry. *)
Definition encode_container (row : fp_entry_t) : list Z :=
  encode32 (unixtime row) ++ encode32 (executions row) ++
  encode32 (periodical row) ++ encode32 (node row) ++
  strncpy (Z.to_nat ST_CMD_MAX_STR_PARAMS) (cmd row) ++
  strncpy (Z.to_nat ST_CMD_MAX_STR_NAME) (args row).

Definition container_int (buf : list Z) (off : nat) : Z :=
  to_int32 (decode32 (take 4 (drop off buf))).

Definition storage_flight_plan_set_st (row : option fp_entry_t) : M Z :=
  do open <- gets storage_is_open;
  match row with
  | None => ret SCH_ST_ERROR
  | Some row =>
    if negb open then ret SCH_ST_ERROR
    else
      do meta <- tlb_load (SCH_FP_MAX_ENTRIES cfg);
      run (if addr meta >? commands_per_section
           then run flight_plan_rebuild_tlb; ret tt
           else ret tt);
      do index_tlb <- storage_flightplan_find_index_tlb ST_FP_NULL;
      do n <- gets st_flightplan_entries;
      if (index_tlb =? -1) || (index_tlb >=? n) then ret SCH_ST_ERROR
      else
        do meta <- tlb_load (SCH_FP_MAX_ENTRIES cfg);
        let index_flash := to_int32 (addr meta) in
        do section_index <- c_div index_flash commands_per_section;
        do index_in_section <- c_mod index_flash commands_per_section;
        do fp_addr <- gets st_flightplan_addr;
        do fp_addr <- deref fp_addr;
        do base <- array_get fp_addr section_index;
        let addr_ := to_uint32 (base + index_in_section * FP_CONTAINER_SIZE) in
        let new_entry := encode_container row in
        do rc <- storage_flightplan_update_tlb index_tlb (unixtime row) addr_;
        if rc =? SCH_ST_OK
        then storage_write_flash 0 addr_ new_entry FP_CONTAINER_SIZE
        else ret rc
  end.

Definition storage_flight_plan_set (timetodo : Z) (command args_ : option (list Z))
    (executions_ period node_ : Z) : M Z :=
  do open <- gets storage_is_open;
  match command, args_ with
  | Some command, Some args_ =>
      if (timetodo <? 0) || negb open then ret SCH_ST_ERROR
      else storage_flight_plan_set_st
             (Some {| unixtime := timetodo; executions := executions_;
                      periodical := period; node := node_;
                      cmd := command; args := args_ |})
  | _, _ => ret SCH_ST_ERROR
  end.

(** The row is filled only when the read succeeds. *)
Definition storage_flight_plan_get_idx (index : Z) (row : ptr) : M (Z * option fp_entry_t) :=
  do n <- gets st_flightplan_entries;
  if (index >=? n) || is_null row then ret (SCH_ST_ERROR, None)
  else
    do e <- tlb_load index;
    if tlb_unixtime e =? ST_FP_NULL then ret (SCH_ST_ERROR, None)
    else
      do '(rc, fp_entry) <- storage_read_flash 0 (addr e) FP_CONTAINER_SIZE;
      if rc =? SCH_ST_OK then
        do cmd_ <- deref (strdup_at fp_entry 16);
        do args_ <- deref (strdup_at fp_entry 264);
        ret (rc, Some {| unixtime := container_int fp_entry 0;
                         executions := container_int fp_entry 4;
                         periodical := container_int fp_entry 8;
                         node := container_int fp_entry 12;
                         cmd := cmd_; args := args_ |})
      else ret (rc, None).

Definition storage_flight_plan_get_st (timetodo : Z) (row : ptr) : M (Z * option fp_entry_t) :=
  do index <- storage_flightplan_find_index_tlb timetodo;
  if index <? 0 then ret (SCH_ST_ERROR, None)
  else storage_flight_plan_get_idx index row.

(** The five out-parameters are returned as one row; the two strings are
    what [strncpy] leaves in the callers' buffers. *)
Definition storage_flight_plan_get_args (timetodo : Z)
    (command args_ executions_ period node_ : ptr) : M (Z * option fp_entry_t) :=
  do index <- storage_flightplan_find_index_tlb timetodo;
  if is_null command || is_null args_ || is_null executions_ || is_null period || is_null node_
  then ret (SCH_ST_ERROR, None)
  else
    do '(rc, fp_entry) <- storage_flight_plan_get_st timetodo PTR;
    if negb (rc =? SCH_ST_OK) then ret (SCH_ST_ERROR, None)
    else
      do fp_entry <- deref fp_entry;
      ret (SCH_ST_OK,
           Some {| unixtime := unixtime fp_entry;
                   executions := executions fp_entry;
                   periodical := periodical fp_entry;
                   node := node fp_entry;
                   cmd := strncpy (Z.to_nat ST_CMD_MAX_STR_NAME) (cmd fp_entry);
                   args := strncpy (Z.to_nat ST_CMD_MAX_STR_PARAMS) (args fp_entry) |}).

Definition storage_flight_plan_delete_row_idx (index : Z) : M Z :=
  do n <- gets st_flightplan_entries;
  if index >=? n then ret SCH_ST_ERROR
  else flight_plan_erase_index_tlb index.

Definition storage_flight_plan_delete_row (timetodo : Z) : M Z :=
  do index <- storage_flightplan_find_index_tlb timetodo;
  if index <? 0 then ret SCH_ST_ERROR
  else storage_flight_plan_delete_row_idx index.

Definition reset_section (i rc : Z) : M Z :=
  do fp_addr <- gets st_flightplan_addr;
  do fp_addr <- deref fp_addr;
  do a <- array_get fp_addr i;
  do res <- storage_erase_flash 0 a;
  ret (rc + res).

Definition storage_flight_plan_reset : M Z :=
  do open <- gets storage_is_open;
  do payload_addr <- gets st_payload_addr;
  if negb open || negb (bool_decide (is_Some payload_addr)) then ret SCH_ST_ERROR
  else
    do rc <- for_range 0 (Z.to_nat st_flightplan_sections) reset_section SCH_ST_OK;
    do tlb <- gets st_flightplan_tlb;
    run modify (set_tlb (replicate (length tlb) tlb_null));
    run tlb_store (SCH_FP_MAX_ENTRIES cfg) (fun e => {| addr := addr e; tlb_unixtime := 0 |});
    run tlb_store (SCH_FP_MAX_ENTRIES cfg) (fun e => {| addr := 0; tlb_unixtime := tlb_unixtime e |});
    do rc3 <- storage_flightplan_dump_tlb (-1);
    ret (if rc + rc3 =? SCH_ST_OK then SCH_ST_OK else SCH_ST_ERROR).

(** *** Payload storage *)

Definition check_address_alignment (addr_ size_ : Z) : Z :=
  let addr_ := to_uint32 addr_ in
  let size_ := to_uint16 size_ in
  if to_uint32 (addr_ + size_) / ST_PAGE_SIZE >? addr_ / ST_PAGE_SIZE
  then SCH_ST_ERROR
  else SCH_ST_OK.

Definition write_data_with_check (addr_ : Z) (data : list Z) (size_ : Z) : M Z :=
  if check_address_alignment addr_ size_ =? SCH_ST_ERROR then ret SCH_ST_ERROR
  else
    do ret_write <- storage_write_flash 0 addr_ data size_;
    if negb (ret_write =? 0) then ret SCH_ST_ERROR else ret SCH_ST_OK.

Definition read_data_with_check (addr_ size_ : Z) : M (Z * option (list Z)) :=
  if check_address_alignment addr_ size_ =? SCH_ST_ERROR then ret (SCH_ST_ERROR, None)
  else
    do '(read_ret, data) <- storage_read_flash 0 addr_ size_;
    if negb (read_ret =? 0) then ret (SCH_ST_ERROR, Some data)
    else ret (SCH_ST_OK, Some data).

(** Returns the status and, once it has been stored, [*address]. [size_]
    is a [size_t], so the first division is an unsigned one. *)
Definition _get_sample_address (payload index size_ : Z) : M (Z * option Z) :=
  do spp <- c_div ST_PAGE_SIZE size_;
  let samples_per_page := to_int32 spp in
  if samples_per_page =? 0 then ret (SCH_ST_ERROR, None)
  else
    do sample_page <- c_div index samples_per_page;
    do index_in_page <- c_mod index samples_per_page;
    do pages_in_section <- c_div (SCH_SIZE_PER_SECTION cfg) ST_PAGE_SIZE;
    let samples_per_section := samples_per_page * pages_in_section in
    do sample_section <- c_div index samples_per_section;
    let section_index := payload * SCH_SECTIONS_PER_PAYLOAD cfg + sample_section in
    if sample_section >? SCH_SECTIONS_PER_PAYLOAD cfg then ret (SCH_ST_ERROR, None)
    else
      do entries <- gets st_payloads_entries;
      if section_index >? entries * SCH_SECTIONS_PER_PAYLOAD cfg then ret (SCH_ST_ERROR, None)
      else
        do payload_addr <- gets st_payload_addr;
        do payload_addr <- deref payload_addr;
        do base <- array_get payload_addr section_index;
        let address := to_uint32 (base + sample_page * ST_PAGE_SIZE + index_in_page * size_) in
        do fp_base <- gets st_flightplan_base_addr;
        if address >? to_uint32 (SCH_FLASH_INIT_MEMORY cfg + fp_base +
                                 entries * SCH_SECTIONS_PER_PAYLOAD cfg * SCH_SIZE_PER_SECTION cfg)
        then ret (SCH_ST_ERROR, Some address)
        else ret (SCH_ST_OK, Some address).

Definition storage_payload_set_data (payload index : Z) (data : option (list Z))
    (schema : option data_map_t) : M Z :=
  do open <- gets storage_is_open;
  do payload_addr <- gets st_payload_addr;
  if negb open || negb (bool_decide (is_Some payload_addr)) then ret SCH_ST_ERROR
  else
    match data, schema with
    | Some data, Some schema =>
        do '(rc, addr_) <- _get_sample_address payload index (to_uint16 (size schema));
        if negb (rc =? SCH_ST_OK) then ret SCH_ST_ERROR
        else
          do addr_ <- deref addr_;
          do rc <- write_data_with_check addr_ data (to_uint16 (size schema));
          ret (if negb (rc =? SCH_ST_ERROR) then SCH_ST_OK else SCH_ST_ERROR)
    | _, _ => ret SCH_ST_ERROR
    end.

Definition storage_payload_get_data (payload index : Z) (data : ptr)
    (schema : option data_map_t) : M (Z * option (list Z)) :=
  do open <- gets storage_is_open;
  do payload_addr <- gets st_payload_addr;
  if negb open || negb (bool_decide (is_Some payload_addr)) then ret (SCH_ST_ERROR, None)
  else
    match data, schema with
    | PTR, Some schema =>
        do '(rc, addr_) <- _get_sample_address payload index (to_uint16 (size schema));
        if negb (rc =? SCH_ST_OK) then ret (SCH_ST_ERROR, None)
        else
          do addr_ <- deref addr_;
          do '(rc, buf) <- read_data_with_check addr_ (to_uint16 (size schema));
          ret (if negb (rc =? SCH_ST_ERROR) then SCH_ST_OK else SCH_ST_ERROR, buf)
    | _, _ => ret (SCH_ST_ERROR, None)
    end.

(** *** Initialisation *)

(** The globals at program start: statics are zero, both arrays are zero. *)
Definition boot (j : memory) : storage :=
  {| storage_is_open := false;
     st_flightplan_addr := None;
     st_flightplan_base_addr := 0;
     st_flightplan_entries := 0;
     st_flightplan_tlb_base_addr := 0;
     st_flightplan_tlb :=
       replicate (Z.to_nat (SCH_FP_MAX_ENTRIES cfg + 1)) {| addr := 0; tlb_unixtime := 0 |};
     st_payload_addr := None;
     st_payload_sections := 0;
     st_payloads_entries := 0;
     st_payload_base_addr := 0;
     flash := mem_zero;
     fram := mem_zero;
     junk := j;
     trace := [] |}.

Definition storage_init : M Z :=
  run modify (fun st =>
    let tlb_base := SCH_FLASH_INIT_MEMORY cfg in
    let fp_base := tlb_base + SCH_SIZE_PER_SECTION cfg in
    {| storage_is_open := true;
       st_flightplan_addr := st_flightplan_addr st;
       st_flightplan_base_addr := fp_base;
       st_flightplan_entries := st_flightplan_entries st;
       st_flightplan_tlb_base_addr := tlb_base;
       st_flightplan_tlb := st_flightplan_tlb st;
       st_payload_addr := st_payload_addr st;
       st_payload_sections := st_payload_sections st;
       st_payloads_entries := st_payloads_entries st;
       st_payload_base_addr := fp_base + SCH_SIZE_PER_SECTION cfg * st_flightplan_sections;
       flash := flash st;
       fram := fram st;
       junk := junk st;
       trace := trace st |});
  ret SCH_ST_OK.

Definition storage_table_status_init (n_variables drop_ : Z) : M Z :=
  do open <- gets storage_is_open;
  if negb open then ret SCH_ST_ERROR else ret SCH_ST_OK.

Definition section_addresses (base : Z) (n : Z) : list Z :=
  map (fun i => to_uint32 (base + Z.of_nat i * SCH_SIZE_PER_SECTION cfg)) (seq 0 (Z.to_nat n)).

Definition set_fp_table (a : option (list Z)) (n : Z) (st : storage) : storage :=
  {| storage_is_open := storage_is_open st;
     st_flightplan_addr := a;
     st_flightplan_base_addr := st_flightplan_base_addr st;
     st_flightplan_entries := n;
     st_flightplan_tlb_base_addr := st_flightplan_tlb_base_addr st;
     st_flightplan_tlb := st_flightplan_tlb st;
     st_payload_addr := st_payload_addr st;
     st_payload_sections := st_payload_sections st;
     st_payloads_entries := st_payloads_entries st;
     st_payload_base_addr := st_payload_base_addr st;
     flash := flash st;
     fram := fram st;
     junk := junk st;
     trace := trace st |}.

Definition set_payload_table (a : option (list Z)) (sections n : Z) (st : storage) : storage :=
  {| storage_is_open := storage_is_open st;
     st_flightplan_addr := st_flightplan_addr st;
     st_flightplan_base_addr := st_flightplan_base_addr st;
     st_flightplan_entries := st_flightplan_entries st;
     st_flightplan_tlb_base_addr := st_flightplan_tlb_base_addr st;
     st_flightplan_tlb := st_flightplan_tlb st;
     st_payload_addr := a;
     st_payload_sections := sections;
     st_payloads_entries := n;
     st_payload_base_addr := st_payload_base_addr st;
     flash := flash st;
     fram := fram st;
     junk := junk st;
     trace := trace st |}.

(** After [free(st_flightplan_addr)] the pointer dangles until it is
    assigned again; the reset that runs in between reads through it. *)
Definition storage_table_flight_plan_init (n_entries : Z) (drop_ : bool) : M Z :=
  do open <- gets storage_is_open;
  if negb open then ret SCH_ST_ERROR
  else
    do fp_addr <- gets st_flightplan_addr;
    do n <- gets st_flightplan_entries;
    if bool_decide (is_Some fp_addr) && negb drop_ then ret SCH_ST_ERROR
    else
      run (if bool_decide (is_Some fp_addr)
           then run modify (set_fp_table None n); run storage_flight_plan_reset; ret tt
           else ret tt);
      do base <- gets st_flightplan_base_addr;
      run modify (set_fp_table (Some (section_addresses base st_flightplan_sections)) n_entries);
      do tlb <- gets st_flightplan_tlb;
      run modify (set_tlb (replicate (length tlb) tlb_null));
      storage_flightplan_load_tlb.

Definition storage_table_payload_init (n_entries : Z) (drop_ : bool) : M Z :=
  do open <- gets storage_is_open;
  if negb open then ret SCH_ST_ERROR
  else
    do payload_addr <- gets st_payload_addr;
    if bool_decide (is_Some payload_addr) && negb drop_ then ret SCH_ST_ERROR
    else
      do base <- gets st_payload_base_addr;
      let sections := SCH_SECTIONS_PER_PAYLOAD cfg * n_entries in
      run modify (set_payload_table (Some (section_addresses base sections)) sections n_entries);
      ret 0.

End StorageFlash.

(** ** repoData.c *)

(** Addition of two [int]s; an overflow is undefined. *)
Definition int_add (a b : Z) : M Z :=
  let r := a + b in
  if (INT_MIN <=? r) && (r <=? INT_MAX) then ret r else undefined.

Section RepoData.

Variable cfg : config.

Definition dat_set_status_var (index : Z) (value : value32_t) : M Z :=
  do rc <- storage_status_set_value_idx cfg index value;
  if SCH_STORAGE_TRIPLE_WR cfg then
    do rc2 <- storage_status_set_value_idx cfg (index + dat_status_last_address cfg) value;
    do rc3 <- storage_status_set_value_idx cfg (index + dat_status_last_address cfg * 2) value;
    ret (Z.lor (Z.lor rc rc2) rc3)
  else ret rc.

Definition dat_set_system_var (index value : Z) : M Z :=
  dat_set_status_var index (value32_of_int value).

Definition dat_get_status_var (index : Z) : M value32_t :=
  do '(_, value_1) <- storage_status_get_value_idx cfg index;
  if SCH_STORAGE_TRIPLE_WR cfg then
    do '(_, value_2) <- storage_status_get_value_idx cfg (index + dat_status_last_var cfg);
    do '(_, value_3) <- storage_status_get_value_idx cfg (index + dat_status_last_var cfg * 2);
    if (value_1 =? value_2) || (value_1 =? value_3) then ret value_1
    else if value_2 =? value_3 then ret value_2
    else ret value_1
  else ret value_1.

Definition dat_get_system_var (index : Z) : M Z :=
  do var <- dat_get_status_var index;
  ret (value32_i var).

Definition dat_set_fp (timetodo : Z) (command args_ : option (list Z))
    (executions_ periodical_ : Z) : M Z :=
  do entries <- dat_get_system_var (dat_fpl_queue cfg);
  do rc <- storage_flight_plan_set cfg timetodo command args_ executions_ periodical_
             (SCH_COMM_NODE cfg);
  if rc =? SCH_ST_OK then
    do entries1 <- int_add entries 1;
    run dat_set_system_var (dat_fpl_queue cfg) entries1;
    ret rc
  else ret rc.

Definition dat_get_fp (elapsed_sec : Z) (command args_ executions_ period : ptr)
    : M (Z * option fp_entry_t) :=
  do entries <- dat_get_system_var (dat_fpl_queue cfg);
  do '(rc, out) <- storage_flight_plan_get_args cfg elapsed_sec command args_ executions_ period PTR;
  do rc <- (if rc =? SCH_ST_OK
            then storage_flight_plan_delete_row cfg elapsed_sec
            else ret rc);
  if rc =? SCH_ST_OK then
    do entries1 <- int_add entries (-1);
    run dat_set_system_var (dat_fpl_queue cfg) entries1;
    ret (rc, out)
  else ret (rc, out).

Definition dat_del_fp (timetodo : Z) : M Z :=
  do entries <- dat_get_system_var (dat_fpl_queue cfg);
  do rc <- storage_flight_plan_delete_row cfg timetodo;
  if rc =? SCH_ST_OK then
    do entries1 <- int_add entries (-1);
    run dat_set_system_var (dat_fpl_queue cfg) entries1;
    ret rc
  else ret rc.

Definition dat_reset_fp : M Z :=
  do rc <- storage_flight_plan_reset cfg;
  if rc =? SCH_ST_OK then
    run dat_set_system_var (dat_fpl_queue cfg) 0;
    ret rc
  else ret rc.

(** One round of the loop of [dat_purge_fp]: [fp_i] keeps its previous
    content when the read fails. *)
Definition purge_entry (time_min : Z) (i : Z) (acc : fp_entry_t * Z) : M (fp_entry_t * Z) :=
  let '(fp_i, fp_entries) := acc in
  do '(ok, row) <- storage_flight_plan_get_idx cfg i PTR;
  let fp_i := match row with Some r => r | None => fp_i end in
  if (ok =? SCH_ST_OK) && (unixtime fp_i >? time_min) then ret (fp_i, fp_entries + 1)
  else if negb (unixtime fp_i =? ST_FP_NULL) then
    run storage_flight_plan_delete_row_idx cfg i;
    ret (fp_i, fp_entries)
  else ret (fp_i, fp_entries).

(** [now] is what [dat_get_time] returns; [fp_i] is the content of the
    local variable of that name, which the function does not initialise. *)
Definition dat_purge_fp (now : Z) (fp_i : fp_entry_t) : M Z :=
  do time_min <- int_add (to_int32 now) 1;
  do '(_, fp_entries) <- for_range 0 (Z.to_nat (SCH_FP_MAX_ENTRIES cfg))
                           (purge_entry time_min) (fp_i, 0);
  run dat_set_system_var (dat_fpl_queue cfg) fp_entries;
  ret SCH_ST_OK.

End RepoData.

(** ** Layout and well-formedness conditions *)

(** The FRAM holds the status table (three copies at most) below the TLB
    backup, and the simulated array covers the whole FRAM. *)
Definition fram_layout_ok (cfg : config) : Prop :=
  0 <= SCH_FP_MAX_ENTRIES cfg /\
  0 <= dat_status_last_address cfg /\
  dat_status_last_var cfg = dat_status_last_address cfg /\
  3 * sizeof_value32_t * dat_status_last_address cfg + sizeof_tlb cfg <= ST_FRAM_SIZE /\
  ST_FRAM_SIZE <= ST_FRAME_SIZE cfg.

(** The 32-bit word stored at status index [k]. *)
Definition status_word (st : storage) (k : Z) : Z :=
  decode32 (mem_read (fram st) (k * sizeof_value32_t) 4).

(** The value the triple read settles on. *)
Definition vote (v1 v2 v3 : Z) : Z :=
  if (v1 =? v2) || (v1 =? v3) then v1 else if v2 =? v3 then v2 else v1.

(** Everything in the state but the FRAM and the trace. *)
Definition engine (st : storage) :=
  (storage_is_open st, st_flightplan_addr st, st_flightplan_base_addr st,
   st_flightplan_entries st, st_flightplan_tlb_base_addr st, st_flightplan_tlb st,
   st_payload_addr st, st_payload_sections st, st_payloads_entries st,
   st_payload_base_addr st, flash st, junk st).

(** An [addr] field holds a [uint32_t]. *)
Definition addr_ok (e : fp_addr_t) : Prop := 0 <= addr e < 2 ^ 32.

Definition addr_okb (e : fp_addr_t) : bool := (0 <=? addr e) && (addr e <? 2 ^ 32).

(** The TLB array has its [SCH_FP_MAX_ENTRIES+1] slots, each with a 32-bit
    address, and the table was opened with at most [SCH_FP_MAX_ENTRIES]
    entries. *)
Definition tlb_ok (cfg : config) (st : storage) : Prop :=
  Z.of_nat (length (st_flightplan_tlb st)) = SCH_FP_MAX_ENTRIES cfg + 1 /\
  st_flightplan_entries st <= SCH_FP_MAX_ENTRIES cfg /\
  Forall addr_ok (st_flightplan_tlb st).

(** The metadata counter: the [addr] field of slot [SCH_FP_MAX_ENTRIES]. *)
Definition tlb_counter (cfg : config) (st : storage) : Z :=
  match st_flightplan_tlb st !! Z.to_nat (SCH_FP_MAX_ENTRIES cfg) with
  | Some e => addr e
  | None => 0
  end.

(** How many rebuilds a trace records. *)
Fixpoint rebuild_count (t : list event) : Z :=
  match t with
  | [] => 0
  | LogRebuild :: t' => 1 + rebuild_count t'
  | _ :: t' => rebuild_count t'
  end.

(** Partial correctness of a computation with respect to a relation between
    the state before and the state after. *)
Definition preserves {A} (R : storage -> storage -> Prop) (m : M A) : Prop :=
  forall st a st', m st = Some (a, st') -> R st st'.

(** A computation that leaves the state as it is. *)
Definition read_only {A} (m : M A) : Prop :=
  forall st a st', m st = Some (a, st') -> st' = st.

(** What every flight-plan operation keeps: the shape of the TLB, the
    rebuilds already logged, and the FRAM below the TLB backup. *)
Definition frame (cfg : config) (st st' : storage) : Prop :=
  tlb_ok cfg st ->
  tlb_ok cfg st' /\
  rebuild_count (trace st) <= rebuild_count (trace st') /\
  forall x, 0 <= x < ST_FRAM_SIZE - sizeof_tlb cfg -> fram st' x = fram st x.

(** No rebuild is logged between two states. *)
Definition quiet (st st' : storage) : Prop :=
  rebuild_count (trace st') = rebuild_count (trace st).

(** The flight-plan operations of the engine, and their runs. *)
Inductive fp_op :=
| OpSetSt (row : option fp_entry_t)
| OpSet (timetodo : Z) (command args_ : option (list Z)) (executions_ period node_ : Z)
| OpGetSt (timetodo : Z) (row : ptr)
| OpGetIdx (index : Z) (row : ptr)
| OpGetArgs (timetodo : Z) (command args_ executions_ period node_ : ptr)
| OpDeleteRow (timetodo : Z)
| OpDeleteRowIdx (index : Z).

Definition run_op (cfg : config) (op : fp_op) : M Z :=
  match op with
  | OpSetSt row => storage_flight_plan_set_st cfg row
  | OpSet t c a e p n => storage_flight_plan_set cfg t c a e p n
  | OpGetSt t row => do '(rc, _) <- storage_flight_plan_get_st cfg t row; ret rc
  | OpGetIdx i row => do '(rc, _) <- storage_flight_plan_get_idx cfg i row; ret rc
  | OpGetArgs t c a e p n =>
      do '(rc, _) <- storage_flight_plan_get_args cfg t c a e p n; ret rc
  | OpDeleteRow t => storage_flight_plan_delete_row cfg t
  | OpDeleteRowIdx i => storage_flight_plan_delete_row_idx cfg i
  end.

Fixpoint run_ops (cfg : config) (ops : list fp_op) : M (list Z) :=
  match ops with
  | [] => ret []
  | op :: ops' =>
      do rc <- run_op cfg op;
      do rcs <- run_ops cfg ops';
      ret (rc :: rcs)
  end.

(** Between two states: if no rebuild was logged, the metadata counter did
    not go down. *)
Definition counter_monotone (cfg : config) (st st' : storage) : Prop :=
  tlb_ok cfg st ->
  tlb_ok cfg st' /\
  rebuild_count (trace st) <= rebuild_count (trace st') /\
  (rebuild_count (trace st') = rebuild_count (trace st) ->
   tlb_counter cfg st <= tlb_counter cfg st').

(** A slot that holds an entry, and one that a purge at [time_min] keeps. *)
Definition live (e : fp_addr_t) : bool := negb (tlb_unixtime e =? ST_FP_NULL).

Definition kept (time_min : Z) (e : fp_addr_t) : bool :=
  live e && (tlb_unixtime e >? time_min).

Fixpoint count_live (l : list fp_addr_t) : Z :=
  match l with
  | [] => 0
  | e :: l' => (if live e then 1 else 0) + count_live l'
  end.

(** The number of entries the TLB holds. *)
Definition live_entries (cfg : config) (st : storage) : Z :=
  count_live (take (Z.to_nat (SCH_FP_MAX_ENTRIES cfg)) (st_flightplan_tlb st)).

(** Every entry of the TLB can be read from the flash, and the time stored
    there is the time the TLB has. *)
Definition coherent (cfg : config) (st : storage) : Prop :=
  forall k e,
    0 <= k < SCH_FP_MAX_ENTRIES cfg ->
    st_flightplan_tlb st !! Z.to_nat k = Some e ->
    live e = true ->
    exists row,
      storage_flight_plan_get_idx cfg k PTR st = Some ((SCH_ST_OK, Some row), st) /\
      unixtime row = tlb_unixtime e.

(** A read-only computation that gives the same result in any two states
    related by [E]. *)
Definition respects {A} (E : storage -> storage -> Prop) (m : M A) : Prop :=
  forall st s a st', E st s -> m st = Some (a, st') -> st' = st /\ m s = Some (a, s).

(** Two states with the same table size, the same slot [k] and the same
    flash. *)
Definition same_slot (k : Z) (st s : storage) : Prop :=
  st_flightplan_entries s = st_flightplan_entries st /\
  st_flightplan_tlb s !! Z.to_nat k = st_flightplan_tlb st !! Z.to_nat k /\
  flash s = flash st.

(** ** Payload addressing as the specification words it *)

(** From the specification: [samples_per_page = PAGE / size],
    [samples_per_section = samples_per_page * (SECTION / PAGE)],
    [section_idx = p * K + i / samples_per_section] and
    [addr = base[section_idx] + ((i / samples_per_page) mod (SECTION/PAGE)) * PAGE
            + (i mod samples_per_page) * size]. *)
Definition spec_sample_address (cfg : config) (base : list Z) (p i size_ : Z) : option Z :=
  let samples_per_page := ST_PAGE_SIZE / size_ in
  let samples_per_section := samples_per_page * (SCH_SIZE_PER_SECTION cfg / ST_PAGE_SIZE) in
  let section_idx := p * SCH_SECTIONS_PER_PAYLOAD cfg + i / samples_per_section in
  match base !! Z.to_nat section_idx with
  | Some b =>
      Some (b + ((i / samples_per_page) mod (SCH_SIZE_PER_SECTION cfg / ST_PAGE_SIZE)) * ST_PAGE_SIZE
              + (i mod samples_per_page) * size_)
  | None => None
  end.

(** The address the code computes for sample [i] of payload [p]. *)
Definition code_address (base i size_ : Z) : Z :=
  to_uint32 (base + i / (ST_PAGE_SIZE / size_) * ST_PAGE_SIZE
                  + i mod (ST_PAGE_SIZE / size_) * size_).

(** ** A simulated node

    Four flight-plan entries, sections of four pages, two payloads of two
    sections each, ten status variables written three times. *)

Definition sim_cfg : config :=
  {| SCH_FP_MAX_ENTRIES := 4;
     SCH_SIZE_PER_SECTION := 2048;
     SCH_SECTIONS_PER_PAYLOAD := 2;
     SCH_FLASH_INIT_MEMORY := 0;
     SCH_STORAGE_TRIPLE_WR := true;
     SCH_COMM_NODE := 1;
     ST_FRAME_SIZE := 32768;
     dat_status_last_address := 10;
     dat_status_last_var := 10;
     dat_fpl_queue := 5 |}.

Definition state_of {A} (r : option (A * storage)) (otherwise : storage) : storage :=
  match r with
  | Some (_, st) => st
  | None => otherwise
  end.

(** What [dat_repo_init] does to the storage, followed by a flight-plan reset. *)
Definition sim_start : M Z :=
  run storage_init sim_cfg;
  run storage_table_status_init 30 0;
  run storage_table_payload_init sim_cfg 2 false;
  run storage_table_flight_plan_init sim_cfg (SCH_FP_MAX_ENTRIES sim_cfg) false;
  dat_reset_fp sim_cfg.

Definition sim_boot : storage := boot sim_cfg mem_zero.

Definition sim_ready : storage := state_of (sim_start sim_boot) sim_boot.

Definition sim_cmd : option (list Z) := Some [112; 105; 110; 103].
Definition sim_args : option (list Z) := Some [53].

(** Four insertions fill the first section; one deletion frees a slot. *)
Definition sim_fill : M Z :=
  run dat_set_fp sim_cfg 100 sim_cmd sim_args 1 0;
  run dat_set_fp sim_cfg 200 sim_cmd sim_args 1 0;
  run dat_set_fp sim_cfg 300 sim_cmd sim_args 1 0;
  run dat_set_fp sim_cfg 400 sim_cmd sim_args 1 0;
  dat_del_fp sim_cfg 100.

Definition sim_full_section : storage := state_of (sim_fill sim_ready) sim_ready.

Definition sim_row (t : Z) : fp_entry_t :=
  {| unixtime := t; executions := 1; periodical := 0; node := 1;
     cmd := [112; 105; 110; 103]; args := [53] |}.

(** Three entries around the time 1000. *)
Definition sim_plan : M Z :=
  run dat_set_fp sim_cfg 500 sim_cmd sim_args 1 0;
  run dat_set_fp sim_cfg 1001 sim_cmd sim_args 1 0;
  dat_set_fp sim_cfg 2500 sim_cmd sim_args 1 0.

Definition sim_planned : storage := state_of (sim_plan sim_ready) sim_ready.

Definition sim_schema : data_map_t := {| size := 200; sys_index := 3 |}.
Definition sim_sample : list Z := replicate 200 7.

(** ** storage_flash.c: closing the storage, erasing the payloads *)

(** The two address tables are freed and their pointers set to NULL; the
    TLB array and the two memories stay as they are. *)
Definition storage_close : M Z :=
  run modify (fun st =>
    {| storage_is_open := false;
       st_flightplan_addr := None;
       st_flightplan_base_addr := 0;
       st_flightplan_entries := 0;
       st_flightplan_tlb_base_addr := 0;
       st_flightplan_tlb := st_flightplan_tlb st;
       st_payload_addr := None;
       st_payload_sections := 0;
       st_payloads_entries := 0;
       st_payload_base_addr := 0;
       flash := flash st;
       fram := fram st;
       junk := junk st;
       trace := trace st |});
  ret SCH_ST_OK.

Section PayloadReset.

Variable cfg : config.

(** One round of the loop of [storage_payload_reset_table]. *)
Definition reset_table_section (payload i : Z) (_ : unit) : M unit :=
  let section_idx := i + payload * SCH_SECTIONS_PER_PAYLOAD cfg in
  do payload_addr <- gets st_payload_addr;
  do payload_addr <- deref payload_addr;
  do section_addr <- array_get payload_addr section_idx;
  run storage_erase_flash cfg 0 section_addr;
  ret tt.

Definition storage_payload_reset_table (payload : Z) : M Z :=
  do open <- gets storage_is_open;
  do payload_addr <- gets st_payload_addr;
  if negb open || negb (bool_decide (is_Some payload_addr)) then ret SCH_ST_ERROR
  else
    run for_range 0 (Z.to_nat (SCH_SECTIONS_PER_PAYLOAD cfg)) (reset_table_section payload) tt;
    ret SCH_ST_OK.

Definition storage_payload_reset : M Z :=
  do open <- gets storage_is_open;
  do payload_addr <- gets st_payload_addr;
  do entries <- gets st_payloads_entries;
  if negb open || negb (bool_decide (is_Some payload_addr)) || (entries =? 0)
  then ret SCH_ST_ERROR
  else
    run for_range 0 (Z.to_nat entries)
          (fun i _ => run storage_payload_reset_table i; ret tt) tt;
    ret SCH_ST_OK.

End PayloadReset.

(** ** repoData.c: single copies, payload samples, the state machine *)

(** Subtraction of two [int]s; an overflow is undefined. *)
Definition int_sub (a b : Z) : M Z :=
  let r := a - b in
  if (INT_MIN <=? r) && (r <=? INT_MAX) then ret r else undefined.

(** [1 << n] for an [int]: undefined for a negative [n] and when the
    result is not an [int]. *)
Definition shl_one (n : Z) : option Z :=
  if (0 <=? n) && (n <? 31) then Some (2 ^ n) else None.

Definition dat_stmachine_is_sensor_active (payload active_payloads n_payloads : Z) : option Z :=
  match shl_one n_payloads with
  | Some limit =>
      if active_payloads >=? limit then Some 0
      else match shl_one payload with
           | Some bit => Some (if negb (Z.land active_payloads bit =? 0) then 1 else 0)
           | None => None
           end
  | None => None
  end.

Section RepoPayload.

Variable cfg : config.

(** The payload schemas and their number are declared in
    [repoDataSchema.h], which is not part of the sources at hand. *)
Variable data_map : list data_map_t.
Variable last_sensor : Z.

Definition _dat_set_system_var (index value : Z) : M Z :=
  storage_status_set_value_idx cfg index (value32_of_int value).

Definition _dat_get_system_var (index : Z) : M Z :=
  do '(_, value) <- storage_status_get_value_idx cfg index;
  ret (value32_i value).

(** [data] points to the sample; its first four bytes are read for the
    log line before the payload number is checked. *)
Definition dat_add_payload_sample (data : option (list Z)) (payload : Z) : M Z :=
  match data with
  | None => ret (-1)
  | Some data =>
      do schema <- array_get data_map payload;
      do index <- dat_get_system_var cfg (sys_index schema);
      run buffer_slice data 0 4;
      if payload >=? last_sensor then ret SCH_ST_ERROR
      else
        do ret_ <- storage_payload_set_data cfg payload index (Some data) (Some schema);
        if ret_ >=? SCH_ST_OK then
          do index1 <- int_add index 1;
          run dat_set_system_var cfg (sys_index schema) index1;
          ret 0
        else ret (-1)
  end.

Definition dat_get_payload_sample (data : ptr) (payload index : Z)
    : M (Z * option (list Z)) :=
  do schema <- array_get data_map payload;
  storage_payload_get_data cfg payload index data (Some schema).

Definition dat_get_recent_payload_sample (data : ptr) (payload offset : Z)
    : M (Z * option (list Z)) :=
  do schema <- array_get data_map payload;
  do index <- dat_get_system_var cfg (sys_index schema);
  do index1 <- int_add index (-1);
  do index2 <- int_sub index1 offset;
  if index2 >=? 0 then storage_payload_get_data cfg payload index2 data (Some schema)
  else ret (-1, None).

Definition dat_delete_memory_sections : M Z :=
  run storage_payload_reset cfg;
  do ret_ <- storage_flight_plan_reset cfg;
  run for_range 0 (Z.to_nat last_sensor)
        (fun i _ => do schema <- array_get data_map i;
                    run dat_set_system_var cfg (sys_index schema) 0;
                    ret tt) tt;
  run dat_set_system_var cfg (dat_fpl_queue cfg) 0;
  ret ret_.

(** With the flash backend the storage mode is not [SCH_ST_RAM], and the
    block that resets the status variables to their defaults is not
    compiled. The return codes are only logged. *)
Definition dat_repo_init : M unit :=
  run storage_init cfg;
  let status_copies := if SCH_STORAGE_TRIPLE_WR cfg then 3 else 1 in
  run storage_table_status_init (status_copies * dat_status_last_var cfg) 0;
  run storage_table_payload_init cfg last_sensor false;
  run storage_table_flight_plan_init cfg (SCH_FP_MAX_ENTRIES cfg) false;
  ret tt.

Definition dat_repo_close : M unit :=
  run storage_close;
  ret tt.

End RepoPayload.

(** ** Conditions used by the further properties *)

(** Two states with the same open flag and the same payload tables. *)
Definition same_tables (st s : storage) : Prop :=
  storage_is_open s = storage_is_open st /\
  st_payload_addr s = st_payload_addr st /\
  st_payloads_entries s = st_payloads_entries st /\
  st_flightplan_base_addr s = st_flightplan_base_addr st.

(** Two states with the same payload tables and the same flash. *)
Definition same_payload (st s : storage) : Prop :=
  same_tables st s /\ flash s = flash st.

(** Everything in the state but the TLB, the two memories and the trace. *)
Definition tables (st : storage) :=
  (storage_is_open st, st_flightplan_addr st, st_flightplan_base_addr st,
   st_flightplan_entries st, st_flightplan_tlb_base_addr st,
   st_payload_addr st, st_payload_sections st, st_payloads_entries st,
   st_payload_base_addr st, junk st).

(** Between two states: only the flash and the trace may differ. *)
Definition flash_only (st st' : storage) : Prop :=
  tables st' = tables st /\
  st_flightplan_tlb st' = st_flightplan_tlb st /\
  fram st' = fram st.

(** A [unixtime] field holds an [int32_t]. *)
Definition time_ok (e : fp_addr_t) : Prop := INT_MIN <= tlb_unixtime e <= INT_MAX.

(** Slot [j] of the TLB is what the FRAM backup holds for it. *)
Definition synced_at (cfg : config) (st : storage) (j : nat) : Prop :=
  forall e, st_flightplan_tlb st !! j = Some e ->
    mem_read (fram st) (tlb_addr_start cfg + Z.of_nat j * sizeof_fp_addr_t) 8
      = encode_fp_addr e.

(** The TLB is well formed and the FRAM backup holds every slot of it. *)
Definition backup_ok (cfg : config) (st : storage) : Prop :=
  tlb_ok cfg st /\
  Forall time_ok (st_flightplan_tlb st) /\
  forall j, synced_at cfg st j.

Definition keeps_times (st st' : storage) : Prop :=
  Forall time_ok (st_flightplan_tlb st) -> Forall time_ok (st_flightplan_tlb st').

Definition keeps_backup (cfg : config) (st st' : storage) : Prop :=
  backup_ok cfg st -> backup_ok cfg st'.

(** From a well-formed TLB to a TLB with its backup. *)
Definition to_backup (cfg : config) (st st' : storage) : Prop :=
  tlb_ok cfg st -> Forall time_ok (st_flightplan_tlb st) -> backup_ok cfg st'.

(** The same conditions as checks on a concrete state. *)
Definition time_okb (e : fp_addr_t) : bool :=
  (INT_MIN <=? tlb_unixtime e) && (tlb_unixtime e <=? INT_MAX).

Definition synced_atb (cfg : config) (st : storage) (j : nat) : bool :=
  match st_flightplan_tlb st !! j with
  | Some e =>
      bool_decide (mem_read (fram st) (tlb_addr_start cfg + Z.of_nat j * sizeof_fp_addr_t) 8
                   = encode_fp_addr e)
  | None => true
  end.

Definition backup_okb (cfg : config) (st : storage) : bool :=
  forallb time_okb (st_flightplan_tlb st) &&
  forallb (synced_atb cfg st) (seq 0 (length (st_flightplan_tlb st))).

(** ** More of the simulated node *)

(** Payload 0 has records of 256 bytes, payload 1 records of 200 bytes. *)
Definition sim_schema_256 : data_map_t := {| size := 256; sys_index := 4 |}.
Definition sim_data_map : list data_map_t := [sim_schema_256; sim_schema].
Definition sim_last_sensor : Z := 2.
Definition sim_sample_256 : list Z := replicate 256 9.

(** One sample stored for payload 0. *)
Definition sim_sampled : storage :=
  state_of (dat_add_payload_sample sim_cfg sim_data_map sim_last_sensor
              (Some sim_sample_256) 0 sim_ready) sim_ready.

(** Four insertions: every entry of the table is taken. *)
Definition sim_four : M Z :=
  run dat_set_fp sim_cfg 100 sim_cmd sim_args 1 0;
  run dat_set_fp sim_cfg 200 sim_cmd sim_args 1 0;
  run dat_set_fp sim_cfg 300 sim_cmd sim_args 1 0;
  dat_set_fp sim_cfg 400 sim_cmd sim_args 1 0.

Definition sim_full : storage := state_of (sim_four sim_ready) sim_ready.

(** A command of 250 characters. *)
Definition sim_long_cmd : list Z := replicate 250 65.

(** A payload with one sample, beside the three flight-plan entries. *)
Definition sim_busy : storage :=
  state_of (dat_add_payload_sample sim_cfg sim_data_map sim_last_sensor
              (Some sim_sample_256) 0 sim_planned) sim_planned.

(** * Properties *)

(** ** Integers and memories *)

Arguments decode32 : simpl never.
Arguments encode32 : simpl never.
Arguments mem_read : simpl never.
Arguments mem_write : simpl never.
Arguments mem_fill : simpl never.
Arguments to_uint32 : simpl never.
Arguments to_uint16 : simpl never.
Arguments to_int32 : simpl never.

Lemma decode_encode32 v : decode32 (encode32 v) = to_uint32 v.
Proof.
  unfold decode32, encode32, to_uint8, to_uint32.
  change (2 ^ 8) with 256. change (2 ^ 16) with 65536.
  change (2 ^ 24) with 16777216. change (2 ^ 32) with 4294967296.
  Z.div_mod_to_equations. lia.
Qed.

Lemma encode32_length v : length (encode32 v) = 4%nat.
Proof. reflexivity. Qed.

Lemma to_int32_to_uint32 v : to_int32 (to_uint32 v) = to_int32 v.
Proof.
  unfold to_int32, to_uint32.
  change (2 ^ 31) with 2147483648. change (2 ^ 32) with 4294967296.
  Z.div_mod_to_equations. lia.
Qed.

Lemma to_int32_id v : INT_MIN <= v <= INT_MAX -> to_int32 v = v.
Proof.
  unfold to_int32, INT_MIN, INT_MAX.
  change (2 ^ 31) with 2147483648. change (2 ^ 32) with 4294967296.
  intros. Z.div_mod_to_equations. lia.
Qed.

Lemma to_uint32_id v : 0 <= v < 2 ^ 32 -> to_uint32 v = v.
Proof. intros. apply Z.mod_small. lia. Qed.

Lemma to_uint16_id v : 0 <= v < 2 ^ 16 -> to_uint16 v = v.
Proof. intros. apply Z.mod_small. lia. Qed.

Lemma to_uint32_range v : 0 <= to_uint32 v < 2 ^ 32.
Proof. apply Z.mod_pos_bound. lia. Qed.

Lemma mem_read_length m a n : length (mem_read m a n) = n.
Proof. unfold mem_read. by rewrite length_map, length_seq. Qed.

Lemma mem_read_lookup m a n k :
  (k < n)%nat -> mem_read m a n !! k = Some (m (a + Z.of_nat k)).
Proof.
  intros. unfold mem_read. by rewrite list_lookup_fmap, lookup_seq_lt.
Qed.

Lemma mem_read_ext m m' a n :
  (forall x, a <= x < a + Z.of_nat n -> m x = m' x) ->
  mem_read m a n = mem_read m' a n.
Proof.
  intros H. unfold mem_read. apply map_ext_in. intros k Hk.
  apply in_seq in Hk. apply H. lia.
Qed.

Lemma mem_write_inside m a bs x :
  a <= x < a + Z.of_nat (length bs) ->
  mem_write m a bs x = nth (Z.to_nat (x - a)) bs 0.
Proof.
  intros H. unfold mem_write.
  destruct (Z.leb_spec a x), (Z.ltb_spec x (a + Z.of_nat (length bs))); simpl; lia || done.
Qed.

Lemma mem_write_outside m a bs x :
  x < a \/ a + Z.of_nat (length bs) <= x -> mem_write m a bs x = m x.
Proof.
  intros H. unfold mem_write.
  destruct (Z.leb_spec a x), (Z.ltb_spec x (a + Z.of_nat (length bs))); simpl; lia || done.
Qed.

Lemma mem_read_write_same m a bs : mem_read (mem_write m a bs) a (length bs) = bs.
Proof.
  apply list_eq. intros k. destruct (decide (k < length bs)%nat) as [Hk|Hk].
  - rewrite mem_read_lookup, mem_write_inside by lia.
    replace (Z.to_nat (a + Z.of_nat k - a)) with k by lia.
    destruct (lookup_lt_is_Some_2 bs k Hk) as [x Hx]. rewrite Hx. f_equal.
    by apply nth_lookup_Some with (d := 0) in Hx.
  - rewrite !lookup_ge_None_2; [done | lia | rewrite mem_read_length; lia].
Qed.

Lemma mem_read_write_disjoint m a bs a' n :
  a' + Z.of_nat n <= a \/ a + Z.of_nat (length bs) <= a' ->
  mem_read (mem_write m a bs) a' n = mem_read m a' n.
Proof.
  intros H. apply mem_read_ext. intros x Hx. apply mem_write_outside. lia.
Qed.

(** ** The monad *)

Lemma bind_Some {A B} (m : M A) (k : A -> M B) st a st' :
  m st = Some (a, st') -> bind m k st = k a st'.
Proof. intros H. unfold bind. by rewrite H. Qed.

Lemma bind_inv {A B} (m : M A) (k : A -> M B) st b st'' :
  bind m k st = Some (b, st'') ->
  exists a st', m st = Some (a, st') /\ k a st' = Some (b, st'').
Proof.
  unfold bind. destruct (m st) as [[a st']|]; [eauto | discriminate].
Qed.

(** ** Status table *)

Lemma status_word_set_fram st j k v e :
  0 <= j -> 0 <= k ->
  status_word (set_fram (mem_write (fram st) (k * sizeof_value32_t) (encode32 v)) e st) j =
    if j =? k then to_uint32 v else status_word st j.
Proof.
  intros Hj Hk. unfold status_word. cbn [fram set_fram].
  destruct (Z.eqb_spec j k) as [->|Hne].
  - rewrite <- decode_encode32. f_equal.
    apply (mem_read_write_same (fram st) (k * sizeof_value32_t) (encode32 v)).
  - f_equal. apply mem_read_write_disjoint. rewrite encode32_length.
    unfold sizeof_value32_t. lia.
Qed.

Section Status.

Variable cfg : config.
Hypothesis Hlayout : fram_layout_ok cfg.

Let N := dat_status_last_address cfg.

Lemma status_slot_bounds k :
  0 <= k < 3 * N ->
  0 <= k * sizeof_value32_t /\ k * sizeof_value32_t + 4 <= ST_FRAME_SIZE cfg /\
  k * sizeof_value32_t + 4 <= 2 ^ 15.
Proof.
  destruct Hlayout as (HM & HN & HV & Hfit & Hsim).
  unfold sizeof_tlb, sizeof_fp_addr_t, sizeof_value32_t, ST_FRAM_SIZE in *.
  change (2 ^ 15) with 32768. subst N. lia.
Qed.

Lemma storage_status_get_value_idx_eq k st :
  0 <= k < 3 * N ->
  storage_status_get_value_idx cfg k st = Some ((SCH_ST_OK, status_word st k), st).
Proof.
  intros Hk. destruct (status_slot_bounds k Hk) as (H0 & H1 & H2).
  change (2 ^ 15) with 32768 in H2.
  unfold storage_status_get_value_idx, storage_read_fram, status_word.
  rewrite (to_uint32_id k) by (unfold sizeof_value32_t in *; change (2 ^ 32) with 4294967296; lia).
  rewrite to_uint16_id by (change (2 ^ 16) with 65536; lia).
  rewrite to_uint32_id by (change (2 ^ 32) with 4294967296; lia).
  unfold bind, gets, ret, in_bounds.
  destruct (Z.leb_spec 0 (k * sizeof_value32_t)); [|lia].
  destruct (Z.leb_spec (k * sizeof_value32_t + sizeof_value32_t) (ST_FRAME_SIZE cfg));
    [|unfold sizeof_value32_t in *; lia].
  reflexivity.
Qed.

Lemma storage_status_set_value_idx_eq k v st :
  0 <= k < 3 * N ->
  storage_status_set_value_idx cfg k v st =
    Some (SCH_ST_OK,
          set_fram (mem_write (fram st) (k * sizeof_value32_t) (encode32 v))
                   (FramWrite (k * sizeof_value32_t) sizeof_value32_t) st).
Proof.
  intros Hk. destruct (status_slot_bounds k Hk) as (H0 & H1 & H2).
  change (2 ^ 15) with 32768 in H2.
  unfold storage_status_set_value_idx, storage_write_fram.
  rewrite to_uint16_id by (change (2 ^ 16) with 65536; lia).
  rewrite to_uint32_id by (change (2 ^ 32) with 4294967296; lia).
  unfold bind, gets, ret, modify, in_bounds, buffer_slice.
  simpl.
  destruct (Z.leb_spec 0 (k * sizeof_value32_t)); [|lia].
  destruct (Z.leb_spec (k * sizeof_value32_t + sizeof_value32_t) (ST_FRAME_SIZE cfg));
    [|unfold sizeof_value32_t in *; lia].
  reflexivity.
Qed.

End Status.

Section StatusFacade.

Variable cfg : config.
Hypothesis Hlayout : fram_layout_ok cfg.

Let N := dat_status_last_address cfg.

Lemma last_var_eq : dat_status_last_var cfg = N.
Proof. by destruct Hlayout as (_ & _ & -> & _). Qed.

Lemma dat_get_status_var_eq i st :
  0 <= i < N ->
  dat_get_status_var cfg i st =
    Some (if SCH_STORAGE_TRIPLE_WR cfg
          then vote (status_word st i) (status_word st (i + N)) (status_word st (i + N * 2))
          else status_word st i, st).
Proof.
  intros Hi. unfold dat_get_status_var.
  rewrite (bind_Some _ _ _ _ _ (storage_status_get_value_idx_eq cfg Hlayout i st ltac:(fold N; lia))).
  destruct (SCH_STORAGE_TRIPLE_WR cfg); [|done].
  rewrite last_var_eq.
  rewrite (bind_Some _ _ _ _ _ (storage_status_get_value_idx_eq cfg Hlayout (i + N) st ltac:(fold N; lia))).
  rewrite (bind_Some _ _ _ _ _ (storage_status_get_value_idx_eq cfg Hlayout (i + N * 2) st ltac:(fold N; lia))).
  unfold vote, ret.
  destruct (_ || _); [done|]. by destruct (_ =? _).
Qed.

(** What a write of the facade leaves in the table. *)
Lemma dat_set_status_var_eq i v st :
  0 <= i < N ->
  exists st',
    dat_set_status_var cfg i v st = Some (SCH_ST_OK, st') /\
    engine st' = engine st /\
    (forall x, ST_FRAM_SIZE - sizeof_tlb cfg <= x -> fram st' x = fram st x) /\
    (forall j, 0 <= j ->
       status_word st' j =
         if (j =? i) || (SCH_STORAGE_TRIPLE_WR cfg && ((j =? i + N) || (j =? i + N * 2)))
         then to_uint32 v else status_word st j).
Proof.
  intros Hi. unfold dat_set_status_var.
  pose proof Hlayout as (HM & HN & HV & Hfit & Hsim). fold N in HN, Hfit.
  rewrite (bind_Some _ _ _ _ _ (storage_status_set_value_idx_eq cfg Hlayout i v st ltac:(fold N; lia))).
  assert (Hout : forall m k x, 0 <= k < 3 * N -> ST_FRAM_SIZE - sizeof_tlb cfg <= x ->
            mem_write m (k * sizeof_value32_t) (encode32 v) x = m x).
  { intros m k x Hk Hx. apply mem_write_outside. rewrite encode32_length.
    unfold sizeof_value32_t in *. lia. }
  destruct (SCH_STORAGE_TRIPLE_WR cfg) eqn:Htmr.
  - fold N.
    rewrite (bind_Some _ _ _ _ _ (storage_status_set_value_idx_eq cfg Hlayout (i + N) v _ ltac:(fold N; lia))).
    rewrite (bind_Some _ _ _ _ _ (storage_status_set_value_idx_eq cfg Hlayout (i + N * 2) v _ ltac:(fold N; lia))).
    eexists. split; [reflexivity|]. split; [reflexivity|]. split.
    + intros x Hx. cbn [fram set_fram]. rewrite !Hout by (done || fold N; lia). done.
    + intros j Hj. rewrite !status_word_set_fram by lia.
      destruct (Z.eqb_spec j i), (Z.eqb_spec j (i + N)), (Z.eqb_spec j (i + N * 2)); simpl; done.
  - eexists. split; [reflexivity|]. split; [reflexivity|]. split.
    + intros x Hx. cbn [fram set_fram]. by rewrite Hout by (done || fold N; lia).
    + intros j Hj. rewrite status_word_set_fram by lia. simpl. by rewrite orb_false_r.
Qed.

(** Reading back what the facade has just written. *)
Lemma dat_set_get_status_var i v st st' rc :
  0 <= i < N -> 0 <= v < 2 ^ 32 ->
  dat_set_status_var cfg i v st = Some (rc, st') ->
  dat_get_status_var cfg i st' = Some (v, st').
Proof.
  intros Hi Hv Hset.
  destruct (dat_set_status_var_eq i v st Hi) as (st1 & Heq & _ & _ & Hw).
  rewrite Heq in Hset. injection Hset as <- <-.
  pose proof Hlayout as (HM & HN & HV & Hfit & Hsim). fold N in HN, Hfit.
  rewrite dat_get_status_var_eq by done.
  rewrite !Hw by lia. rewrite Z.eqb_refl.
  destruct (SCH_STORAGE_TRIPLE_WR cfg); simpl.
  - rewrite (Z.eqb_refl (i + N)), (Z.eqb_refl (i + N * 2)), !orb_true_r.
    rewrite to_uint32_id by done. unfold vote. by rewrite Z.eqb_refl.
  - by rewrite to_uint32_id.
Qed.

End StatusFacade.

Ltac eqb_decide :=
  repeat match goal with
    | |- context [?a =? ?b] =>
        first [ replace (a =? b) with true by (symmetry; apply Z.eqb_eq; lia)
              | replace (a =? b) with false by (symmetry; apply Z.eqb_neq; lia) ]
    end.

(** C2. With the triple write enabled, a value written by [dat_set_status_var]
    is what [dat_get_status_var] returns; it still is after any one of the
    three physical copies has been overwritten with any value; and after two
    copies have been overwritten the read still returns a value. *)
Theorem status_triple_write_round_trip cfg st i v :
  fram_layout_ok cfg ->
  SCH_STORAGE_TRIPLE_WR cfg = true ->
  0 <= i < dat_status_last_address cfg ->
  0 <= v < 2 ^ 32 ->
  exists st1,
    dat_set_status_var cfg i v st = Some (SCH_ST_OK, st1) /\
    dat_get_status_var cfg i st1 = Some (v, st1) /\
    (forall c w, 0 <= c < 3 ->
       exists st2,
         storage_status_set_value_idx cfg (i + c * dat_status_last_address cfg) w st1
           = Some (SCH_ST_OK, st2) /\
         dat_get_status_var cfg i st2 = Some (v, st2)) /\
    (forall c1 c2 w1 w2, 0 <= c1 < 3 -> 0 <= c2 < 3 ->
       exists st2 st3 x,
         storage_status_set_value_idx cfg (i + c1 * dat_status_last_address cfg) w1 st1
           = Some (SCH_ST_OK, st2) /\
         storage_status_set_value_idx cfg (i + c2 * dat_status_last_address cfg) w2 st2
           = Some (SCH_ST_OK, st3) /\
         dat_get_status_var cfg i st3 = Some (x, st3)).
Proof.
  intros Hlayout Htmr Hi Hv.
  set (N := dat_status_last_address cfg) in *.
  destruct (dat_set_status_var_eq cfg Hlayout i v st Hi) as (st1 & Hset & _ & _ & Hw).
  pose proof Hlayout as (HM & HN & HV & Hfit & Hsim). fold N in HN, Hfit.
  rewrite Htmr in Hw. exists st1. split; [done|]. split.
  { eapply dat_set_get_status_var; eauto. }
  split.
  - intros c w Hc. eexists. split.
    { apply storage_status_set_value_idx_eq; [done | fold N; nia]. }
    rewrite dat_get_status_var_eq by done. rewrite Htmr. fold N.
    rewrite !status_word_set_fram by nia. rewrite !Hw by lia. simpl.
    rewrite (to_uint32_id v) by done. f_equal. f_equal.
    assert (c = 0 \/ c = 1 \/ c = 2) as [-> | [-> | ->]] by lia;
      eqb_decide; simpl; unfold vote; rewrite ?Z.eqb_refl, ?orb_true_r; try done.
    destruct (Z.eqb_spec (to_uint32 w) v); simpl; done.
  - intros c1 c2 w1 w2 Hc1 Hc2. eexists. eexists. eexists. split.
    { apply storage_status_set_value_idx_eq; [done | fold N; nia]. }
    split.
    { apply storage_status_set_value_idx_eq; [done | fold N; nia]. }
    apply dat_get_status_var_eq; done.
Qed.

(** ** Frames of the engine's operations *)

Section Preserves.

Context {R : storage -> storage -> Prop} `{!PreOrder R}.

Lemma preserves_read_only {A} (m : M A) : read_only m -> preserves R m.
Proof. intros H st a st' Hm. by rewrite (H _ _ _ Hm). Qed.

Lemma preserves_bind {A B} (m : M A) (k : A -> M B) :
  preserves R m -> (forall a, preserves R (k a)) -> preserves R (bind m k).
Proof.
  intros Hm Hk st b st'' H. apply bind_inv in H as (a & st' & H1 & H2).
  etrans; [by eapply Hm | by eapply Hk].
Qed.

Lemma preserves_modify (f : storage -> storage) :
  (forall st, R st (f st)) -> preserves R (modify f).
Proof. intros H st a st' [= <- <-]. apply H. Qed.

Lemma preserves_for_range {A} (body : Z -> A -> M A) n lo acc :
  (forall i a, preserves R (body i a)) -> preserves R (for_range lo n body acc).
Proof.
  intros Hb. revert lo acc. induction n as [|n IH]; intros lo acc; simpl.
  - intros st a st' [= <- <-]. done.
  - apply preserves_bind; [apply Hb | intros a; apply IH].
Qed.

End Preserves.

Lemma read_only_ret {A} (a : A) : read_only (ret a).
Proof. by intros st ? st' [= <- <-]. Qed.

Lemma read_only_gets {A} (f : storage -> A) : read_only (gets f).
Proof. by intros st ? st' [= <- <-]. Qed.

Lemma read_only_undefined {A} : read_only (@undefined A).
Proof. by intros st ? st' [=]. Qed.

Lemma read_only_bind {A B} (m : M A) (k : A -> M B) :
  read_only m -> (forall a, read_only (k a)) -> read_only (bind m k).
Proof.
  intros Hm Hk st b st'' H. apply bind_inv in H as (a & st' & H1 & H2).
  rewrite (Hk _ _ _ _ H2). by eapply Hm.
Qed.

Ltac read_only_step :=
  lazymatch goal with
  | |- read_only (bind _ _) => apply read_only_bind; [| intros ?]
  | |- read_only (ret _) => apply read_only_ret
  | |- read_only (gets _) => apply read_only_gets
  | |- read_only undefined => apply read_only_undefined
  | |- read_only (if ?b then _ else _) => destruct b
  | |- read_only (match ?x with _ => _ end) => destruct x
  | |- read_only (let _ := _ in _) => cbv zeta
  end.

Ltac read_only_auto := repeat first [ read_only_step | solve [eauto with read_only] ].

Create HintDb read_only.
Create HintDb frame.

#[global] Hint Resolve read_only_ret read_only_gets read_only_undefined : read_only.

Lemma read_only_c_div a b : read_only (c_div a b).
Proof. unfold c_div. read_only_auto. Qed.

Lemma read_only_c_mod a b : read_only (c_mod a b).
Proof. unfold c_mod. read_only_auto. Qed.

Lemma read_only_array_get {A} (l : list A) i : read_only (array_get l i).
Proof. unfold array_get. read_only_auto. Qed.

Lemma read_only_deref {A} (p : option A) : read_only (deref p).
Proof. unfold deref. read_only_auto. Qed.

Lemma read_only_buffer_slice buf off len : read_only (buffer_slice buf off len).
Proof. unfold buffer_slice. read_only_auto. Qed.

Lemma read_only_int_add a b : read_only (int_add a b).
Proof. unfold int_add. read_only_auto. Qed.

#[global] Hint Resolve read_only_c_div read_only_c_mod read_only_array_get read_only_deref
  read_only_buffer_slice read_only_int_add : read_only.

Lemma read_only_storage_read_flash cfg p a len : read_only (storage_read_flash cfg p a len).
Proof. unfold storage_read_flash. read_only_auto. Qed.

Lemma read_only_storage_read_fram cfg a len : read_only (storage_read_fram cfg a len).
Proof. unfold storage_read_fram. read_only_auto. Qed.

#[global] Hint Resolve read_only_storage_read_flash read_only_storage_read_fram : read_only.

Lemma read_only_status_get cfg i : read_only (storage_status_get_value_idx cfg i).
Proof. unfold storage_status_get_value_idx. read_only_auto. Qed.

#[global] Hint Resolve read_only_status_get : read_only.

Lemma read_only_dat_get_status_var cfg i : read_only (dat_get_status_var cfg i).
Proof. unfold dat_get_status_var. read_only_auto. Qed.

#[global] Hint Resolve read_only_dat_get_status_var : read_only.

Lemma read_only_dat_get_system_var cfg i : read_only (dat_get_system_var cfg i).
Proof. unfold dat_get_system_var. read_only_auto. Qed.

Lemma read_only_tlb_load i : read_only (tlb_load i).
Proof. unfold tlb_load. read_only_auto. Qed.

#[global] Hint Resolve read_only_dat_get_system_var read_only_tlb_load : read_only.

Lemma read_only_find_index_from tlb t i n : read_only (find_index_from tlb t i n).
Proof.
  revert i. induction n as [|n IH]; intros i; simpl; read_only_auto.
Qed.

#[global] Hint Resolve read_only_find_index_from : read_only.

Lemma read_only_find_index_tlb cfg t : read_only (storage_flightplan_find_index_tlb cfg t).
Proof. unfold storage_flightplan_find_index_tlb. read_only_auto. Qed.

#[global] Hint Resolve read_only_find_index_tlb : read_only.

Lemma read_only_get_idx cfg i p : read_only (storage_flight_plan_get_idx cfg i p).
Proof. unfold storage_flight_plan_get_idx. read_only_auto. Qed.

#[global] Hint Resolve read_only_get_idx : read_only.

Lemma read_only_get_st cfg t p : read_only (storage_flight_plan_get_st cfg t p).
Proof. unfold storage_flight_plan_get_st. read_only_auto. Qed.

#[global] Hint Resolve read_only_get_st : read_only.

Lemma read_only_get_args cfg t p1 p2 p3 p4 p5 :
  read_only (storage_flight_plan_get_args cfg t p1 p2 p3 p4 p5).
Proof. unfold storage_flight_plan_get_args. read_only_auto. Qed.

#[global] Hint Resolve read_only_get_args : read_only.

Lemma read_only_get_sample_address cfg p i s : read_only (_get_sample_address cfg p i s).
Proof. unfold _get_sample_address. read_only_auto. Qed.

#[global] Hint Resolve read_only_get_sample_address : read_only.

#[global] Instance frame_preorder cfg : PreOrder (frame cfg).
Proof.
  split.
  - intros st Hok. split; [done|]. split; [lia | done].
  - intros st1 st2 st3 H12 H23 Hok.
    destruct (H12 Hok) as (Hok2 & Hr12 & Hf12).
    destruct (H23 Hok2) as (Hok3 & Hr23 & Hf23).
    split; [done|]. split; [lia|]. intros x Hx. rewrite Hf23, Hf12; done.
Qed.

Lemma array_get_inv {A} (l : list A) i st x st' :
  array_get l i st = Some (x, st') ->
  st' = st /\ 0 <= i /\ l !! Z.to_nat i = Some x /\ i < Z.of_nat (length l).
Proof.
  unfold array_get. destruct (Z.ltb_spec i 0); [done|].
  destruct (l !! Z.to_nat i) eqn:E; [|done]. intros [= <- <-].
  apply lookup_lt_Some in E as Hlt. repeat split; try done. lia.
Qed.

Lemma array_get_eq {A} (l : list A) i st x :
  0 <= i -> l !! Z.to_nat i = Some x -> array_get l i st = Some (x, st).
Proof.
  intros Hi Hx. unfold array_get. destruct (Z.ltb_spec i 0); [lia|]. by rewrite Hx.
Qed.

Lemma buffer_slice_inv buf off len st src st' :
  buffer_slice buf off len st = Some (src, st') ->
  st' = st /\ src = take (Z.to_nat len) (drop (Z.to_nat off) buf) /\
  0 <= off /\ 0 <= len /\ off + len <= Z.of_nat (length buf) /\
  Z.of_nat (length src) = len.
Proof.
  unfold buffer_slice.
  destruct (Z.leb_spec 0 off), (Z.leb_spec 0 len),
    (Z.leb_spec (off + len) (Z.of_nat (length buf))); simpl; try done.
  intros [= <- <-]. repeat split; try done.
  rewrite length_take, length_drop. lia.
Qed.

Lemma buffer_slice_eq buf len st :
  Z.of_nat (length buf) = len ->
  buffer_slice buf 0 len st = Some (buf, st).
Proof.
  intros Hlen. unfold buffer_slice.
  destruct (Z.leb_spec 0 len), (Z.leb_spec (0 + len) (Z.of_nat (length buf))); simpl; try lia.
  unfold ret. rewrite drop_0, take_ge by lia. done.
Qed.

Lemma in_bounds_true a len bound :
  in_bounds a len bound = true <-> 0 <= a /\ 0 <= len /\ a + len <= bound.
Proof.
  unfold in_bounds. rewrite !andb_true_iff, !Z.leb_le. tauto.
Qed.

Lemma storage_write_fram_inv cfg add value len st rc st' :
  storage_write_fram cfg add value len st = Some (rc, st') ->
  rc = SCH_ST_OK /\
  exists src,
    st' = set_fram (mem_write (fram st) (to_uint32 add) src) (FramWrite (to_uint32 add) len) st /\
    Z.of_nat (length src) = len /\
    to_uint32 add + len <= ST_FRAME_SIZE cfg.
Proof.
  unfold storage_write_fram. intros H.
  apply bind_inv in H as (src & st1 & Hs & H).
  apply buffer_slice_inv in Hs as (-> & Hsrc & _ & _ & _ & Hlen).
  unfold bind, gets, modify, ret in H.
  destruct (in_bounds _ _ _) eqn:Hb; [|done]. injection H as <- <-.
  apply in_bounds_true in Hb. split; [done|]. exists src. repeat split; done || lia.
Qed.

Lemma storage_write_fram_eq cfg add value st :
  0 <= add -> add + Z.of_nat (length value) <= ST_FRAME_SIZE cfg -> add < 2 ^ 32 ->
  storage_write_fram cfg add value (Z.of_nat (length value)) st =
    Some (SCH_ST_OK,
          set_fram (mem_write (fram st) add value) (FramWrite add (Z.of_nat (length value))) st).
Proof.
  intros H0 H1 H2. unfold storage_write_fram.
  rewrite to_uint32_id by lia.
  rewrite (bind_Some _ _ _ _ _ (buffer_slice_eq value _ st eq_refl)).
  unfold bind, gets, modify, ret.
  replace (in_bounds _ _ _) with true; [done|].
  symmetry. apply in_bounds_true. lia.
Qed.

Lemma storage_write_flash_inv cfg p a data len st rc st' :
  storage_write_flash cfg p a data len st = Some (rc, st') ->
  rc = SCH_ST_OK /\
  exists src,
    st' = set_flash (mem_write (flash st) (to_uint32 a) src)
            (FlashWrite (to_uint32 a) (to_uint16 len)) st.
Proof.
  unfold storage_write_flash. intros H.
  apply bind_inv in H as (src & st1 & Hs & H).
  apply buffer_slice_inv in Hs as (-> & _).
  unfold bind, gets, modify, ret in H.
  destruct (in_bounds _ _ _); [|done]. injection H as <- <-. eauto.
Qed.

Lemma storage_erase_flash_inv cfg p a st rc st' :
  storage_erase_flash cfg p a st = Some (rc, st') ->
  rc = SCH_ST_OK /\ exists f a', st' = set_flash f (FlashErase a') st.
Proof.
  unfold storage_erase_flash. intros H.
  apply bind_inv in H as (sec & st1 & Hs & H).
  apply read_only_c_div in Hs as ->.
  unfold bind, gets, modify, ret in H.
  destruct (in_bounds _ _ _); [|done]. injection H as <- <-. eauto.
Qed.

Section Frame.

Variable cfg : config.
Hypothesis Hlayout : fram_layout_ok cfg.

Lemma tlb_addr_start_eq : tlb_addr_start cfg = ST_FRAM_SIZE - sizeof_tlb cfg.
Proof.
  pose proof Hlayout as (HM & HN & HV & Hfit & Hsim).
  unfold tlb_addr_start. apply to_uint32_id.
  unfold sizeof_value32_t, ST_FRAM_SIZE, sizeof_tlb, sizeof_fp_addr_t in *.
  change (2 ^ 32) with 4294967296. lia.
Qed.

Lemma frame_set_flash f e st :
  e <> LogRebuild -> frame cfg st (set_flash f e st).
Proof.
  intros He Hok. split; [done|]. split; [|done].
  cbn [trace set_flash rebuild_count]. destruct e; done || lia.
Qed.

Lemma frame_set_tlb t st :
  length t = length (st_flightplan_tlb st) -> Forall addr_ok t -> frame cfg st (set_tlb t st).
Proof.
  intros Hlen Ht (Hl & He & Ha). split; [|split; [cbn; lia | done]].
  repeat split; cbn [st_flightplan_tlb st_flightplan_entries set_tlb]; [by rewrite Hlen | done..].
Qed.

Lemma frame_log_event e st : frame cfg st (log_event e st).
Proof.
  intros Hok. split; [done|]. split; [|done].
  cbn [trace log_event rebuild_count]. destruct e; lia.
Qed.

Lemma frame_storage_write_flash p a data len :
  preserves (frame cfg) (storage_write_flash cfg p a data len).
Proof.
  intros st rc st' H. apply storage_write_flash_inv in H as (_ & src & ->).
  by apply frame_set_flash.
Qed.

Lemma frame_storage_erase_flash p a :
  preserves (frame cfg) (storage_erase_flash cfg p a).
Proof.
  intros st rc st' H. apply storage_erase_flash_inv in H as (_ & f & a' & ->).
  by apply frame_set_flash.
Qed.

Lemma frame_tlb_store i f :
  (forall e, addr_ok e -> addr_ok (f e)) -> preserves (frame cfg) (tlb_store i f).
Proof.
  intros Hf st [] st' H Hok. unfold tlb_store, bind, gets, modify in H.
  destruct (array_get _ _ _) as [[e st1]|] eqn:E; [|done].
  apply array_get_inv in E as (-> & _ & He & _). injection H as <-.
  pose proof Hok as (_ & _ & Ha).
  apply frame_set_tlb; [by rewrite length_insert | | done].
  apply Forall_insert; [done|]. apply Hf. by eapply Forall_lookup_1.
Qed.

Lemma addr_ok_set_unixtime e t : addr_ok e -> addr_ok {| addr := addr e; tlb_unixtime := t |}.
Proof. done. Qed.

Lemma addr_ok_set_addr e a : addr_ok {| addr := to_uint32 a; tlb_unixtime := tlb_unixtime e |}.
Proof. apply to_uint32_range. Qed.

Lemma addr_ok_zero t : addr_ok {| addr := 0; tlb_unixtime := t |}.
Proof. unfold addr_ok. simpl. change (2 ^ 32) with 4294967296. lia. Qed.

Lemma addr_ok_tlb_null : addr_ok tlb_null.
Proof. apply to_uint32_range. Qed.

Lemma frame_dump_tlb i : preserves (frame cfg) (storage_flightplan_dump_tlb cfg i).
Proof.
  intros st rc st' H Hok. pose proof Hok as (Hlen & Hent & Hty).
  pose proof Hlayout as (HM & HN & HV & Hfit & Hsim).
  unfold storage_flightplan_dump_tlb, bind, gets in H. rewrite tlb_addr_start_eq in H.
  assert (Hstart : 0 <= ST_FRAM_SIZE - sizeof_tlb cfg)
    by (unfold sizeof_value32_t in *; lia).
  assert (Hfr : forall a src len,
            ST_FRAM_SIZE - sizeof_tlb cfg <= a ->
            frame cfg st (set_fram (mem_write (fram st) a src) (FramWrite a len) st)).
  { intros a src len Ha _. split; [done|]. split; [cbn; lia|].
    intros x Hx. cbn [fram set_fram]. apply mem_write_outside. lia. }
  destruct (Z.ltb_spec i 0).
  - apply storage_write_fram_inv in H as (_ & src & -> & _).
    rewrite to_uint32_id by (unfold ST_FRAM_SIZE in *; change (2 ^ 32) with 4294967296;
                             unfold sizeof_tlb, sizeof_fp_addr_t in *; lia).
    apply Hfr; [lia | done].
  - destruct (array_get _ _ _) as [[e st1]|] eqn:E; [|done].
    apply array_get_inv in E as (-> & _ & _ & Hi).
    apply storage_write_fram_inv in H as (_ & src & -> & _).
    rewrite to_uint32_id by (unfold ST_FRAM_SIZE in *; change (2 ^ 32) with 4294967296;
                             unfold sizeof_tlb, sizeof_fp_addr_t in *; lia).
    apply Hfr; [unfold sizeof_fp_addr_t; lia | done].
Qed.

End Frame.

Ltac pres_step :=
  lazymatch goal with
  | |- preserves _ (bind _ _) => apply preserves_bind; [| intros ?]
  | |- preserves _ (if ?b then _ else _) => destruct b
  | |- preserves _ (match ?x with _ => _ end) => destruct x
  | |- preserves _ (let _ := _ in _) => cbv zeta
  | |- preserves _ (for_range _ _ _ _) => apply preserves_for_range; intros ? ?
  end.

Ltac frame_step :=
  lazymatch goal with
  | |- preserves _ (modify (log_event _)) =>
      apply preserves_modify; intros ?; apply frame_log_event
  | |- preserves _ (tlb_store _ _) =>
      apply frame_tlb_store; intros ? ?;
      first [ by apply addr_ok_set_unixtime | apply addr_ok_set_addr | apply addr_ok_zero ]
  | |- _ => pres_step
  end.

Ltac frame_auto :=
  repeat first [ frame_step
               | solve [eauto with frame]
               | solve [apply preserves_read_only; eauto with read_only] ].

#[global] Hint Resolve frame_storage_write_flash frame_storage_erase_flash
  frame_dump_tlb : frame.

Section FrameOps.

Variable cfg : config.
Hypothesis Hlayout : fram_layout_ok cfg.

Lemma frame_update_tlb i t a : preserves (frame cfg) (storage_flightplan_update_tlb cfg i t a).
Proof. unfold storage_flightplan_update_tlb. frame_auto. Qed.

#[local] Hint Resolve frame_update_tlb : frame.

Lemma frame_rebuild_entry buf i rc : preserves (frame cfg) (rebuild_entry cfg buf i rc).
Proof. unfold rebuild_entry. frame_auto. Qed.

#[local] Hint Resolve frame_rebuild_entry : frame.

Lemma frame_rebuild : preserves (frame cfg) (flight_plan_rebuild_tlb cfg).
Proof. unfold flight_plan_rebuild_tlb. frame_auto. Qed.

#[local] Hint Resolve frame_rebuild : frame.

Lemma frame_erase_index_tlb i : preserves (frame cfg) (flight_plan_erase_index_tlb cfg i).
Proof. unfold flight_plan_erase_index_tlb. frame_auto. Qed.

#[local] Hint Resolve frame_erase_index_tlb : frame.

Lemma frame_set_st row : preserves (frame cfg) (storage_flight_plan_set_st cfg row).
Proof. unfold storage_flight_plan_set_st. frame_auto. Qed.

#[local] Hint Resolve frame_set_st : frame.

Lemma frame_set t c a e p n : preserves (frame cfg) (storage_flight_plan_set cfg t c a e p n).
Proof. unfold storage_flight_plan_set. frame_auto. Qed.

Lemma frame_delete_row_idx i : preserves (frame cfg) (storage_flight_plan_delete_row_idx cfg i).
Proof. unfold storage_flight_plan_delete_row_idx. frame_auto. Qed.

#[local] Hint Resolve frame_delete_row_idx : frame.

Lemma frame_delete_row t : preserves (frame cfg) (storage_flight_plan_delete_row cfg t).
Proof. unfold storage_flight_plan_delete_row. frame_auto. Qed.

Lemma frame_reset_section i rc : preserves (frame cfg) (reset_section cfg i rc).
Proof. unfold reset_section. frame_auto. Qed.

#[local] Hint Resolve frame_reset_section : frame.

Lemma frame_reset_tail rc :
  preserves (frame cfg)
    (run tlb_store (SCH_FP_MAX_ENTRIES cfg) (fun e => {| addr := addr e; tlb_unixtime := 0 |});
     run tlb_store (SCH_FP_MAX_ENTRIES cfg) (fun e => {| addr := 0; tlb_unixtime := tlb_unixtime e |});
     do rc3 <- storage_flightplan_dump_tlb cfg (-1);
     ret (if rc + rc3 =? SCH_ST_OK then SCH_ST_OK else SCH_ST_ERROR)).
Proof. frame_auto. Qed.

Lemma frame_reset : preserves (frame cfg) (storage_flight_plan_reset cfg).
Proof.
  unfold storage_flight_plan_reset.
  do 2 (apply preserves_bind; [frame_auto | intros ?]).
  destruct (_ || _); [frame_auto|].
  apply preserves_bind; [frame_auto | intros rc].
  intros st r st' H. unfold bind at 1, gets in H. unfold bind at 1, modify in H.
  etrans; [apply frame_set_tlb;
            [by rewrite length_replicate | apply Forall_replicate, addr_ok_tlb_null]|].
  eapply frame_reset_tail. exact H.
Qed.

End FrameOps.

#[global] Hint Resolve frame_rebuild_entry frame_reset_section frame_update_tlb frame_rebuild frame_erase_index_tlb frame_set_st frame_set
  frame_delete_row_idx frame_delete_row frame_reset : frame.

(** ** The [fpl_queue] counter *)

Lemma int_add_eq a b st :
  INT_MIN <= a + b <= INT_MAX -> int_add a b st = Some (a + b, st).
Proof.
  intros H. unfold int_add.
  by destruct (Z.leb_spec INT_MIN (a + b)), (Z.leb_spec (a + b) INT_MAX); try lia.
Qed.

Lemma get_system_var_range cfg i st q st' :
  dat_get_system_var cfg i st = Some (q, st') -> INT_MIN <= q <= INT_MAX.
Proof.
  unfold dat_get_system_var. intros H. apply bind_inv in H as (v & st0 & _ & H).
  injection H as <- _. unfold value32_i, to_int32, INT_MIN, INT_MAX.
  change (2 ^ 31) with 2147483648. change (2 ^ 32) with 4294967296.
  Z.div_mod_to_equations. lia.
Qed.

Section Queue.

Variable cfg : config.
Hypothesis Hlayout : fram_layout_ok cfg.

Let N := dat_status_last_address cfg.

Lemma status_word_frame st st' j :
  (forall x, 0 <= x < ST_FRAM_SIZE - sizeof_tlb cfg -> fram st' x = fram st x) ->
  0 <= j < 3 * N ->
  status_word st' j = status_word st j.
Proof.
  intros Hf Hj. pose proof Hlayout as (HM & HN & HV & Hfit & Hsim). fold N in HN, Hfit.
  unfold status_word. f_equal. apply mem_read_ext. intros x Hx. apply Hf.
  unfold sizeof_value32_t in *. lia.
Qed.

Lemma dat_get_system_var_frame st st' i :
  (forall x, 0 <= x < ST_FRAM_SIZE - sizeof_tlb cfg -> fram st' x = fram st x) ->
  0 <= i < N ->
  forall q, dat_get_system_var cfg i st = Some (q, st) ->
            dat_get_system_var cfg i st' = Some (q, st').
Proof.
  intros Hf Hi q. pose proof Hlayout as (HM & HN & HV & Hfit & Hsim). fold N in HN, Hfit.
  unfold dat_get_system_var.
  rewrite !(bind_Some _ _ _ _ _ (dat_get_status_var_eq cfg Hlayout i _ Hi)).
  rewrite !(status_word_frame st st') by (done || fold N; lia).
  unfold ret. by intros [= <-].
Qed.

Lemma dat_get_system_var_total st i :
  0 <= i < N -> exists q, dat_get_system_var cfg i st = Some (q, st).
Proof.
  intros Hi. unfold dat_get_system_var.
  rewrite (bind_Some _ _ _ _ _ (dat_get_status_var_eq cfg Hlayout i _ Hi)). by eexists.
Qed.

(** The value an [int] written through the facade reads back as. *)
Lemma dat_set_get_system_var i x st st' rc :
  0 <= i < N -> INT_MIN <= x <= INT_MAX ->
  dat_set_system_var cfg i x st = Some (rc, st') ->
  dat_get_system_var cfg i st' = Some (x, st').
Proof.
  intros Hi Hx Hset. unfold dat_set_system_var in Hset. unfold dat_get_system_var.
  rewrite (bind_Some _ _ _ _ _
             (dat_set_get_status_var cfg Hlayout i _ st st' rc Hi (to_uint32_range x) Hset)).
  unfold ret, value32_i, value32_of_int. by rewrite to_int32_to_uint32, to_int32_id.
Qed.

Lemma int_add_inv a b st r st' :
  int_add a b st = Some (r, st') -> st' = st /\ r = a + b /\ INT_MIN <= r <= INT_MAX.
Proof.
  unfold int_add.
  destruct (Z.leb_spec INT_MIN (a + b)), (Z.leb_spec (a + b) INT_MAX); simpl; try done.
  intros [= <- <-]. done.
Qed.

(** Writing the counter after a flight-plan operation [op], as the four
    facade functions do. *)
Lemma counter_update_after {B} q (op : M Z) (delta : Z -> M Z) (next : Z -> Z) (b : B)
    st st1 rc st' :
  0 <= dat_fpl_queue cfg < N ->
  tlb_ok cfg st ->
  preserves (frame cfg) op ->
  (forall e st0 r st0', delta e st0 = Some (r, st0') ->
     st0' = st0 /\ r = next e /\ INT_MIN <= r <= INT_MAX) ->
  dat_get_system_var cfg (dat_fpl_queue cfg) st = Some (q, st) ->
  op st = Some (rc, st1) ->
  (if rc =? SCH_ST_OK
   then (do entries1 <- delta q;
         run dat_set_system_var cfg (dat_fpl_queue cfg) entries1; ret b)
   else ret b) st1 = Some (b, st') ->
  dat_get_system_var cfg (dat_fpl_queue cfg) st' =
    Some (if rc =? SCH_ST_OK then next q else q, st').
Proof.
  intros Hq Hok Hop Hdelta Hget Hrun H.
  destruct (Hop _ _ _ Hrun Hok) as (_ & _ & Hfram).
  destruct (rc =? SCH_ST_OK).
  - apply bind_inv in H as (e1 & st2 & Hd & H).
    apply Hdelta in Hd as (-> & -> & Hrange).
    apply bind_inv in H as (rc2 & st3 & Hset & H). injection H as <-.
    eapply dat_set_get_system_var; eauto.
  - injection H as <-. eapply dat_get_system_var_frame; eauto.
Qed.

End Queue.

Section QueueRun.

Variable cfg : config.
Hypothesis Hlayout : fram_layout_ok cfg.
Hypothesis Hq : 0 <= dat_fpl_queue cfg < dat_status_last_address cfg.

(** The counter is written, and reads back, after a flight-plan operation
    that has returned [rc]. *)
Lemma counter_update_run {B} q x (b : B) rc st st1 :
  tlb_ok cfg st ->
  frame cfg st st1 ->
  dat_get_system_var cfg (dat_fpl_queue cfg) st = Some (q, st) ->
  (rc = SCH_ST_OK -> INT_MIN <= x <= INT_MAX) ->
  exists st',
    (if rc =? SCH_ST_OK
     then (run dat_set_system_var cfg (dat_fpl_queue cfg) x; ret b)
     else ret b) st1 = Some (b, st') /\
    engine st' = engine st1 /\
    dat_get_system_var cfg (dat_fpl_queue cfg) st' =
      Some (if rc =? SCH_ST_OK then x else q, st').
Proof.
  intros Hok Hfr Hget Hx. destruct (Hfr Hok) as (_ & _ & Hfram).
  destruct (Z.eqb_spec rc SCH_ST_OK) as [Hrc|Hrc].
  - destruct (dat_set_status_var_eq cfg Hlayout (dat_fpl_queue cfg) (value32_of_int x) st1 Hq)
      as (st' & Hset & Heng & _).
    exists st'. unfold dat_set_system_var at 1. rewrite (bind_Some _ _ _ _ _ Hset).
    split; [done|]. split; [done|].
    apply (dat_set_get_system_var cfg Hlayout _ x st1 st' SCH_ST_OK); auto.
  - exists st1. split; [done|]. split; [done|].
    by apply (dat_get_system_var_frame cfg Hlayout st st1).
Qed.

End QueueRun.

(** Whenever one of the four facade functions returns, its code is the
    code of the storage call and the counter has moved accordingly. *)
Lemma fpl_queue_after_return cfg st :
  fram_layout_ok cfg ->
  0 <= dat_fpl_queue cfg < dat_status_last_address cfg ->
  tlb_ok cfg st ->
  exists q,
    dat_get_system_var cfg (dat_fpl_queue cfg) st = Some (q, st) /\
    (forall t c a e p rc st',
       dat_set_fp cfg t c a e p st = Some (rc, st') ->
       (exists st1, storage_flight_plan_set cfg t c a e p (SCH_COMM_NODE cfg) st = Some (rc, st1)) /\
       dat_get_system_var cfg (dat_fpl_queue cfg) st' =
         Some (if rc =? SCH_ST_OK then q + 1 else q, st')) /\
    (forall t p1 p2 p3 p4 rc out st',
       dat_get_fp cfg t p1 p2 p3 p4 st = Some ((rc, out), st') ->
       (exists rc1 st1,
          storage_flight_plan_get_args cfg t p1 p2 p3 p4 PTR st = Some ((rc1, out), st) /\
          (if rc1 =? SCH_ST_OK then storage_flight_plan_delete_row cfg t else ret rc1) st
            = Some (rc, st1)) /\
       dat_get_system_var cfg (dat_fpl_queue cfg) st' =
         Some (if rc =? SCH_ST_OK then q - 1 else q, st')) /\
    (forall t rc st',
       dat_del_fp cfg t st = Some (rc, st') ->
       (exists st1, storage_flight_plan_delete_row cfg t st = Some (rc, st1)) /\
       dat_get_system_var cfg (dat_fpl_queue cfg) st' =
         Some (if rc =? SCH_ST_OK then q - 1 else q, st')) /\
    (forall rc st',
       dat_reset_fp cfg st = Some (rc, st') ->
       (exists st1, storage_flight_plan_reset cfg st = Some (rc, st1)) /\
       dat_get_system_var cfg (dat_fpl_queue cfg) st' =
         Some (if rc =? SCH_ST_OK then 0 else q, st')).
Proof.
  intros Hlayout Hq Hok.
  destruct (dat_get_system_var_total cfg Hlayout st _ Hq) as [q Hget].
  assert (Hadd : forall d e st0 r st0', int_add e d st0 = Some (r, st0') ->
            st0' = st0 /\ r = e + d /\ INT_MIN <= r <= INT_MAX)
    by (intros; by apply int_add_inv).
  exists q. split; [done|]. repeat split.
  - unfold dat_set_fp in H. rewrite (bind_Some _ _ _ _ _ Hget) in H.
    apply bind_inv in H as (rc0 & st1 & Hop & H).
    assert (rc0 = rc) as -> by (destruct (rc0 =? _);
      [apply bind_inv in H as (? & ? & _ & H); apply bind_inv in H as (? & ? & _ & H)|];
      by injection H).
    by eexists.
  - unfold dat_set_fp in H. rewrite (bind_Some _ _ _ _ _ Hget) in H.
    apply bind_inv in H as (rc0 & st1 & Hop & H).
    assert (rc0 = rc) as -> by (destruct (rc0 =? _);
      [apply bind_inv in H as (? & ? & _ & H); apply bind_inv in H as (? & ? & _ & H)|];
      by injection H).
    exact (counter_update_after cfg Hlayout q _ (fun e => int_add e 1) (fun e => e + 1)
             rc st st1 rc st' Hq Hok (frame_set cfg Hlayout _ _ _ _ _ _) (Hadd 1) Hget Hop H).
  - unfold dat_get_fp in H. rewrite (bind_Some _ _ _ _ _ Hget) in H.
    apply bind_inv in H as ([rc1 out1] & st0 & Hargs & H).
    pose proof (read_only_get_args _ _ _ _ _ _ _ _ _ _ Hargs) as ->.
    apply bind_inv in H as (rc0 & st1 & Hop & H).
    assert (rc0 = rc /\ out1 = out) as [-> ->] by (destruct (rc0 =? _);
      [apply bind_inv in H as (? & ? & _ & H); apply bind_inv in H as (? & ? & _ & H)|];
      by injection H).
    by exists rc1, st1.
  - unfold dat_get_fp in H. rewrite (bind_Some _ _ _ _ _ Hget) in H.
    apply bind_inv in H as ([rc1 out1] & st0 & Hargs & H).
    pose proof (read_only_get_args _ _ _ _ _ _ _ _ _ _ Hargs) as ->.
    apply bind_inv in H as (rc0 & st1 & Hop & H).
    assert (rc0 = rc /\ out1 = out) as [-> ->] by (destruct (rc0 =? _);
      [apply bind_inv in H as (? & ? & _ & H); apply bind_inv in H as (? & ? & _ & H)|];
      by injection H).
    refine (counter_update_after cfg Hlayout q _ (fun e => int_add e (-1)) (fun e => e - 1)
              (rc, out) st st1 rc st' Hq Hok _ (Hadd (-1)) Hget Hop H).
    destruct (rc1 =? _); [apply frame_delete_row; done | apply preserves_read_only, read_only_ret].
  - unfold dat_del_fp in H. rewrite (bind_Some _ _ _ _ _ Hget) in H.
    apply bind_inv in H as (rc0 & st1 & Hop & H).
    assert (rc0 = rc) as -> by (destruct (rc0 =? _);
      [apply bind_inv in H as (? & ? & _ & H); apply bind_inv in H as (? & ? & _ & H)|];
      by injection H).
    by eexists.
  - unfold dat_del_fp in H. rewrite (bind_Some _ _ _ _ _ Hget) in H.
    apply bind_inv in H as (rc0 & st1 & Hop & H).
    assert (rc0 = rc) as -> by (destruct (rc0 =? _);
      [apply bind_inv in H as (? & ? & _ & H); apply bind_inv in H as (? & ? & _ & H)|];
      by injection H).
    exact (counter_update_after cfg Hlayout q _ (fun e => int_add e (-1)) (fun e => e - 1)
             rc st st1 rc st' Hq Hok (frame_delete_row cfg Hlayout _) (Hadd (-1)) Hget Hop H).
  - unfold dat_reset_fp in H.
    apply bind_inv in H as (rc0 & st1 & Hop & H).
    assert (rc0 = rc) as -> by (destruct (rc0 =? _);
      [apply bind_inv in H as (? & ? & _ & H)|]; by injection H).
    by eexists.
  - unfold dat_reset_fp in H.
    apply bind_inv in H as (rc0 & st1 & Hop & H).
    assert (rc0 = rc) as -> by (destruct (rc0 =? _);
      [apply bind_inv in H as (? & ? & _ & H)|]; by injection H).
    refine (counter_update_after cfg Hlayout q _ (fun _ => ret 0) (fun _ => 0)
              rc st st1 rc st' Hq Hok (frame_reset cfg Hlayout) _ Hget Hop H).
    intros e st0 r st0' [= <- <-]. unfold INT_MIN, INT_MAX. done.
Qed.

Section FacadeRuns.

Variable cfg : config.
Hypothesis Hlayout : fram_layout_ok cfg.
Hypothesis Hq : 0 <= dat_fpl_queue cfg < dat_status_last_address cfg.

Lemma dat_set_fp_run st q t c a e p rc st1 :
  tlb_ok cfg st ->
  dat_get_system_var cfg (dat_fpl_queue cfg) st = Some (q, st) ->
  storage_flight_plan_set cfg t c a e p (SCH_COMM_NODE cfg) st = Some (rc, st1) ->
  (rc = SCH_ST_OK -> q + 1 <= INT_MAX) ->
  exists st',
    dat_set_fp cfg t c a e p st = Some (rc, st') /\
    engine st' = engine st1 /\
    dat_get_system_var cfg (dat_fpl_queue cfg) st' =
      Some (if rc =? SCH_ST_OK then q + 1 else q, st').
Proof.
  intros Hok Hget Hop Hmax. pose proof (get_system_var_range _ _ _ _ _ Hget) as Hr.
  assert (Hfr : frame cfg st st1) by (by eapply frame_set).
  destruct (counter_update_run cfg Hlayout Hq q (q + 1) rc rc st st1 Hok Hfr Hget)
    as (st' & Hrun & Heng & Hcnt); [intros Hrc; split; [lia | auto]|].
  exists st'. split; [|done].
  unfold dat_set_fp. rewrite (bind_Some _ _ _ _ _ Hget), (bind_Some _ _ _ _ _ Hop).
  destruct (Z.eqb_spec rc SCH_ST_OK) as [Hrc|Hrc]; [|done].
  by rewrite (bind_Some _ _ _ _ _ (int_add_eq q 1 st1 ltac:(split; [lia | auto]))).
Qed.

Lemma dat_get_fp_run st q t p1 p2 p3 p4 rc1 out rc st1 :
  tlb_ok cfg st ->
  dat_get_system_var cfg (dat_fpl_queue cfg) st = Some (q, st) ->
  storage_flight_plan_get_args cfg t p1 p2 p3 p4 PTR st = Some ((rc1, out), st) ->
  (if rc1 =? SCH_ST_OK then storage_flight_plan_delete_row cfg t else ret rc1) st
    = Some (rc, st1) ->
  (rc = SCH_ST_OK -> INT_MIN <= q - 1) ->
  exists st',
    dat_get_fp cfg t p1 p2 p3 p4 st = Some ((rc, out), st') /\
    engine st' = engine st1 /\
    dat_get_system_var cfg (dat_fpl_queue cfg) st' =
      Some (if rc =? SCH_ST_OK then q - 1 else q, st').
Proof.
  intros Hok Hget Hargs Hop Hmin. pose proof (get_system_var_range _ _ _ _ _ Hget) as Hr.
  assert (Hfr : frame cfg st st1).
  { revert Hop. destruct (rc1 =? _); intros Hop;
      [by eapply frame_delete_row | by injection Hop as _ <-]. }
  destruct (counter_update_run cfg Hlayout Hq q (q - 1) (rc, out) rc st st1 Hok Hfr Hget)
    as (st' & Hrun & Heng & Hcnt); [intros Hrc; split; [auto | lia]|].
  exists st'. split; [|done].
  unfold dat_get_fp. rewrite (bind_Some _ _ _ _ _ Hget), (bind_Some _ _ _ _ _ Hargs).
  rewrite (bind_Some _ _ _ _ _ Hop).
  destruct (Z.eqb_spec rc SCH_ST_OK) as [Hrc|Hrc]; [|done].
  by rewrite (bind_Some _ _ _ _ _ (int_add_eq q (-1) st1 ltac:(split; [auto | lia]))).
Qed.

Lemma dat_del_fp_run st q t rc st1 :
  tlb_ok cfg st ->
  dat_get_system_var cfg (dat_fpl_queue cfg) st = Some (q, st) ->
  storage_flight_plan_delete_row cfg t st = Some (rc, st1) ->
  (rc = SCH_ST_OK -> INT_MIN <= q - 1) ->
  exists st',
    dat_del_fp cfg t st = Some (rc, st') /\
    engine st' = engine st1 /\
    dat_get_system_var cfg (dat_fpl_queue cfg) st' =
      Some (if rc =? SCH_ST_OK then q - 1 else q, st').
Proof.
  intros Hok Hget Hop Hmin. pose proof (get_system_var_range _ _ _ _ _ Hget) as Hr.
  assert (Hfr : frame cfg st st1) by (by eapply frame_delete_row).
  destruct (counter_update_run cfg Hlayout Hq q (q - 1) rc rc st st1 Hok Hfr Hget)
    as (st' & Hrun & Heng & Hcnt); [intros Hrc; split; [auto | lia]|].
  exists st'. split; [|done].
  unfold dat_del_fp. rewrite (bind_Some _ _ _ _ _ Hget), (bind_Some _ _ _ _ _ Hop).
  destruct (Z.eqb_spec rc SCH_ST_OK) as [Hrc|Hrc]; [|done].
  by rewrite (bind_Some _ _ _ _ _ (int_add_eq q (-1) st1 ltac:(split; [auto | lia]))).
Qed.

Lemma dat_reset_fp_run st q rc st1 :
  tlb_ok cfg st ->
  dat_get_system_var cfg (dat_fpl_queue cfg) st = Some (q, st) ->
  storage_flight_plan_reset cfg st = Some (rc, st1) ->
  exists st',
    dat_reset_fp cfg st = Some (rc, st') /\
    engine st' = engine st1 /\
    dat_get_system_var cfg (dat_fpl_queue cfg) st' =
      Some (if rc =? SCH_ST_OK then 0 else q, st').
Proof.
  intros Hok Hget Hop.
  assert (Hfr : frame cfg st st1) by (by eapply frame_reset).
  destruct (counter_update_run cfg Hlayout Hq q 0 rc rc st st1 Hok Hfr Hget)
    as (st' & Hrun & Heng & Hcnt); [by intros _|].
  exists st'. split; [|done].
  unfold dat_reset_fp. by rewrite (bind_Some _ _ _ _ _ Hop).
Qed.

End FacadeRuns.

(** C6. The [fpl_queue] counter moves only on success, and it does move
    then. With [q] the value of the counter before the call: when the
    storage call of [dat_set_fp] returns [rc], [dat_set_fp] returns [rc]
    and the counter reads [q + 1] if [rc] is OK and [q] otherwise; when
    the read-and-delete of [dat_get_fp] (the delete of [dat_del_fp])
    returns [rc], the function returns [rc] and the counter reads [q - 1]
    if [rc] is OK and [q] otherwise; when the reset of [dat_reset_fp]
    returns [rc], the function returns [rc] and the counter reads 0 if
    [rc] is OK and [q] otherwise. The additions [q + 1] and [q - 1] are
    [int] additions and have to stay in range. Conversely a return of
    the facade function is always the return of its storage call. *)
Theorem fpl_queue_advanced_only_on_success cfg st :
  fram_layout_ok cfg ->
  0 <= dat_fpl_queue cfg < dat_status_last_address cfg ->
  tlb_ok cfg st ->
  exists q,
    dat_get_system_var cfg (dat_fpl_queue cfg) st = Some (q, st) /\
    (forall t c a e p rc st1,
       storage_flight_plan_set cfg t c a e p (SCH_COMM_NODE cfg) st = Some (rc, st1) ->
       (rc = SCH_ST_OK -> q + 1 <= INT_MAX) ->
       exists st',
         dat_set_fp cfg t c a e p st = Some (rc, st') /\
         engine st' = engine st1 /\
         dat_get_system_var cfg (dat_fpl_queue cfg) st' =
           Some (if rc =? SCH_ST_OK then q + 1 else q, st')) /\
    (forall t p1 p2 p3 p4 rc1 out rc st1,
       storage_flight_plan_get_args cfg t p1 p2 p3 p4 PTR st = Some ((rc1, out), st) ->
       (if rc1 =? SCH_ST_OK then storage_flight_plan_delete_row cfg t else ret rc1) st
         = Some (rc, st1) ->
       (rc = SCH_ST_OK -> INT_MIN <= q - 1) ->
       exists st',
         dat_get_fp cfg t p1 p2 p3 p4 st = Some ((rc, out), st') /\
         engine st' = engine st1 /\
         dat_get_system_var cfg (dat_fpl_queue cfg) st' =
           Some (if rc =? SCH_ST_OK then q - 1 else q, st')) /\
    (forall t rc st1,
       storage_flight_plan_delete_row cfg t st = Some (rc, st1) ->
       (rc = SCH_ST_OK -> INT_MIN <= q - 1) ->
       exists st',
         dat_del_fp cfg t st = Some (rc, st') /\
         engine st' = engine st1 /\
         dat_get_system_var cfg (dat_fpl_queue cfg) st' =
           Some (if rc =? SCH_ST_OK then q - 1 else q, st')) /\
    (forall rc st1,
       storage_flight_plan_reset cfg st = Some (rc, st1) ->
       exists st',
         dat_reset_fp cfg st = Some (rc, st') /\
         engine st' = engine st1 /\
         dat_get_system_var cfg (dat_fpl_queue cfg) st' =
           Some (if rc =? SCH_ST_OK then 0 else q, st')) /\
    (forall t c a e p rc st',
       dat_set_fp cfg t c a e p st = Some (rc, st') ->
       (exists st1, storage_flight_plan_set cfg t c a e p (SCH_COMM_NODE cfg) st = Some (rc, st1)) /\
       dat_get_system_var cfg (dat_fpl_queue cfg) st' =
         Some (if rc =? SCH_ST_OK then q + 1 else q, st')) /\
    (forall t p1 p2 p3 p4 rc out st',
       dat_get_fp cfg t p1 p2 p3 p4 st = Some ((rc, out), st') ->
       (exists rc1 st1,
          storage_flight_plan_get_args cfg t p1 p2 p3 p4 PTR st = Some ((rc1, out), st) /\
          (if rc1 =? SCH_ST_OK then storage_flight_plan_delete_row cfg t else ret rc1) st
            = Some (rc, st1)) /\
       dat_get_system_var cfg (dat_fpl_queue cfg) st' =
         Some (if rc =? SCH_ST_OK then q - 1 else q, st')) /\
    (forall t rc st',
       dat_del_fp cfg t st = Some (rc, st') ->
       (exists st1, storage_flight_plan_delete_row cfg t st = Some (rc, st1)) /\
       dat_get_system_var cfg (dat_fpl_queue cfg) st' =
         Some (if rc =? SCH_ST_OK then q - 1 else q, st')) /\
    (forall rc st',
       dat_reset_fp cfg st = Some (rc, st') ->
       (exists st1, storage_flight_plan_reset cfg st = Some (rc, st1)) /\
       dat_get_system_var cfg (dat_fpl_queue cfg) st' =
         Some (if rc =? SCH_ST_OK then 0 else q, st')).
Proof.
  intros Hlayout Hq Hok.
  destruct (fpl_queue_after_return cfg st Hlayout Hq Hok)
    as (q & Hget & Hset & Hgetfp & Hdel & Hreset).
  exists q. split; [exact Hget|].
  split; [intros; by eapply dat_set_fp_run|].
  split; [intros; by eapply dat_get_fp_run|].
  split; [intros; by eapply dat_del_fp_run|].
  split; [intros; by eapply dat_reset_fp_run|].
  split; [exact Hset|]. split; [exact Hgetfp|]. split; [exact Hdel | exact Hreset].
Qed.

(** ** The flight-plan TLB *)

Lemma tlb_load_inv i st e st' :
  tlb_load i st = Some (e, st') ->
  st' = st /\ 0 <= i /\ st_flightplan_tlb st !! Z.to_nat i = Some e.
Proof.
  unfold tlb_load, bind, gets. intros H.
  apply array_get_inv in H as (-> & ? & ? & _). done.
Qed.

Lemma tlb_load_eq i st e :
  0 <= i -> st_flightplan_tlb st !! Z.to_nat i = Some e -> tlb_load i st = Some (e, st).
Proof. intros. unfold tlb_load, bind, gets. by apply array_get_eq. Qed.

Lemma tlb_store_inv i f st u st' :
  tlb_store i f st = Some (u, st') ->
  exists e, 0 <= i /\ st_flightplan_tlb st !! Z.to_nat i = Some e /\
            st' = set_tlb (<[Z.to_nat i := f e]> (st_flightplan_tlb st)) st.
Proof.
  unfold tlb_store, bind, gets, modify. intros H.
  destruct (array_get _ _ _) as [[e st1]|] eqn:E; [|done].
  apply array_get_inv in E as (-> & ? & ? & _). injection H as <-. eauto.
Qed.

Lemma tlb_store_eq i f st e :
  0 <= i -> st_flightplan_tlb st !! Z.to_nat i = Some e ->
  tlb_store i f st = Some (tt, set_tlb (<[Z.to_nat i := f e]> (st_flightplan_tlb st)) st).
Proof.
  intros Hi He. unfold tlb_store, bind, gets, modify. by rewrite (array_get_eq _ _ _ _ Hi He).
Qed.

Lemma find_index_from_inv tlb t i n st r st' :
  find_index_from tlb t i n st = Some (r, st') ->
  st' = st /\
  (r = -1 \/ (i <= r < i + Z.of_nat n /\ 0 <= r /\
              exists e, tlb !! Z.to_nat r = Some e /\ tlb_unixtime e = t)).
Proof.
  revert i. induction n as [|n IH]; intros i H; simpl in H.
  - injection H as <- <-. auto.
  - apply bind_inv in H as (e & st1 & He & H).
    apply array_get_inv in He as (-> & Hi & He & _).
    destruct (Z.eqb_spec (tlb_unixtime e) t) as [Heq|Hne].
    + injection H as <- <-. split; [done|]. right. split; [lia|]. split; [done|]. eauto.
    + apply IH in H as (-> & [-> | (Hr & H0 & Hex)]); split; auto.
      right. split; [lia | done].
Qed.

Lemma find_index_tlb_inv cfg t st r st' :
  0 <= SCH_FP_MAX_ENTRIES cfg ->
  storage_flightplan_find_index_tlb cfg t st = Some (r, st') ->
  st' = st /\
  (r = -1 \/ (0 <= r < SCH_FP_MAX_ENTRIES cfg /\
              exists e, st_flightplan_tlb st !! Z.to_nat r = Some e /\
                        tlb_unixtime e = to_int32 t)).
Proof.
  intros HM H. unfold storage_flightplan_find_index_tlb, bind, gets in H.
  apply find_index_from_inv in H as (-> & [-> | (Hr & H0 & Hex)]); split; auto.
  right. split; [lia | done].
Qed.

Lemma tlb_counter_set_fram cfg f e st : tlb_counter cfg (set_fram f e st) = tlb_counter cfg st.
Proof. done. Qed.

Lemma tlb_counter_set_flash cfg f e st : tlb_counter cfg (set_flash f e st) = tlb_counter cfg st.
Proof. done. Qed.

Lemma tlb_counter_insert_other cfg i x st :
  i <> Z.to_nat (SCH_FP_MAX_ENTRIES cfg) ->
  tlb_counter cfg (set_tlb (<[i := x]> (st_flightplan_tlb st)) st) = tlb_counter cfg st.
Proof.
  intros Hi. unfold tlb_counter. cbn [st_flightplan_tlb set_tlb].
  by rewrite list_lookup_insert_ne.
Qed.

Section Tlb.

Variable cfg : config.
Hypothesis Hlayout : fram_layout_ok cfg.

Let MAX := SCH_FP_MAX_ENTRIES cfg.

Lemma tlb_slot_address st i :
  tlb_ok cfg st -> 0 <= i <= MAX ->
  0 <= tlb_addr_start cfg + i * sizeof_fp_addr_t /\
  tlb_addr_start cfg + i * sizeof_fp_addr_t + sizeof_fp_addr_t <= ST_FRAME_SIZE cfg /\
  tlb_addr_start cfg + i * sizeof_fp_addr_t < 2 ^ 32.
Proof.
  intros (Hlen & _) Hi. pose proof Hlayout as (HM & HN & HV & Hfit & Hsim).
  rewrite tlb_addr_start_eq by done.
  unfold sizeof_value32_t, ST_FRAM_SIZE, sizeof_tlb, sizeof_fp_addr_t in *.
  change (2 ^ 32) with 4294967296. fold MAX in HM, Hfit. lia.
Qed.

Lemma encode_fp_addr_length e : length (encode_fp_addr e) = 8%nat.
Proof. done. Qed.

Lemma dump_tlb_slot_eq st i e :
  tlb_ok cfg st -> 0 <= i <= MAX ->
  st_flightplan_tlb st !! Z.to_nat i = Some e ->
  storage_flightplan_dump_tlb cfg i st =
    Some (SCH_ST_OK,
          set_fram (mem_write (fram st) (tlb_addr_start cfg + i * sizeof_fp_addr_t)
                              (encode_fp_addr e))
                   (FramWrite (tlb_addr_start cfg + i * sizeof_fp_addr_t) sizeof_fp_addr_t) st).
Proof.
  intros Hok Hi He. destruct (tlb_slot_address st i Hok Hi) as (H0 & H1 & H2).
  unfold storage_flightplan_dump_tlb, bind at 1, gets.
  destruct (Z.ltb_spec i 0); [lia|].
  assert (H0i : 0 <= i) by lia.
  rewrite (bind_Some _ _ _ _ _ (array_get_eq _ _ _ _ H0i He)).
  apply (storage_write_fram_eq cfg _ (encode_fp_addr e) st); rewrite ?encode_fp_addr_length;
    unfold sizeof_fp_addr_t in *; lia.
Qed.

Lemma dump_tlb_slot_inv st i rc st' :
  tlb_ok cfg st -> 0 <= i ->
  storage_flightplan_dump_tlb cfg i st = Some (rc, st') ->
  rc = SCH_ST_OK /\ i <= MAX /\
  exists e, st_flightplan_tlb st !! Z.to_nat i = Some e /\
    st' = set_fram (mem_write (fram st) (tlb_addr_start cfg + i * sizeof_fp_addr_t)
                              (encode_fp_addr e))
                   (FramWrite (tlb_addr_start cfg + i * sizeof_fp_addr_t) sizeof_fp_addr_t) st.
Proof.
  intros Hok Hi H. pose proof H as H'.
  unfold storage_flightplan_dump_tlb, bind at 1, gets in H.
  destruct (Z.ltb_spec i 0); [lia|].
  apply bind_inv in H as (e & st1 & He & _).
  apply array_get_inv in He as (-> & _ & He & Hlt).
  assert (i <= MAX) by (destruct Hok as (Hlen & _); fold MAX in Hlen; lia).
  rewrite (dump_tlb_slot_eq st i e) in H' by (done || lia).
  injection H' as <- <-. eauto.
Qed.

(** The tombstone and its write to the backup. *)
Lemma erase_index_tlb_eq st k :
  tlb_ok cfg st -> 0 <= k < st_flightplan_entries st ->
  flight_plan_erase_index_tlb cfg k st =
    Some (SCH_ST_OK,
          set_fram (mem_write (fram st) (tlb_addr_start cfg + k * sizeof_fp_addr_t)
                              (encode_fp_addr tlb_null))
                   (FramWrite (tlb_addr_start cfg + k * sizeof_fp_addr_t) sizeof_fp_addr_t)
                   (set_tlb (<[Z.to_nat k := tlb_null]> (st_flightplan_tlb st)) st)).
Proof.
  intros Hok Hk. pose proof Hok as (Hlen & Hent & Hty). fold MAX in Hlen, Hent.
  unfold flight_plan_erase_index_tlb, bind at 1, gets.
  destruct (Z.ltb_spec k 0); [lia|]. destruct (Z.geb_spec k (st_flightplan_entries st)); [lia|].
  simpl.
  assert (H0k : 0 <= k) by lia.
  assert (Hlt : (Z.to_nat k < length (st_flightplan_tlb st))%nat) by lia.
  destruct (lookup_lt_is_Some_2 (st_flightplan_tlb st) (Z.to_nat k) Hlt) as [e He].
  rewrite (bind_Some _ _ _ _ _ (tlb_store_eq k _ st e H0k He)).
  erewrite bind_Some; last first.
  { apply tlb_store_eq; [lia|]. cbn [st_flightplan_tlb set_tlb].
    apply list_lookup_insert_eq. lia. }
  cbn [st_flightplan_tlb set_tlb addr tlb_unixtime]. rewrite list_insert_insert_eq.
  rewrite (dump_tlb_slot_eq _ k tlb_null).
  - done.
  - repeat split; cbn [st_flightplan_tlb st_flightplan_entries set_tlb];
      [by rewrite length_insert | done |].
    apply Forall_insert; [done | apply addr_ok_tlb_null].
  - lia.
  - cbn [st_flightplan_tlb set_tlb]. apply list_lookup_insert_eq. lia.
Qed.

Lemma delete_row_idx_eq st k :
  tlb_ok cfg st -> 0 <= k < st_flightplan_entries st ->
  storage_flight_plan_delete_row_idx cfg k st = flight_plan_erase_index_tlb cfg k st.
Proof.
  intros Hok Hk. unfold storage_flight_plan_delete_row_idx, bind at 1, gets.
  destruct (Z.geb_spec k (st_flightplan_entries st)); [lia | done].
Qed.

End Tlb.

Lemma mem_read_slice m a n off len :
  (off + len <= n)%nat ->
  take len (drop off (mem_read m a n)) = mem_read m (a + Z.of_nat off) len.
Proof.
  intros H. apply list_eq. intros k. destruct (decide (k < len)%nat) as [Hk|Hk].
  - rewrite lookup_take_lt, lookup_drop, !mem_read_lookup by lia. f_equal. f_equal. lia.
  - rewrite !lookup_ge_None_2; [done | rewrite mem_read_length; lia |].
    rewrite length_take, length_drop, mem_read_length. lia.
Qed.

Lemma decode_tlb_lookup n bs k :
  (k < n)%nat ->
  decode_tlb n bs !! k = Some (decode_fp_addr (take 8 (drop (8 * k) bs))).
Proof.
  revert bs k. induction n as [|n IH]; intros bs k Hk; [lia|].
  destruct k as [|k]; simpl decode_tlb.
  - done.
  - rewrite lookup_cons. rewrite IH by lia. rewrite drop_drop.
    do 4 f_equal. lia.
Qed.

Lemma decode_tlb_length n bs : length (decode_tlb n bs) = n.
Proof. revert bs. induction n as [|n IH]; intros bs; simpl; [done | by rewrite IH]. Qed.

Lemma storage_read_fram_eq cfg a len st :
  0 <= a < 2 ^ 32 -> 0 <= len -> a + len <= ST_FRAME_SIZE cfg ->
  storage_read_fram cfg a len st = Some ((SCH_ST_OK, mem_read (fram st) a (Z.to_nat len)), st).
Proof.
  intros Ha Hl Hb. unfold storage_read_fram. rewrite to_uint32_id by done.
  unfold bind, gets, ret.
  replace (in_bounds a len (ST_FRAME_SIZE cfg)) with true; [done|].
  symmetry. apply in_bounds_true. lia.
Qed.

Lemma load_tlb_eq cfg st :
  fram_layout_ok cfg ->
  storage_flightplan_load_tlb cfg st =
    Some (SCH_ST_OK,
          set_tlb (decode_tlb (Z.to_nat (SCH_FP_MAX_ENTRIES cfg + 1))
                     (mem_read (fram st) (tlb_addr_start cfg) (Z.to_nat (sizeof_tlb cfg)))) st).
Proof.
  intros Hlayout. pose proof Hlayout as (HM & HN & HV & Hfit & Hsim).
  unfold storage_flightplan_load_tlb. rewrite tlb_addr_start_eq by done.
  erewrite bind_Some; last first.
  { apply storage_read_fram_eq;
      unfold sizeof_value32_t, ST_FRAM_SIZE, sizeof_tlb, sizeof_fp_addr_t in *;
      change (2 ^ 32) with 4294967296; lia. }
  done.
Qed.

(** C7. Deleting a flight-plan entry, by index or by time, only tombstones
    the TLB: slot [k] becomes the all-ones slot (unixtime -1, and -1 as a
    [uint32_t] address), that slot is written to the FRAM backup, where a
    reload finds it, and nothing else happens: no flash write, no flash
    erase, the flash, every other slot and the metadata counter are as
    before. *)
Theorem flight_plan_delete_only_tombstones cfg st k :
  fram_layout_ok cfg ->
  tlb_ok cfg st ->
  0 <= k < st_flightplan_entries st ->
  exists st',
    storage_flight_plan_delete_row_idx cfg k st = Some (SCH_ST_OK, st') /\
    (forall t, storage_flightplan_find_index_tlb cfg t st = Some (k, st) ->
               storage_flight_plan_delete_row cfg t st = Some (SCH_ST_OK, st')) /\
    st_flightplan_tlb st' = <[Z.to_nat k := tlb_null]> (st_flightplan_tlb st) /\
    tlb_unixtime tlb_null = -1 /\ addr tlb_null = to_uint32 (-1) /\
    (exists st'', storage_flightplan_load_tlb cfg st' = Some (SCH_ST_OK, st'') /\
                  st_flightplan_tlb st'' !! Z.to_nat k = Some tlb_null) /\
    trace st' = FramWrite (tlb_addr_start cfg + k * sizeof_fp_addr_t) sizeof_fp_addr_t
                  :: trace st /\
    flash st' = flash st /\
    (forall j, j <> Z.to_nat k -> st_flightplan_tlb st' !! j = st_flightplan_tlb st !! j) /\
    tlb_counter cfg st' = tlb_counter cfg st.
Proof.
  intros Hlayout Hok Hk. pose proof Hok as (Hlen & Hent & Hty).
  pose proof Hlayout as (HM & HN & HV & Hfit & Hsim).
  eexists. split.
  { rewrite delete_row_idx_eq by done. by apply erase_index_tlb_eq. }
  split.
  { intros t Hfind. unfold storage_flight_plan_delete_row.
    rewrite (bind_Some _ _ _ _ _ Hfind). destruct (Z.ltb_spec k 0); [lia|].
    rewrite delete_row_idx_eq by done. by apply erase_index_tlb_eq. }
  split; [done|]. split; [done|]. split; [done|]. split.
  { eexists. split; [by apply load_tlb_eq|].
    cbn [st_flightplan_tlb set_tlb fram set_fram].
    rewrite decode_tlb_lookup by lia. f_equal.
    rewrite mem_read_slice by (unfold sizeof_tlb, sizeof_fp_addr_t; lia).
    replace (Z.of_nat (8 * Z.to_nat k)) with (k * sizeof_fp_addr_t)
      by (unfold sizeof_fp_addr_t; lia).
    rewrite (mem_read_write_same _ _ (encode_fp_addr tlb_null)). done. }
  split; [done|]. split; [done|]. split.
  { intros j Hj. cbn [st_flightplan_tlb set_tlb set_fram]. by rewrite list_lookup_insert_ne. }
  rewrite tlb_counter_set_fram. apply tlb_counter_insert_other. lia.
Qed.

(** ** Rebuilds and the metadata counter *)

#[global] Instance quiet_preorder : PreOrder quiet.
Proof.
  split; [done|]. intros st1 st2 st3 H12 H23. unfold quiet in *. congruence.
Qed.

Create HintDb quiet.

Lemma quiet_storage_write_flash cfg p a data len :
  preserves quiet (storage_write_flash cfg p a data len).
Proof. intros st rc st' H. by apply storage_write_flash_inv in H as (_ & src & ->). Qed.

Lemma quiet_storage_write_fram cfg a data len :
  preserves quiet (storage_write_fram cfg a data len).
Proof. intros st rc st' H. by apply storage_write_fram_inv in H as (_ & src & -> & _). Qed.

Lemma quiet_tlb_store i f : preserves quiet (tlb_store i f).
Proof. intros st u st' H. by apply tlb_store_inv in H as (e & _ & _ & ->). Qed.

#[global] Hint Resolve quiet_storage_write_flash quiet_storage_write_fram quiet_tlb_store : quiet.

Ltac quiet_auto :=
  repeat first [ pres_step
               | solve [eauto with quiet]
               | solve [apply preserves_read_only; eauto with read_only] ].

Lemma quiet_dump_tlb cfg i : preserves quiet (storage_flightplan_dump_tlb cfg i).
Proof. unfold storage_flightplan_dump_tlb. quiet_auto. Qed.

#[global] Hint Resolve quiet_dump_tlb : quiet.

Lemma quiet_update_tlb cfg i t a : preserves quiet (storage_flightplan_update_tlb cfg i t a).
Proof. unfold storage_flightplan_update_tlb. quiet_auto. Qed.

#[global] Hint Resolve quiet_update_tlb : quiet.

Lemma quiet_erase_index_tlb cfg i : preserves quiet (flight_plan_erase_index_tlb cfg i).
Proof. unfold flight_plan_erase_index_tlb. quiet_auto. Qed.

#[global] Hint Resolve quiet_erase_index_tlb : quiet.

Lemma quiet_delete_row_idx cfg i : preserves quiet (storage_flight_plan_delete_row_idx cfg i).
Proof. unfold storage_flight_plan_delete_row_idx. quiet_auto. Qed.

#[global] Hint Resolve quiet_delete_row_idx : quiet.

Lemma quiet_delete_row cfg t : preserves quiet (storage_flight_plan_delete_row cfg t).
Proof. unfold storage_flight_plan_delete_row. quiet_auto. Qed.

#[global] Hint Resolve quiet_delete_row : quiet.

Section Counter.

Variable cfg : config.
Hypothesis Hlayout : fram_layout_ok cfg.
Hypothesis Hcps : commands_per_section cfg <= INT_MAX.

Let MAX := SCH_FP_MAX_ENTRIES cfg.

Lemma rebuild_logged st rc st' :
  flight_plan_rebuild_tlb cfg st = Some (rc, st') ->
  tlb_ok cfg st ->
  tlb_ok cfg st' /\ rebuild_count (trace st) < rebuild_count (trace st').
Proof.
  intros H Hok. unfold flight_plan_rebuild_tlb in H.
  apply bind_inv in H as ([] & st1 & Hlog & H). injection Hlog as <-.
  match type of H with
  | ?m _ = _ => assert (Hfr : preserves (frame cfg) m) by (cbv beta; frame_auto)
  end.
  destruct (Hfr _ _ _ H) as (Hok' & Hcount & _); [done|].
  split; [done|]. cbn [trace log_event rebuild_count] in Hcount. lia.
Qed.

Lemma tlb_counter_eq st e :
  st_flightplan_tlb st !! Z.to_nat MAX = Some e -> tlb_counter cfg st = addr e.
Proof. intros H. unfold tlb_counter. fold MAX. by rewrite H. Qed.

Lemma update_tlb_inv i t a st rc st' :
  tlb_ok cfg st -> 0 <= i < MAX ->
  storage_flightplan_update_tlb cfg i t a st = Some (rc, st') ->
  rc = SCH_ST_OK /\
  tlb_counter cfg st' = to_uint32 (1 + tlb_counter cfg st) /\
  quiet st st' /\ flash st' = flash st.
Proof.
  intros Hok Hi H. pose proof Hok as (Hlen & Hent & Hty). fold MAX in Hlen, Hent.
  pose proof H as Hq. apply quiet_update_tlb in Hq.
  unfold storage_flightplan_update_tlb in H.
  apply bind_inv in H as ([] & st1 & H1 & H). apply tlb_store_inv in H1 as (e1 & _ & He1 & ->).
  apply bind_inv in H as ([] & st2 & H2 & H). apply tlb_store_inv in H2 as (e2 & _ & He2 & ->).
  cbn [st_flightplan_tlb set_tlb] in *.
  apply bind_inv in H as ([] & st3 & H3 & H). apply tlb_store_inv in H3 as (e3 & _ & He3 & ->).
  cbn [st_flightplan_tlb set_tlb] in *.
  rewrite !list_lookup_insert_ne in He3 by lia.
  apply bind_inv in H as (rc1 & st4 & H4 & H).
  match type of H4 with
  | _ ?s = _ => assert (Hok3 : tlb_ok cfg s)
  end.
  { repeat split; cbn [st_flightplan_tlb st_flightplan_entries set_tlb];
      [by rewrite !length_insert | done |].
    repeat apply Forall_insert; try done; unfold addr_ok; cbn [addr];
      first [ apply to_uint32_range | by apply (Forall_lookup_1 _ _ _ _ Hty He1) ]. }
  apply dump_tlb_slot_inv in H4 as (-> & _ & e4 & _ & ->); [|done..|lia].
  simpl in H.
  apply dump_tlb_slot_inv in H as (-> & _ & e5 & _ & ->); [|done|done|lia].
  split; [done|]. split; [|split; [done | done]].
  rewrite !tlb_counter_set_fram. unfold tlb_counter at 1. fold MAX.
  cbn [st_flightplan_tlb set_tlb].
  rewrite list_lookup_insert_eq by (rewrite !length_insert; lia).
  cbn [addr]. by rewrite (tlb_counter_eq st e3).
Qed.

(** An insertion that logs no rebuild: the counter moves by one when the
    insertion succeeds and stays otherwise. *)
Lemma set_st_counter row st rc st' :
  tlb_ok cfg st ->
  storage_flight_plan_set_st cfg row st = Some (rc, st') ->
  quiet st st' ->
  tlb_counter cfg st' =
    if rc =? SCH_ST_OK then tlb_counter cfg st + 1 else tlb_counter cfg st.
Proof.
  intros Hok H Hquiet. pose proof Hok as (Hlen & Hent & Hty). fold MAX in Hlen, Hent.
  pose proof Hlayout as (HM & _).
  unfold storage_flight_plan_set_st, bind at 1, gets in H.
  destruct row as [row|]; [|by injection H as <- <-].
  destruct (storage_is_open st); simpl in H; [|by injection H as <- <-].
  apply bind_inv in H as (meta & st0 & Hmeta & H).
  apply tlb_load_inv in Hmeta as (-> & _ & Hmeta).
  assert (Hc : tlb_counter cfg st = addr meta) by by apply tlb_counter_eq.
  assert (Hrange : 0 <= addr meta < 2 ^ 32) by apply (Forall_lookup_1 _ _ _ _ Hty Hmeta).
  apply bind_inv in H as ([] & st1 & Hre & H).
  destruct (Z.gtb_spec (addr meta) (commands_per_section cfg)) as [Hgt|Hle].
  { exfalso. apply bind_inv in Hre as (rc0 & st2 & Hre & Hret). injection Hret as <-.
    apply rebuild_logged in Hre as (Hok2 & Hlt); [|done].
    match type of H with
    | ?m _ = _ => assert (Hfr : preserves (frame cfg) m) by (cbv beta; frame_auto)
    end.
    destruct (Hfr _ _ _ H Hok2) as (_ & Hmono & _). unfold quiet in Hquiet. lia. }
  injection Hre as <-.
  apply bind_inv in H as (index_tlb & st0 & Hfind & H).
  apply find_index_tlb_inv in Hfind as (-> & Hidx); [|done].
  unfold bind at 1, gets in H.
  destruct ((index_tlb =? -1) || (index_tlb >=? st_flightplan_entries st)) eqn:Hguard.
  { by injection H as <- <-. }
  apply orb_false_iff in Hguard as [Hne _]. apply Z.eqb_neq in Hne.
  destruct Hidx as [? | (Hidx & _)]; [done|].
  apply bind_inv in H as (meta' & st0 & Hmeta' & H).
  apply tlb_load_inv in Hmeta' as (-> & _ & Hmeta').
  apply bind_inv in H as (sec & st0 & Hs & H). apply read_only_c_div in Hs as ->.
  apply bind_inv in H as (iis & st0 & Hs & H). apply read_only_c_mod in Hs as ->.
  unfold bind at 1, gets in H.
  apply bind_inv in H as (fpa & st0 & Hs & H). apply read_only_deref in Hs as ->.
  apply bind_inv in H as (base & st0 & Hs & H). apply read_only_array_get in Hs as ->.
  apply bind_inv in H as (rc1 & st2 & Hup & H).
  apply update_tlb_inv in Hup as (-> & Hcnt & _ & _); [|done|fold MAX; lia].
  simpl in H. apply storage_write_flash_inv in H as (-> & src & ->).
  rewrite tlb_counter_set_flash, Hcnt, Hc. simpl. rewrite (Z.add_comm (addr meta)).
  apply to_uint32_id. unfold INT_MAX in Hcps.
  change (2 ^ 31) with 2147483648 in Hcps. change (2 ^ 32) with 4294967296 in *. lia.
Qed.

Lemma frame_counter_monotone st st' :
  frame cfg st st' ->
  (tlb_ok cfg st -> quiet st st' -> tlb_counter cfg st <= tlb_counter cfg st') ->
  counter_monotone cfg st st'.
Proof.
  intros Hfr Hc Hok. destruct (Hfr Hok) as (Hok' & Hmono & _).
  split; [done|]. split; [done|]. intros Hq. by apply Hc.
Qed.

#[global] Instance counter_monotone_preorder : PreOrder (counter_monotone cfg).
Proof.
  split.
  - intros st Hok. split; [done|]. split; lia.
  - intros st1 st2 st3 H12 H23 Hok.
    destruct (H12 Hok) as (Hok2 & Hr12 & Hc12).
    destruct (H23 Hok2) as (Hok3 & Hr23 & Hc23).
    split; [done|]. split; [lia|]. intros Heq.
    etrans; [apply Hc12 | apply Hc23]; lia.
Qed.

Lemma erase_index_tlb_counter st k rc st' :
  tlb_ok cfg st ->
  flight_plan_erase_index_tlb cfg k st = Some (rc, st') ->
  tlb_counter cfg st' = tlb_counter cfg st.
Proof.
  intros Hok H. pose proof Hok as (Hlen & Hent & Hty). fold MAX in Hlen, Hent.
  destruct (decide (0 <= k < st_flightplan_entries st)) as [Hk|Hk].
  - rewrite erase_index_tlb_eq in H by done. injection H as <- <-.
    rewrite tlb_counter_set_fram. apply tlb_counter_insert_other. fold MAX. lia.
  - unfold flight_plan_erase_index_tlb, bind at 1, gets in H.
    destruct (Z.ltb_spec k 0), (Z.geb_spec k (st_flightplan_entries st));
      simpl in H; try lia; by injection H as <- <-.
Qed.

Lemma delete_row_idx_counter st k rc st' :
  tlb_ok cfg st ->
  storage_flight_plan_delete_row_idx cfg k st = Some (rc, st') ->
  tlb_counter cfg st' = tlb_counter cfg st.
Proof.
  intros Hok H. unfold storage_flight_plan_delete_row_idx, bind at 1, gets in H.
  destruct (k >=? _); [by injection H as <- <- | by eapply erase_index_tlb_counter].
Qed.

Lemma delete_row_counter st t rc st' :
  tlb_ok cfg st ->
  storage_flight_plan_delete_row cfg t st = Some (rc, st') ->
  tlb_counter cfg st' = tlb_counter cfg st.
Proof.
  intros Hok H. unfold storage_flight_plan_delete_row in H.
  apply bind_inv in H as (i & st0 & Hf & H). apply read_only_find_index_tlb in Hf as ->.
  destruct (i <? 0); [by injection H as <- <- | by eapply delete_row_idx_counter].
Qed.

Lemma counter_monotone_set_st row :
  preserves (counter_monotone cfg) (storage_flight_plan_set_st cfg row).
Proof.
  intros st rc st' H. apply frame_counter_monotone; [by eapply frame_set_st|].
  intros Hok Hq. rewrite (set_st_counter row st rc st') by done.
  destruct (rc =? _); lia.
Qed.

Lemma counter_monotone_run_op op : preserves (counter_monotone cfg) (run_op cfg op).
Proof.
  destruct op; simpl.
  - apply counter_monotone_set_st.
  - unfold storage_flight_plan_set.
    repeat first [ pres_step
                 | apply counter_monotone_set_st
                 | solve [apply preserves_read_only; eauto with read_only] ].
  - apply preserves_read_only. read_only_auto.
  - apply preserves_read_only. read_only_auto.
  - apply preserves_read_only. read_only_auto.
  - intros st rc st' H. apply frame_counter_monotone; [by eapply frame_delete_row|].
    intros Hok _. by rewrite (delete_row_counter st timetodo rc st').
  - intros st rc st' H. apply frame_counter_monotone; [by eapply frame_delete_row_idx|].
    intros Hok _. by rewrite (delete_row_idx_counter st index rc st').
Qed.

Lemma counter_monotone_run_ops ops : preserves (counter_monotone cfg) (run_ops cfg ops).
Proof.
  induction ops as [|op ops IH]; simpl.
  - apply preserves_read_only, read_only_ret.
  - repeat first [ pres_step
                 | apply counter_monotone_run_op
                 | apply IH
                 | solve [apply preserves_read_only; eauto with read_only] ].
Qed.

End Counter.


(** ** The rebuild threshold *)

Lemma outcome_intro {A} (m : M A) st a :
  fst <$> m st = Some a ->
  exists st', m st = Some (a, st') /\ st' = state_of (m st) st.
Proof.
  destruct (m st) as [[a' st']|]; simpl; [|done]. intros [= ->]. by exists st'.
Qed.

Lemma read_only_outcome {A} (m : M A) st a :
  read_only m -> fst <$> m st = Some a -> m st = Some (a, st).
Proof.
  intros Hro H. destruct (m st) as [[a' st']|] eqn:E; simpl in H; [|done].
  injection H as ->. by rewrite (Hro _ _ _ E).
Qed.

(** Closed goals over the simulated node are settled by evaluation. *)
Ltac concrete :=
  unfold fram_layout_ok;
  repeat match goal with |- _ /\ _ => split end;
  vm_compute; first [ reflexivity | discriminate ].

Lemma addr_okb_sound l : forallb addr_okb l = true -> Forall addr_ok l.
Proof.
  induction l as [|e l IH]; simpl; [constructor|].
  intros [He Hl]%andb_true_iff. constructor; [|by apply IH].
  unfold addr_okb in He. apply andb_true_iff in He as [H0 H1].
  split; [by apply Z.leb_le | by apply Z.ltb_lt].
Qed.

Ltac concrete_tlb_ok :=
  unfold tlb_ok;
  split; [vm_compute; reflexivity | split; [vm_compute; discriminate |]];
  apply addr_okb_sound; vm_compute; reflexivity.

Lemma sim_layout : fram_layout_ok sim_cfg.
Proof. concrete. Defined.

Lemma sim_ready_ok : tlb_ok sim_cfg sim_ready.
Proof. concrete_tlb_ok. Defined.

Lemma sim_planned_ok : tlb_ok sim_cfg sim_planned.
Proof. concrete_tlb_ok. Defined.

(** Whether an insertion starts with a rebuild is decided by the strict
    comparison of the metadata counter with [commands_per_section]. *)
Lemma set_st_rebuild_threshold cfg st row rc st' :
  fram_layout_ok cfg ->
  tlb_ok cfg st ->
  storage_is_open st = true ->
  storage_flight_plan_set_st cfg (Some row) st = Some (rc, st') ->
  (tlb_counter cfg st > commands_per_section cfg ->
   rebuild_count (trace st) < rebuild_count (trace st')) /\
  (tlb_counter cfg st <= commands_per_section cfg -> quiet st st').
Proof.
  intros Hlayout Hok Hopen H.
  unfold storage_flight_plan_set_st, bind at 1, gets in H. rewrite Hopen in H. simpl in H.
  apply bind_inv in H as (meta & st0 & Hmeta & H).
  apply tlb_load_inv in Hmeta as (-> & _ & Hmeta).
  rewrite (tlb_counter_eq cfg st meta Hmeta).
  apply bind_inv in H as ([] & st1 & Hre & H).
  destruct (Z.gtb_spec (addr meta) (commands_per_section cfg)) as [Hgt|Hle].
  - split; [intros _ | lia].
    apply bind_inv in Hre as (rc0 & st2 & Hre & Hret). injection Hret as <-.
    apply rebuild_logged in Hre as (Hok2 & Hlt); [|done..].
    match type of H with
    | ?m _ = _ => assert (Hfr : preserves (frame cfg) m) by (cbv beta; frame_auto)
    end.
    destruct (Hfr _ _ _ H Hok2) as (_ & Hmono & _). lia.
  - split; [lia | intros _]. injection Hre as <-.
    match type of H with
    | ?m _ = _ => assert (Hq : preserves quiet m) by (cbv beta; quiet_auto)
    end.
    by eapply Hq.
Qed.

(** C1. On the simulated node, with the metadata counter equal to
    [commands_per_section] (four insertions, one deletion), the next
    insertion succeeds without any rebuild and lands in the second section,
    at [st_flightplan_addr[1]]. *)
Theorem set_st_at_full_section_skips_rebuild :
  tlb_counter sim_cfg sim_full_section = commands_per_section sim_cfg /\
  exists st',
    storage_flight_plan_set_st sim_cfg (Some (sim_row 500)) sim_full_section
      = Some (SCH_ST_OK, st') /\
    rebuild_count (trace st') = rebuild_count (trace sim_full_section) /\
    st_flightplan_addr st' = Some [2048; 4096] /\
    st_flightplan_tlb st' !! 0%nat = Some {| addr := 4096; tlb_unixtime := 500 |} /\
    tlb_counter sim_cfg st' = commands_per_section sim_cfg + 1.
Proof.
  split; [vm_compute; reflexivity|].
  destruct (outcome_intro
              (storage_flight_plan_set_st sim_cfg (Some (sim_row 500)))
              sim_full_section SCH_ST_OK) as (st' & Hrun & Hst'); [vm_compute; reflexivity|].
  exists st'. split; [exact Hrun|]. rewrite Hst'. clear.
  vm_compute. repeat split.
Qed.

(** ** Payload addressing *)

Lemma c_div_eq a b st : 0 <= a -> 0 < b -> c_div a b st = Some (a / b, st).
Proof.
  intros Ha Hb. unfold c_div. destruct (Z.eqb_spec b 0); [lia|].
  unfold ret. by rewrite Z.quot_div_nonneg.
Qed.

Lemma c_mod_eq a b st : 0 <= a -> 0 < b -> c_mod a b st = Some (a mod b, st).
Proof.
  intros Ha Hb. unfold c_mod. destruct (Z.eqb_spec b 0); [lia|].
  unfold ret. by rewrite Z.rem_mod_nonneg.
Qed.

Lemma get_sample_address_eq cfg st p i s pa base :
  0 < s <= ST_PAGE_SIZE -> 0 <= i ->
  ST_PAGE_SIZE <= SCH_SIZE_PER_SECTION cfg ->
  let sample_section :=
    i / (ST_PAGE_SIZE / s * (SCH_SIZE_PER_SECTION cfg / ST_PAGE_SIZE)) in
  let section_index := p * SCH_SECTIONS_PER_PAYLOAD cfg + sample_section in
  sample_section <= SCH_SECTIONS_PER_PAYLOAD cfg ->
  0 <= section_index <= st_payloads_entries st * SCH_SECTIONS_PER_PAYLOAD cfg ->
  st_payload_addr st = Some pa ->
  pa !! Z.to_nat section_index = Some base ->
  _get_sample_address cfg p i s st =
    Some ((if code_address base i s >?
              to_uint32 (SCH_FLASH_INIT_MEMORY cfg + st_flightplan_base_addr st +
                         st_payloads_entries st * SCH_SECTIONS_PER_PAYLOAD cfg *
                         SCH_SIZE_PER_SECTION cfg)
           then SCH_ST_ERROR else SCH_ST_OK,
           Some (code_address base i s)), st).
Proof.
  intros Hs Hi Hsec sample_section section_index Hss Hsi Hpa Hbase.
  unfold ST_PAGE_SIZE in *.
  assert (Hspp : 1 <= 512 / s <= 512).
  { split; [apply Z.div_le_lower_bound; lia | apply Z.div_le_upper_bound; nia]. }
  assert (Hpis : 1 <= SCH_SIZE_PER_SECTION cfg / 512)
    by (apply Z.div_le_lower_bound; lia).
  assert (H512 : 0 <= 512) by lia. assert (Hs0 : 0 < s) by lia.
  assert (Hspp0 : 0 < 512 / s) by lia. assert (H512' : 0 < 512) by lia.
  assert (Hsec0 : 0 <= SCH_SIZE_PER_SECTION cfg) by lia.
  assert (Hsps0 : 0 < 512 / s * (SCH_SIZE_PER_SECTION cfg / 512)) by nia.
  unfold _get_sample_address.
  rewrite (bind_Some _ _ _ _ _ (c_div_eq 512 s st H512 Hs0)).
  rewrite (to_int32_id (512 / s)) by (unfold INT_MIN, INT_MAX; lia).
  destruct (Z.eqb_spec (512 / s) 0); [lia|].
  rewrite (bind_Some _ _ _ _ _ (c_div_eq i (512 / s) st Hi Hspp0)).
  rewrite (bind_Some _ _ _ _ _ (c_mod_eq i (512 / s) st Hi Hspp0)).
  rewrite (bind_Some _ _ _ _ _ (c_div_eq (SCH_SIZE_PER_SECTION cfg) 512 st Hsec0 H512')).
  rewrite (bind_Some _ _ _ _ _ (c_div_eq i _ st Hi Hsps0)).
  fold sample_section. fold section_index.
  destruct (Z.gtb_spec sample_section (SCH_SECTIONS_PER_PAYLOAD cfg)); [lia|].
  unfold bind at 1, gets.
  destruct (Z.gtb_spec section_index
              (st_payloads_entries st * SCH_SECTIONS_PER_PAYLOAD cfg)); [lia|].
  unfold bind at 1, gets. rewrite Hpa. unfold bind at 1, deref, ret.
  assert (Hsi0 : 0 <= section_index) by lia.
  rewrite (bind_Some _ _ _ _ _ (array_get_eq pa section_index st base Hsi0 Hbase)).
  unfold bind, gets, code_address, ST_PAGE_SIZE.
  by destruct (_ >? _).
Qed.

(** Inside the first section of a payload the code and the specification
    place a sample at the same address. *)
Lemma code_address_matches_spec cfg pa p i s base :
  0 < s <= ST_PAGE_SIZE -> 0 <= i ->
  ST_PAGE_SIZE <= SCH_SIZE_PER_SECTION cfg ->
  i < ST_PAGE_SIZE / s * (SCH_SIZE_PER_SECTION cfg / ST_PAGE_SIZE) ->
  pa !! Z.to_nat (p * SCH_SECTIONS_PER_PAYLOAD cfg) = Some base ->
  to_uint32 <$> spec_sample_address cfg pa p i s = Some (code_address base i s).
Proof.
  intros Hs Hi Hsec Hlt Hbase. unfold spec_sample_address, code_address, ST_PAGE_SIZE in *.
  assert (Hspp : 1 <= 512 / s) by (apply Z.div_le_lower_bound; lia).
  assert (Hpis : 1 <= SCH_SIZE_PER_SECTION cfg / 512) by (apply Z.div_le_lower_bound; lia).
  rewrite (Z.div_small i) by lia. rewrite Z.add_0_r, Hbase. simpl.
  rewrite (Z.mod_small (i / (512 / s))); [done|].
  split; [apply Z.div_pos; lia|]. apply Z.div_lt_upper_bound; lia.
Qed.

Lemma storage_write_flash_eq cfg p a data len st :
  0 <= a < 2 ^ 32 -> 0 <= len < 2 ^ 16 ->
  len <= Z.of_nat (length data) -> a + len <= flash_size cfg ->
  storage_write_flash cfg p a data len st =
    Some (SCH_ST_OK,
          set_flash (mem_write (flash st) a (take (Z.to_nat len) data)) (FlashWrite a len) st).
Proof.
  intros Ha Hlen Hdata Hb. unfold storage_write_flash.
  rewrite to_uint32_id, to_uint16_id by done.
  unfold buffer_slice, bind at 1.
  destruct (Z.leb_spec 0 0), (Z.leb_spec 0 len),
    (Z.leb_spec (0 + len) (Z.of_nat (length data))); simpl; try lia.
  unfold bind, gets, modify, ret. rewrite drop_0.
  replace (in_bounds a len (flash_size cfg)) with true; [done|].
  symmetry. apply in_bounds_true. lia.
Qed.

Lemma write_data_with_check_eq cfg a data len st :
  0 <= a -> a + len < 2 ^ 32 -> 0 <= len < 2 ^ 16 ->
  len <= Z.of_nat (length data) -> a + len <= flash_size cfg ->
  (a + len) / ST_PAGE_SIZE <= a / ST_PAGE_SIZE ->
  write_data_with_check cfg a data len st =
    Some (SCH_ST_OK,
          set_flash (mem_write (flash st) a (take (Z.to_nat len) data)) (FlashWrite a len) st).
Proof.
  intros Ha Hal Hlen Hdata Hb Hpage.
  unfold write_data_with_check, check_address_alignment.
  rewrite (to_uint32_id a), (to_uint16_id len), (to_uint32_id (a + len)) by lia.
  destruct (Z.gtb_spec ((a + len) / ST_PAGE_SIZE) (a / ST_PAGE_SIZE)); [lia|].
  change (SCH_ST_OK =? SCH_ST_ERROR) with false. cbv iota.
  rewrite (bind_Some _ _ _ _ _ (storage_write_flash_eq cfg 0 a data len st
             ltac:(lia) Hlen Hdata Hb)).
  done.
Qed.

(** C3, as the code has it. With pages of 512 bytes and records of 200
    bytes two records go into each page: the sample indexes 0, 1, 2 and 3
    of a payload whose first section starts at the page-aligned address
    [b] get the addresses [b], [b + 200], [b + 512] and [b + 712]. No
    record crosses a page boundary and the page check accepts all four;
    index 2 starts the next page and is not refused by it. The one test
    left is the limit of [_get_sample_address]: when the address is not
    above [SCH_FLASH_INIT_MEMORY + st_flightplan_base_addr +
    st_payloads_entries * SCH_SECTIONS_PER_PAYLOAD * SCH_SIZE_PER_SECTION],
    [storage_payload_set_data] returns OK and has written the record
    there; when it is above, the function returns the error and writes
    nothing. *)
Theorem payload_records_of_200_bytes cfg st p pa b data sx i :
  storage_is_open st = true ->
  st_payload_addr st = Some pa ->
  pa !! Z.to_nat (p * SCH_SECTIONS_PER_PAYLOAD cfg) = Some b ->
  0 <= SCH_SECTIONS_PER_PAYLOAD cfg ->
  0 <= p * SCH_SECTIONS_PER_PAYLOAD cfg
    <= st_payloads_entries st * SCH_SECTIONS_PER_PAYLOAD cfg ->
  2 * ST_PAGE_SIZE <= SCH_SIZE_PER_SECTION cfg ->
  0 <= b ->
  b mod ST_PAGE_SIZE = 0 ->
  b + 2 * ST_PAGE_SIZE <= flash_size cfg <= 2 ^ 32 ->
  200 <= Z.of_nat (length data) ->
  0 <= i <= 3 ->
  let a := b + ST_PAGE_SIZE * (i / 2) + 200 * (i mod 2) in
  let limit := to_uint32 (SCH_FLASH_INIT_MEMORY cfg + st_flightplan_base_addr st +
                          st_payloads_entries st * SCH_SECTIONS_PER_PAYLOAD cfg *
                          SCH_SIZE_PER_SECTION cfg) in
  a / ST_PAGE_SIZE = (a + 199) / ST_PAGE_SIZE /\
  check_address_alignment a 200 = SCH_ST_OK /\
  _get_sample_address cfg p i 200 st =
    Some ((if a >? limit then SCH_ST_ERROR else SCH_ST_OK, Some a), st) /\
  if a >? limit
  then storage_payload_set_data cfg p i (Some data) (Some {| size := 200; sys_index := sx |}) st
         = Some (SCH_ST_ERROR, st)
  else exists st',
         storage_payload_set_data cfg p i (Some data) (Some {| size := 200; sys_index := sx |}) st
           = Some (SCH_ST_OK, st') /\
         trace st' = FlashWrite a 200 :: trace st /\
         mem_read (flash st') a 200 = take 200 data.
Proof.
  intros Hopen Hpa Hbase HK Hp Hsec Hb0 Hbal Hflash Hdata Hi a limit.
  unfold ST_PAGE_SIZE in *.
  assert (Hpis : 2 <= SCH_SIZE_PER_SECTION cfg / 512) by (apply Z.div_le_lower_bound; lia).
  assert (Hq : i / 2 = 0 /\ i mod 2 = 0 \/ i / 2 = 0 /\ i mod 2 = 1 \/
               i / 2 = 1 /\ i mod 2 = 0 \/ i / 2 = 1 /\ i mod 2 = 1).
  { assert (i = 0 \/ i = 1 \/ i = 2 \/ i = 3) as [-> | [-> | [-> | ->]]] by lia; auto. }
  assert (Hss : i / (2 * (SCH_SIZE_PER_SECTION cfg / 512)) = 0) by (apply Z.div_small; lia).
  assert (Ha : 0 <= a /\ a + 200 <= b + 1024) by (subst a; lia).
  assert (Hpage : a / 512 = (a + 199) / 512 /\ (a + 200) / 512 = a / 512).
  { subst a. destruct Hq as [[-> ->] | [[-> ->] | [[-> ->] | [-> ->]]]];
      Z.div_mod_to_equations; lia. }
  assert (Hcode : code_address b i 200 = a).
  { unfold code_address, ST_PAGE_SIZE. change (512 / 200) with 2.
    subst a. rewrite to_uint32_id; lia. }
  assert (Hchk : check_address_alignment a 200 = SCH_ST_OK).
  { unfold check_address_alignment, ST_PAGE_SIZE.
    rewrite (to_uint32_id a), (to_uint16_id 200), (to_uint32_id (a + 200))
      by (change (2 ^ 16) with 65536; lia).
    destruct Hpage as [_ Hp2]. rewrite Hp2.
    by destruct (Z.gtb_spec (a / 512) (a / 512)); [lia|]. }
  assert (Haddr : _get_sample_address cfg p i 200 st =
            Some ((if a >? limit then SCH_ST_ERROR else SCH_ST_OK, Some a), st)).
  { rewrite <- Hcode.
    apply (get_sample_address_eq cfg st p i 200 pa b); unfold ST_PAGE_SIZE;
      change (512 / 200) with 2; rewrite ?Hss, ?Z.add_0_r; done || lia. }
  split; [by destruct Hpage|]. split; [exact Hchk|]. split; [exact Haddr|].
  assert (Hcall : forall k : Z * option Z -> M Z,
            (do open <- gets storage_is_open;
             do payload_addr <- gets st_payload_addr;
             if negb open || negb (bool_decide (is_Some payload_addr)) then ret SCH_ST_ERROR
             else do x <- _get_sample_address cfg p i 200; k x) st =
            k (if a >? limit then SCH_ST_ERROR else SCH_ST_OK, Some a) st).
  { intros k. unfold bind at 1, gets. unfold bind at 1, gets. rewrite Hopen, Hpa.
    replace (bool_decide (is_Some (Some pa))) with true
      by (symmetry; apply bool_decide_eq_true; eauto).
    change (negb true || negb true) with false. cbv iota.
    by rewrite (bind_Some _ _ _ _ _ Haddr). }
  unfold storage_payload_set_data. cbn [size].
  rewrite (to_uint16_id 200) by (change (2 ^ 16) with 65536; lia).
  rewrite Hcall. clear Hcall Haddr.
  destruct (a >? limit).
  - reflexivity.
  - change (negb (SCH_ST_OK =? SCH_ST_OK)) with false. cbv iota.
    unfold deref, bind at 1, ret. destruct Hpage as [Hp1 Hp2].
    rewrite (bind_Some _ _ _ _ _ (write_data_with_check_eq cfg a data 200 st
               ltac:(lia) ltac:(lia) ltac:(change (2 ^ 16) with 65536; lia) Hdata
               ltac:(lia) ltac:(unfold ST_PAGE_SIZE; lia))).
    change (negb (SCH_ST_OK =? SCH_ST_ERROR)) with true. cbv iota. unfold ret.
    eexists. split; [reflexivity|]. cbn [trace flash set_flash]. split; [done|].
    change (Z.to_nat 200) with 200%nat.
    assert (Hl : length (take 200 data) = 200%nat) by (rewrite length_take_le; lia).
    rewrite <- Hl at 2. apply mem_read_write_same.
Qed.

(** C3, the claim as written: on the simulated node the write of sample
    index 2 does not fail; it returns OK and writes the page after the
    one of the samples 0 and 1. *)
Lemma payload_index_2_succeeds :
  st_payload_addr sim_ready = Some [6144; 8192; 10240; 12288] /\
  exists st',
    storage_payload_set_data sim_cfg 0 2 (Some sim_sample) (Some sim_schema) sim_ready
      = Some (SCH_ST_OK, st') /\
    SCH_ST_OK <> SCH_ST_ERROR /\
    trace st' = FlashWrite (6144 + 512) 200 :: trace sim_ready.
Proof.
  split; [vm_compute; reflexivity|].
  destruct (outcome_intro
              (storage_payload_set_data sim_cfg 0 2 (Some sim_sample) (Some sim_schema))
              sim_ready SCH_ST_OK) as (st' & Hrun & Hst'); [vm_compute; reflexivity|].
  exists st'. split; [exact Hrun|]. rewrite Hst'. clear.
  split; [discriminate|]. vm_compute. reflexivity.
Qed.

(** C5. On the simulated node sample 8 of payload 0 is the first sample of
    the payload's second section, which starts at 8192, where the formula
    of the specification puts it; the code computes 10240 instead, the
    first address of payload 1, and both the write and the read use it. *)
Theorem sample_beyond_first_section_misplaced :
  st_payload_addr sim_ready = Some [6144; 8192; 10240; 12288] /\
  spec_sample_address sim_cfg [6144; 8192; 10240; 12288] 0 8 200 = Some 8192 /\
  fst <$> _get_sample_address sim_cfg 0 8 200 sim_ready = Some (SCH_ST_OK, Some 10240) /\
  fst <$> _get_sample_address sim_cfg 1 0 200 sim_ready = Some (SCH_ST_OK, Some 10240) /\
  exists st',
    storage_payload_set_data sim_cfg 0 8 (Some sim_sample) (Some sim_schema) sim_ready
      = Some (SCH_ST_OK, st') /\
    trace st' = FlashWrite 10240 200 :: trace sim_ready /\
    fst <$> storage_payload_get_data sim_cfg 0 8 PTR (Some sim_schema) st'
      = Some (SCH_ST_OK, Some sim_sample) /\
    fst <$> storage_payload_get_data sim_cfg 1 0 PTR (Some sim_schema) st'
      = Some (SCH_ST_OK, Some sim_sample).
Proof.
  do 4 (split; [vm_compute; reflexivity|]).
  destruct (outcome_intro
              (storage_payload_set_data sim_cfg 0 8 (Some sim_sample) (Some sim_schema))
              sim_ready SCH_ST_OK) as (st' & Hrun & Hst'); [vm_compute; reflexivity|].
  exists st'. split; [exact Hrun|]. rewrite Hst'. clear.
  vm_compute. repeat split.
Qed.

(** ** The purge *)

Section Respects.

Context {E : storage -> storage -> Prop}.

Lemma respects_ret {A} (a : A) : respects E (ret a).
Proof. by intros st s ? st' _ [= <- <-]. Qed.

Lemma respects_undefined {A} : respects E (@undefined A).
Proof. by intros st s ? st' _ [=]. Qed.

Lemma respects_bind {A B} (m : M A) (k : A -> M B) :
  respects E m -> (forall a, respects E (k a)) -> respects E (bind m k).
Proof.
  intros Hm Hk st s b st'' HE H. apply bind_inv in H as (a & st' & H1 & H2).
  destruct (Hm _ _ _ _ HE H1) as [-> Hs].
  destruct (Hk _ _ _ _ _ HE H2) as [-> Hs2].
  split; [done|]. by rewrite (bind_Some _ _ _ _ _ Hs).
Qed.

Lemma respects_gets {A} (f : storage -> A) :
  (forall st s, E st s -> f s = f st) -> respects E (gets f).
Proof. intros Hf st s ? st' HE [= <- <-]. split; [done|]. unfold gets. by rewrite (Hf _ _ HE). Qed.

Lemma respects_deref {A} (p : option A) : respects E (deref p).
Proof. destruct p; [apply respects_ret | apply respects_undefined]. Qed.

End Respects.

Ltac respects_step :=
  lazymatch goal with
  | |- respects _ (bind _ _) => apply respects_bind; [| intros ?]
  | |- respects _ (ret _) => apply respects_ret
  | |- respects _ undefined => apply respects_undefined
  | |- respects _ (deref _) => apply respects_deref
  | |- respects _ (if ?b then _ else _) => destruct b
  | |- respects _ (match ?x with _ => _ end) => destruct x
  | |- respects _ (let _ := _ in _) => cbv zeta
  end.

Lemma respects_tlb_load k : respects (same_slot k) (tlb_load k).
Proof.
  intros st s e st' (_ & Hslot & _) H.
  apply tlb_load_inv in H as (-> & H0 & He). split; [done|].
  apply tlb_load_eq; [done | by rewrite Hslot].
Qed.

Lemma respects_read_flash cfg k p a len :
  respects (same_slot k) (storage_read_flash cfg p a len).
Proof.
  intros st s r st' (_ & _ & Hflash) H.
  unfold storage_read_flash, bind, gets, ret in *. rewrite Hflash.
  destruct (in_bounds _ _ _); [|done]. by injection H as <- <-.
Qed.

(** A read by index looks at the number of entries, at its slot and at
    the flash only. *)
Lemma respects_get_idx cfg k p :
  respects (same_slot k) (storage_flight_plan_get_idx cfg k p).
Proof.
  unfold storage_flight_plan_get_idx.
  apply respects_bind; [apply respects_gets; by intros st s (? & _) | intros n].
  repeat first [ respects_step | apply respects_tlb_load | apply respects_read_flash ].
Qed.

Lemma get_idx_tombstone cfg k st e :
  0 <= k < st_flightplan_entries st ->
  st_flightplan_tlb st !! Z.to_nat k = Some e ->
  live e = false ->
  storage_flight_plan_get_idx cfg k PTR st = Some ((SCH_ST_ERROR, None), st).
Proof.
  intros Hk He Hlive. unfold storage_flight_plan_get_idx, bind at 1, gets.
  destruct (Z.geb_spec k (st_flightplan_entries st)); [lia|]. simpl.
  assert (H0 : 0 <= k) by lia.
  rewrite (bind_Some _ _ _ _ _ (tlb_load_eq k st e H0 He)).
  unfold live in Hlive. apply negb_false_iff in Hlive. by rewrite Hlive.
Qed.

Section Purge.

Variable cfg : config.
Hypothesis Hlayout : fram_layout_ok cfg.

Let MAX := SCH_FP_MAX_ENTRIES cfg.

Lemma delete_row_idx_facts s k :
  tlb_ok cfg s -> 0 <= k < st_flightplan_entries s ->
  exists s1,
    storage_flight_plan_delete_row_idx cfg k s = Some (SCH_ST_OK, s1) /\
    tlb_ok cfg s1 /\
    st_flightplan_entries s1 = st_flightplan_entries s /\
    flash s1 = flash s /\
    st_flightplan_tlb s1 = <[Z.to_nat k := tlb_null]> (st_flightplan_tlb s).
Proof.
  intros Hok Hk. pose proof Hok as (Hlen & Hent & Hty).
  eexists. split.
  { rewrite delete_row_idx_eq by done. by apply erase_index_tlb_eq. }
  split; [|done].
  repeat split; cbn [st_flightplan_tlb st_flightplan_entries set_tlb set_fram];
    [by rewrite length_insert | done |].
  apply Forall_insert; [done | apply addr_ok_tlb_null].
Qed.

Lemma live_tlb_null : live tlb_null = false.
Proof. done. Qed.

Lemma purge_entry_step tm lo st s f c e :
  coherent cfg st ->
  st_flightplan_entries st = MAX ->
  tlb_ok cfg s -> st_flightplan_entries s = MAX -> flash s = flash st ->
  0 <= lo < MAX ->
  st_flightplan_tlb st !! Z.to_nat lo = Some e ->
  st_flightplan_tlb s !! Z.to_nat lo = Some e ->
  exists f1 s1,
    purge_entry cfg tm lo (f, c) s = Some ((f1, c + (if kept tm e then 1 else 0)), s1) /\
    tlb_ok cfg s1 /\ st_flightplan_entries s1 = MAX /\ flash s1 = flash s /\
    (forall j, j <> Z.to_nat lo -> st_flightplan_tlb s1 !! j = st_flightplan_tlb s !! j) /\
    (if kept tm e
     then st_flightplan_tlb s1 !! Z.to_nat lo = Some e
     else exists e', st_flightplan_tlb s1 !! Z.to_nat lo = Some e' /\ live e' = false).
Proof.
  intros Hcoh Hent_st Hok Hent Hflash Hlo Hst Hs.
  assert (Hk : 0 <= lo < st_flightplan_entries s) by lia.
  destruct (delete_row_idx_facts s lo Hok Hk) as (s1 & Hdel & Hok1 & Hent1 & Hflash1 & Htlb1).
  assert (Hs1 :
    tlb_ok cfg s1 /\ st_flightplan_entries s1 = MAX /\ flash s1 = flash s /\
    (forall j, j <> Z.to_nat lo -> st_flightplan_tlb s1 !! j = st_flightplan_tlb s !! j) /\
    exists e', st_flightplan_tlb s1 !! Z.to_nat lo = Some e' /\ live e' = false).
  { split; [done|]. split; [lia|]. split; [done|]. split.
    - intros j Hj. rewrite Htlb1. by apply list_lookup_insert_ne.
    - exists tlb_null. split; [|done]. rewrite Htlb1. apply list_lookup_insert_eq.
      destruct Hok as (Hlen & _). fold MAX in Hlen. lia. }
  unfold purge_entry, kept.
  destruct (live e) eqn:Hlive.
  - destruct (Hcoh lo e Hlo Hst Hlive) as (row & Hget & Htime).
    assert (Hsame : same_slot lo st s) by (repeat split; congruence).
    destruct (respects_get_idx cfg lo PTR st s _ _ Hsame Hget) as [_ Hget_s].
    rewrite (bind_Some _ _ _ _ _ Hget_s). rewrite Htime.
    change (SCH_ST_OK =? SCH_ST_OK) with true. cbn [andb].
    destruct (tlb_unixtime e >? tm).
    + exists row, s. do 4 (split; [done|]). split; done.
    + unfold live in Hlive. rewrite Hlive.
      exists row, s1. rewrite (bind_Some _ _ _ _ _ Hdel), Z.add_0_r.
      split; [done | exact Hs1].
  - rewrite (bind_Some _ _ _ _ _ (get_idx_tombstone cfg lo s e Hk Hs Hlive)).
    change (SCH_ST_ERROR =? SCH_ST_OK) with false. cbn [andb].
    destruct (negb (unixtime f =? ST_FP_NULL)).
    + exists f, s1. rewrite (bind_Some _ _ _ _ _ Hdel), Z.add_0_r.
      split; [done | exact Hs1].
    + exists f, s. rewrite Z.add_0_r. do 4 (split; [done|]). split; [done|]. by exists e.
Qed.

Lemma count_live_take_S n lo l x :
  l !! lo = Some x ->
  count_live (take (S n) (drop lo l)) =
    (if live x then 1 else 0) + count_live (take n (drop (S lo) l)).
Proof. intros H. by rewrite (drop_S _ _ _ H). Qed.

Lemma purge_loop tm st :
  coherent cfg st ->
  st_flightplan_entries st = MAX ->
  forall n lo s f c,
    lo + Z.of_nat n = MAX -> 0 <= lo ->
    tlb_ok cfg s -> st_flightplan_entries s = MAX -> flash s = flash st ->
    (forall k, lo <= k < MAX ->
       st_flightplan_tlb s !! Z.to_nat k = st_flightplan_tlb st !! Z.to_nat k) ->
    exists f' s',
      for_range lo n (purge_entry cfg tm) (f, c) s =
        Some ((f', c + count_live (take n (drop (Z.to_nat lo) (st_flightplan_tlb s')))), s') /\
      tlb_ok cfg s' /\ st_flightplan_entries s' = MAX /\ flash s' = flash st /\
      (forall j, (j < Z.to_nat lo)%nat ->
         st_flightplan_tlb s' !! j = st_flightplan_tlb s !! j) /\
      (forall k e, lo <= k < MAX ->
         st_flightplan_tlb st !! Z.to_nat k = Some e ->
         if kept tm e
         then st_flightplan_tlb s' !! Z.to_nat k = Some e
         else exists e', st_flightplan_tlb s' !! Z.to_nat k = Some e' /\ live e' = false).
Proof.
  intros Hcoh Hent_st n. induction n as [|n IH]; intros lo s f c Hn Hlo Hok Hent Hflash Hsame.
  - exists f, s. simpl. rewrite Z.add_0_r. do 4 (split; [done|]). split; [done|].
    intros k e Hk. lia.
  - assert (Hlt : (Z.to_nat lo < length (st_flightplan_tlb s))%nat)
      by (destruct Hok as (Hlen & _); fold MAX in Hlen; lia).
    destruct (lookup_lt_is_Some_2 _ _ Hlt) as [e He].
    assert (Hest : st_flightplan_tlb st !! Z.to_nat lo = Some e)
      by (rewrite <- Hsame by lia; done).
    destruct (purge_entry_step tm lo st s f c e Hcoh Hent_st Hok Hent Hflash
                ltac:(lia) Hest He) as (f1 & s1 & Hstep & Hok1 & Hent1 & Hflash1 & Hoth & Hat).
    destruct (IH (lo + 1) s1 f1 (c + (if kept tm e then 1 else 0)))
      as (f' & s' & Hrun & Hok' & Hent' & Hflash' & Hbelow & Hslots);
      [lia | lia | done | done | congruence | |].
    { intros k Hk. rewrite Hoth by lia. apply Hsame. lia. }
    assert (Hlo' : st_flightplan_tlb s' !! Z.to_nat lo = st_flightplan_tlb s1 !! Z.to_nat lo)
      by (apply Hbelow; lia).
    exists f', s'. split; [|split; [done|split; [done|split; [done|split]]]].
    + simpl for_range. rewrite (bind_Some _ _ _ _ _ Hstep), Hrun. do 3 f_equal.
      replace (Z.to_nat (lo + 1)) with (S (Z.to_nat lo)) by lia.
      destruct (kept tm e) eqn:Hkept.
      * rewrite (count_live_take_S n _ _ e) by (by rewrite Hlo').
        unfold kept in Hkept. apply andb_true_iff in Hkept as [-> _]. lia.
      * destruct Hat as (e' & He' & Hdead).
        rewrite (count_live_take_S n _ _ e') by (by rewrite Hlo').
        rewrite Hdead. lia.
    + intros j Hj. rewrite Hbelow by lia. apply Hoth. lia.
    + intros k e0 Hk Hk0. destruct (decide (k = lo)) as [->|Hne].
      * rewrite Hest in Hk0. injection Hk0 as <-. by rewrite Hlo'.
      * apply Hslots; [lia | done].
Qed.

End Purge.

Lemma to_int32_idem v : to_int32 (to_int32 v) = to_int32 v.
Proof.
  unfold to_int32. change (2 ^ 31) with 2147483648. change (2 ^ 32) with 4294967296.
  Z.div_mod_to_equations. lia.
Qed.

Lemma get_idx_row_time cfg k p st rc row st' :
  storage_flight_plan_get_idx cfg k p st = Some ((rc, Some row), st') ->
  to_int32 (unixtime row) = unixtime row.
Proof.
  intros H. unfold storage_flight_plan_get_idx, bind at 1, gets in H.
  destruct (_ || _); [done|].
  apply bind_inv in H as (e & st0 & _ & H).
  destruct (_ =? _); [done|].
  apply bind_inv in H as ([rc1 buf] & st1 & _ & H).
  destruct (rc1 =? _); [|done].
  apply bind_inv in H as (c & st2 & _ & H).
  apply bind_inv in H as (a & st3 & _ & H).
  injection H as _ <- _. apply to_int32_idem.
Qed.

Lemma find_index_from_total tlb t i n st :
  0 <= i -> (Z.to_nat i + n <= length tlb)%nat ->
  exists r, find_index_from tlb t i n st = Some (r, st).
Proof.
  revert i. induction n as [|n IH]; intros i Hi Hlen; simpl.
  - by eexists.
  - destruct (lookup_lt_is_Some_2 tlb (Z.to_nat i) ltac:(lia)) as [e He].
    rewrite (bind_Some _ _ _ _ _ (array_get_eq tlb i st e Hi He)).
    destruct (_ =? _); [by eexists|]. apply IH; lia.
Qed.

Lemma find_index_from_hit tlb t i n st k e :
  i <= k < i + Z.of_nat n -> tlb !! Z.to_nat k = Some e -> tlb_unixtime e = t ->
  find_index_from tlb t i n st <> Some (-1, st).
Proof.
  revert i. induction n as [|n IH]; intros i Hk He Ht; [lia|]. simpl.
  intros H. apply bind_inv in H as (e0 & st0 & He0 & H).
  apply array_get_inv in He0 as (-> & Hi & He0 & _).
  destruct (Z.eqb_spec (tlb_unixtime e0) t) as [Heq|Hne].
  - injection H as H. lia.
  - destruct (decide (k = i)) as [->|Hki]; [congruence|].
    revert H. apply IH; [lia | done..].
Qed.

(** An entry that the purge keeps is still found by its time. *)
Lemma kept_entry_found_by_time cfg st st' k e :
  0 <= SCH_FP_MAX_ENTRIES cfg ->
  tlb_ok cfg st' ->
  coherent cfg st ->
  st_flightplan_entries st' = st_flightplan_entries st ->
  flash st' = flash st ->
  (forall j x, 0 <= j < SCH_FP_MAX_ENTRIES cfg ->
     st_flightplan_tlb st' !! Z.to_nat j = Some x -> live x = true ->
     st_flightplan_tlb st !! Z.to_nat j = Some x) ->
  0 <= k < SCH_FP_MAX_ENTRIES cfg ->
  st_flightplan_tlb st' !! Z.to_nat k = Some e ->
  live e = true ->
  exists row,
    storage_flight_plan_get_st cfg (tlb_unixtime e) PTR st' = Some ((SCH_ST_OK, Some row), st') /\
    unixtime row = tlb_unixtime e.
Proof.
  intros HM Hok Hcoh Hent Hflash Hsub Hk He Hlive.
  pose proof Hok as (Hlen & _).
  assert (Hrange : to_int32 (tlb_unixtime e) = tlb_unixtime e).
  { destruct (Hcoh k e Hk (Hsub k e Hk He Hlive) Hlive) as (row & Hget & <-).
    by eapply get_idx_row_time. }
  destruct (find_index_from_total (st_flightplan_tlb st') (tlb_unixtime e) 0
              (Z.to_nat (SCH_FP_MAX_ENTRIES cfg)) st') as [r Hfind]; [lia | lia |].
  assert (Hfind' : storage_flightplan_find_index_tlb cfg (tlb_unixtime e) st' = Some (r, st')).
  { unfold storage_flightplan_find_index_tlb, bind, gets. by rewrite Hrange. }
  unfold storage_flight_plan_get_st. rewrite (bind_Some _ _ _ _ _ Hfind').
  pose proof Hfind as Hinv.
  apply find_index_from_inv in Hinv as (_ & [-> | (Hr & H0 & x & Hx & Htime)]).
  { exfalso. revert Hfind. by apply (find_index_from_hit _ _ _ _ _ k e); [lia | |]. }
  destruct (Z.ltb_spec r 0); [lia|].
  assert (Hlx : live x = true) by (unfold live in *; by rewrite Htime).
  assert (Hr' : 0 <= r < SCH_FP_MAX_ENTRIES cfg) by lia.
  destruct (Hcoh r x Hr' (Hsub r x Hr' Hx Hlx) Hlx) as (row & Hget & Hrow).
  exists row. split; [|congruence].
  assert (Hsame : same_slot r st st').
  { repeat split; [done | | done]. rewrite Hx. symmetry. by apply Hsub. }
  by destruct (respects_get_idx cfg r PTR st st' _ _ Hsame Hget).
Qed.

Lemma count_live_bounds l : 0 <= count_live l <= Z.of_nat (length l).
Proof. induction l as [|e l IH]; simpl; [lia|]. destruct (live e); lia. Qed.

Lemma engine_inv st st' :
  engine st' = engine st ->
  st_flightplan_entries st' = st_flightplan_entries st /\
  st_flightplan_tlb st' = st_flightplan_tlb st /\
  flash st' = flash st.
Proof. unfold engine. by intros [= ? ? ? ? ? ? ? ? ? ? ? ?]. Qed.

(** C4, as the code has it. [dat_purge_fp] compares with [now + 1], an
    [int] addition that must not overflow, and it compares the time that
    [storage_flight_plan_get_idx] reads from the flash. On a table opened
    with [SCH_FP_MAX_ENTRIES] entries in which every entry of the TLB can
    be read from the flash with the time the TLB has ([coherent]), it
    tombstones exactly the entries whose time is at most [now + 1], keeps
    every entry whose time is greater than [now + 1] in its slot, readable
    from the flash as before, by index and by time, and stores the number
    of entries left in the [fpl_queue] status variable. *)
Theorem purge_removes_entries_up_to_next_second cfg st now fp_i :
  fram_layout_ok cfg ->
  0 <= dat_fpl_queue cfg < dat_status_last_address cfg ->
  tlb_ok cfg st ->
  st_flightplan_entries st = SCH_FP_MAX_ENTRIES cfg ->
  coherent cfg st ->
  INT_MIN <= now < INT_MAX ->
  exists st',
    dat_purge_fp cfg now fp_i st = Some (SCH_ST_OK, st') /\
    flash st' = flash st /\
    (forall k e,
       0 <= k < SCH_FP_MAX_ENTRIES cfg ->
       st_flightplan_tlb st !! Z.to_nat k = Some e ->
       if live e && (tlb_unixtime e >? now + 1)
       then st_flightplan_tlb st' !! Z.to_nat k = Some e /\
            (exists row,
               storage_flight_plan_get_idx cfg k PTR st' = Some ((SCH_ST_OK, Some row), st') /\
               unixtime row = tlb_unixtime e) /\
            (exists row,
               storage_flight_plan_get_st cfg (tlb_unixtime e) PTR st'
                 = Some ((SCH_ST_OK, Some row), st') /\
               unixtime row = tlb_unixtime e)
       else exists e', st_flightplan_tlb st' !! Z.to_nat k = Some e' /\
                       tlb_unixtime e' = ST_FP_NULL) /\
    dat_get_system_var cfg (dat_fpl_queue cfg) st' = Some (live_entries cfg st', st').
Proof.
  intros Hlayout Hq Hok Hent Hcoh Hnow.
  pose proof Hlayout as (HM & HN & HV & Hfit & Hsim).
  destruct (purge_loop cfg Hlayout (now + 1) st Hcoh Hent
              (Z.to_nat (SCH_FP_MAX_ENTRIES cfg)) 0 st fp_i 0)
    as (f' & s' & Hloop & Hok' & Hent' & Hflash' & _ & Hslots); try done; try lia.
  pose proof Hslots as Hall.
  rewrite Z.add_0_l in Hloop. change (Z.to_nat 0) with 0%nat in Hloop. rewrite drop_0 in Hloop.
  fold (live_entries cfg s') in Hloop.
  destruct (dat_set_status_var_eq cfg Hlayout (dat_fpl_queue cfg)
              (value32_of_int (live_entries cfg s')) s' Hq)
    as (s'' & Hset & Heng & _ & _).
  apply engine_inv in Heng as (Hent'' & Htlb'' & Hflash'').
  assert (Hlive : live_entries cfg s'' = live_entries cfg s')
    by (unfold live_entries; by rewrite Htlb'').
  exists s''. split; [|split; [congruence | split]].
  - unfold dat_purge_fp, int_add. rewrite to_int32_id by lia.
    destruct (Z.leb_spec INT_MIN (now + 1)), (Z.leb_spec (now + 1) INT_MAX); try lia.
    cbn [andb]. unfold bind at 1, ret at 1.
    rewrite (bind_Some _ _ _ _ _ Hloop). unfold dat_set_system_var.
    by rewrite (bind_Some _ _ _ _ _ Hset).
  - intros k e Hk He. specialize (Hslots k e Hk He). unfold kept in Hslots.
    rewrite Htlb''.
    destruct (live e && (tlb_unixtime e >? now + 1)) eqn:Hkept.
    + split; [done|]. apply andb_true_iff in Hkept as [Hl _]. split.
      * destruct (Hcoh k e Hk He Hl) as (row & Hget & Htime).
        exists row. split; [|done].
        assert (Hsame : same_slot k st s'')
          by (repeat split; [congruence | rewrite Htlb''; congruence | congruence]).
        by destruct (respects_get_idx cfg k PTR st s'' _ _ Hsame Hget).
      * apply (kept_entry_found_by_time cfg st s'' k e); [done | | done | congruence
          | congruence | | done | by rewrite Htlb'' | done].
        { destruct Hok' as (? & ? & ?). repeat split; congruence. }
        { intros j x Hj Hx Hlx. rewrite Htlb'' in Hx.
          destruct (lookup_lt_is_Some_2 (st_flightplan_tlb st) (Z.to_nat j)) as [y Hy].
          { destruct Hok as (Hlen & _). lia. }
          specialize (Hall j y Hj Hy). unfold kept in Hall.
          destruct (live y && (tlb_unixtime y >? now + 1)).
          - congruence.
          - destruct Hall as (e' & He' & Hdead). congruence. }
    + destruct Hslots as (e' & He' & Hdead). exists e'. split; [done|].
      unfold live in Hdead. apply negb_false_iff in Hdead. by apply Z.eqb_eq.
  - rewrite Hlive.
    apply (dat_set_get_system_var cfg Hlayout _ _ s' s'' SCH_ST_OK Hq); [|done].
    pose proof (count_live_bounds
                  (take (Z.to_nat (SCH_FP_MAX_ENTRIES cfg)) (st_flightplan_tlb s'))) as Hb.
    rewrite length_take in Hb. unfold live_entries, INT_MIN, INT_MAX.
    unfold sizeof_tlb, sizeof_fp_addr_t, sizeof_value32_t, ST_FRAM_SIZE in Hfit.
    change (2 ^ 31) with 2147483648. lia.
Qed.

(** C4, the claim as written: on the simulated node, with the entries
    500, 1001 and 2500 and the current time 1000, the purge also removes the
    entry of time 1001, which is later than the current time; one entry is
    left. *)
Lemma purge_removes_entry_of_next_second :
  st_flightplan_tlb sim_planned !! 1%nat = Some {| addr := 2560; tlb_unixtime := 1001 |} /\
  1001 > 1000 /\
  exists st',
    dat_purge_fp sim_cfg 1000 (sim_row 0) sim_planned = Some (SCH_ST_OK, st') /\
    st_flightplan_tlb st' !! 1%nat = Some tlb_null /\
    fst <$> storage_flight_plan_get_st sim_cfg 1001 PTR st' = Some (SCH_ST_ERROR, None) /\
    fst <$> dat_get_system_var sim_cfg (dat_fpl_queue sim_cfg) st' = Some 1.
Proof.
  split; [vm_compute; reflexivity|]. split; [lia|].
  destruct (outcome_intro (dat_purge_fp sim_cfg 1000 (sim_row 0)) sim_planned SCH_ST_OK)
    as (st' & Hrun & Hst'); [vm_compute; reflexivity|].
  exists st'. split; [exact Hrun|]. rewrite Hst'. clear.
  vm_compute. repeat split.
Qed.

(** ** The theorems at work on the simulated node *)

(** Status index 7 and the value 0xA5. *)
Lemma status_triple_write_round_trip_witness :
  fram_layout_ok sim_cfg /\
  SCH_STORAGE_TRIPLE_WR sim_cfg = true /\
  0 <= 7 < dat_status_last_address sim_cfg /\
  0 <= 165 < 2 ^ 32 /\
  exists st1,
    dat_set_status_var sim_cfg 7 165 sim_ready = Some (SCH_ST_OK, st1) /\
    dat_get_status_var sim_cfg 7 st1 = Some (165, st1) /\
    (forall c w, 0 <= c < 3 ->
       exists st2,
         storage_status_set_value_idx sim_cfg (7 + c * 10) w st1 = Some (SCH_ST_OK, st2) /\
         dat_get_status_var sim_cfg 7 st2 = Some (165, st2)).
Proof.
  assert (H1 : SCH_STORAGE_TRIPLE_WR sim_cfg = true) by reflexivity.
  assert (H2 : 0 <= 7 < dat_status_last_address sim_cfg) by concrete.
  assert (H3 : 0 <= 165 < 2 ^ 32) by concrete.
  do 4 (split; [first [exact sim_layout | assumption]|]).
  destruct (status_triple_write_round_trip sim_cfg sim_ready 7 165 sim_layout H1 H2 H3)
    as (st1 & Hset & Hget & Hone & _).
  exists st1. split; [exact Hset|]. split; [exact Hget | exact Hone].
Defined.

(** Sample 2 of payload 0, below the limit, and sample 1 of payload 1,
    above it. *)
Lemma payload_records_of_200_bytes_witness :
  storage_is_open sim_ready = true /\
  st_payload_addr sim_ready = Some [6144; 8192; 10240; 12288] /\
  6144 mod ST_PAGE_SIZE = 0 /\ 10240 mod ST_PAGE_SIZE = 0 /\
  check_address_alignment (6144 + 512) 200 = SCH_ST_OK /\
  (exists st',
     storage_payload_set_data sim_cfg 0 2 (Some sim_sample) (Some sim_schema) sim_ready
       = Some (SCH_ST_OK, st') /\
     trace st' = FlashWrite (6144 + 512) 200 :: trace sim_ready) /\
  check_address_alignment (10240 + 200) 200 = SCH_ST_OK /\
  storage_payload_set_data sim_cfg 1 1 (Some sim_sample) (Some sim_schema) sim_ready
    = Some (SCH_ST_ERROR, sim_ready).
Proof.
  assert (H1 : storage_is_open sim_ready = true) by concrete.
  assert (H2 : st_payload_addr sim_ready = Some [6144; 8192; 10240; 12288]) by concrete.
  assert (H3 : 6144 mod ST_PAGE_SIZE = 0) by concrete.
  assert (H4 : 10240 mod ST_PAGE_SIZE = 0) by concrete.
  do 4 (split; [assumption|]).
  pose proof (payload_records_of_200_bytes sim_cfg sim_ready 0 [6144; 8192; 10240; 12288]
                6144 sim_sample 3 2 H1 H2) as Hlow.
  pose proof (payload_records_of_200_bytes sim_cfg sim_ready 1 [6144; 8192; 10240; 12288]
                10240 sim_sample 3 1 H1 H2) as Hhigh.
  cbv zeta in Hlow, Hhigh.
  destruct Hlow as (_ & Hc0 & _ & Hset0); [concrete ..|].
  destruct Hhigh as (_ & Hc1 & _ & Hset1); [concrete ..|].
  split; [exact Hc0|].
  assert (Hb0 : (6144 + ST_PAGE_SIZE * (2 / 2) + 200 * (2 mod 2) >?
                 to_uint32 (SCH_FLASH_INIT_MEMORY sim_cfg + st_flightplan_base_addr sim_ready +
                            st_payloads_entries sim_ready * SCH_SECTIONS_PER_PAYLOAD sim_cfg *
                            SCH_SIZE_PER_SECTION sim_cfg)) = false) by (vm_compute; reflexivity).
  assert (Hb1 : (10240 + ST_PAGE_SIZE * (1 / 2) + 200 * (1 mod 2) >?
                 to_uint32 (SCH_FLASH_INIT_MEMORY sim_cfg + st_flightplan_base_addr sim_ready +
                            st_payloads_entries sim_ready * SCH_SECTIONS_PER_PAYLOAD sim_cfg *
                            SCH_SIZE_PER_SECTION sim_cfg)) = true) by (vm_compute; reflexivity).
  rewrite Hb0 in Hset0. rewrite Hb1 in Hset1.
  split.
  { destruct Hset0 as (st' & Hset & Htrace & _).
    exists st'. split; [exact Hset | exact Htrace]. }
  split; [exact Hc1 | exact Hset1].
Defined.

(** The three entries of the plan are in the flash as the TLB says. *)
Lemma sim_planned_coherent : coherent sim_cfg sim_planned.
Proof.
  intros k e Hk He Hlive. change (SCH_FP_MAX_ENTRIES sim_cfg) with 4 in Hk.
  assert (k = 0 \/ k = 1 \/ k = 2 \/ k = 3) as [-> | [-> | [-> | ->]]] by lia;
    vm_compute in He; injection He as <-.
  - exists (sim_row 500). split; [|reflexivity].
    apply read_only_outcome; [apply read_only_get_idx | vm_compute; reflexivity].
  - exists (sim_row 1001). split; [|reflexivity].
    apply read_only_outcome; [apply read_only_get_idx | vm_compute; reflexivity].
  - exists (sim_row 2500). split; [|reflexivity].
    apply read_only_outcome; [apply read_only_get_idx | vm_compute; reflexivity].
  - discriminate Hlive.
Defined.

(** The purge of the plan at the time 1000. *)
Lemma purge_removes_entries_up_to_next_second_witness :
  fram_layout_ok sim_cfg /\
  0 <= dat_fpl_queue sim_cfg < dat_status_last_address sim_cfg /\
  tlb_ok sim_cfg sim_planned /\
  st_flightplan_entries sim_planned = SCH_FP_MAX_ENTRIES sim_cfg /\
  coherent sim_cfg sim_planned /\
  INT_MIN <= 1000 < INT_MAX /\
  exists st',
    dat_purge_fp sim_cfg 1000 (sim_row 0) sim_planned = Some (SCH_ST_OK, st') /\
    flash st' = flash sim_planned /\
    dat_get_system_var sim_cfg (dat_fpl_queue sim_cfg) st'
      = Some (live_entries sim_cfg st', st').
Proof.
  assert (H1 : 0 <= dat_fpl_queue sim_cfg < dat_status_last_address sim_cfg) by concrete.
  assert (H2 : st_flightplan_entries sim_planned = SCH_FP_MAX_ENTRIES sim_cfg) by concrete.
  assert (H3 : INT_MIN <= 1000 < INT_MAX) by concrete.
  split; [exact sim_layout|]. split; [exact H1|]. split; [exact sim_planned_ok|].
  split; [exact H2|]. split; [exact sim_planned_coherent|]. split; [exact H3|].
  destruct (purge_removes_entries_up_to_next_second sim_cfg sim_planned 1000 (sim_row 0)
              sim_layout H1 sim_planned_ok H2 sim_planned_coherent H3)
    as (st' & Hrun & Hflash & _ & Hqueue).
  exists st'. split; [exact Hrun|]. split; [exact Hflash | exact Hqueue].
Defined.

(** The counter on the plan of three entries: an insertion, a refused
    insertion, a read, a read of a time without entry, a deletion and a
    reset. *)
Lemma fpl_queue_advanced_only_on_success_witness :
  fram_layout_ok sim_cfg /\
  0 <= dat_fpl_queue sim_cfg < dat_status_last_address sim_cfg /\
  tlb_ok sim_cfg sim_planned /\
  dat_get_system_var sim_cfg (dat_fpl_queue sim_cfg) sim_planned = Some (3, sim_planned) /\
  (exists st',
     dat_set_fp sim_cfg 3000 sim_cmd sim_args 1 0 sim_planned = Some (SCH_ST_OK, st') /\
     dat_get_system_var sim_cfg (dat_fpl_queue sim_cfg) st' = Some (4, st')) /\
  (exists st',
     dat_set_fp sim_cfg (-5) sim_cmd sim_args 1 0 sim_planned = Some (SCH_ST_ERROR, st') /\
     dat_get_system_var sim_cfg (dat_fpl_queue sim_cfg) st' = Some (3, st')) /\
  (exists out st',
     dat_get_fp sim_cfg 500 PTR PTR PTR PTR sim_planned = Some ((SCH_ST_OK, out), st') /\
     dat_get_system_var sim_cfg (dat_fpl_queue sim_cfg) st' = Some (2, st')) /\
  (exists out st',
     dat_get_fp sim_cfg 777 PTR PTR PTR PTR sim_planned = Some ((SCH_ST_ERROR, out), st') /\
     dat_get_system_var sim_cfg (dat_fpl_queue sim_cfg) st' = Some (3, st')) /\
  (exists st',
     dat_del_fp sim_cfg 1001 sim_planned = Some (SCH_ST_OK, st') /\
     dat_get_system_var sim_cfg (dat_fpl_queue sim_cfg) st' = Some (2, st')) /\
  (exists st',
     dat_reset_fp sim_cfg sim_planned = Some (SCH_ST_OK, st') /\
     dat_get_system_var sim_cfg (dat_fpl_queue sim_cfg) st' = Some (0, st')).
Proof.
  assert (H1 : 0 <= dat_fpl_queue sim_cfg < dat_status_last_address sim_cfg) by concrete.
  split; [exact sim_layout|]. split; [exact H1|]. split; [exact sim_planned_ok|].
  destruct (fpl_queue_advanced_only_on_success sim_cfg sim_planned sim_layout H1 sim_planned_ok)
    as (q & Hq & Hset & Hget & Hdel & Hreset & _).
  assert (Hq3 : q = 3).
  { assert (E : fst <$> dat_get_system_var sim_cfg (dat_fpl_queue sim_cfg) sim_planned
                  = Some 3) by (vm_compute; reflexivity).
    rewrite Hq in E. by injection E. }
  subst q. split; [exact Hq|].
  assert (Hup : SCH_ST_OK = SCH_ST_OK -> 3 + 1 <= INT_MAX) by (intros _; by vm_compute).
  assert (Hdown : SCH_ST_OK = SCH_ST_OK -> INT_MIN <= 3 - 1) by (intros _; by vm_compute).
  assert (Hno : forall x, SCH_ST_ERROR = SCH_ST_OK -> x) by (intros x; discriminate).
  split.
  { destruct (outcome_intro
                (storage_flight_plan_set sim_cfg 3000 sim_cmd sim_args 1 0 (SCH_COMM_NODE sim_cfg))
                sim_planned SCH_ST_OK) as (st1 & Hrun & _); [vm_compute; reflexivity|].
    destruct (Hset _ _ _ _ _ _ _ Hrun Hup) as (st' & Hf & _ & Hc).
    exists st'. split; [exact Hf | exact Hc]. }
  split.
  { destruct (outcome_intro
                (storage_flight_plan_set sim_cfg (-5) sim_cmd sim_args 1 0 (SCH_COMM_NODE sim_cfg))
                sim_planned SCH_ST_ERROR) as (st1 & Hrun & _); [vm_compute; reflexivity|].
    destruct (Hset _ _ _ _ _ _ _ Hrun (Hno _)) as (st' & Hf & _ & Hc).
    exists st'. split; [exact Hf | exact Hc]. }
  split.
  { eassert (Hargs : storage_flight_plan_get_args sim_cfg 500 PTR PTR PTR PTR PTR sim_planned
                       = Some ((SCH_ST_OK, _), sim_planned)).
    { apply read_only_outcome; [apply read_only_get_args | vm_compute; reflexivity]. }
    destruct (outcome_intro (storage_flight_plan_delete_row sim_cfg 500)
                sim_planned SCH_ST_OK) as (st1 & Hrun & _); [vm_compute; reflexivity|].
    destruct (Hget _ _ _ _ _ _ _ _ _ Hargs Hrun Hdown) as (st' & Hf & _ & Hc).
    eexists. exists st'. split; [exact Hf | exact Hc]. }
  split.
  { eassert (Hargs : storage_flight_plan_get_args sim_cfg 777 PTR PTR PTR PTR PTR sim_planned
                       = Some ((SCH_ST_ERROR, _), sim_planned)).
    { apply read_only_outcome; [apply read_only_get_args | vm_compute; reflexivity]. }
    destruct (Hget _ _ _ _ _ _ _ SCH_ST_ERROR sim_planned Hargs eq_refl (Hno _))
      as (st' & Hf & _ & Hc).
    eexists. exists st'. split; [exact Hf | exact Hc]. }
  split.
  { destruct (outcome_intro (storage_flight_plan_delete_row sim_cfg 1001)
                sim_planned SCH_ST_OK) as (st1 & Hrun & _); [vm_compute; reflexivity|].
    destruct (Hdel _ _ _ Hrun Hdown) as (st' & Hf & _ & Hc).
    exists st'. split; [exact Hf | exact Hc]. }
  destruct (outcome_intro (storage_flight_plan_reset sim_cfg)
              sim_planned SCH_ST_OK) as (st1 & Hrun & _); [vm_compute; reflexivity|].
  destruct (Hreset _ _ Hrun) as (st' & Hf & _ & Hc).
  exists st'. split; [exact Hf | exact Hc].
Defined.

(** Deleting the entry in slot 1 of the plan. *)
Lemma flight_plan_delete_only_tombstones_witness :
  fram_layout_ok sim_cfg /\
  tlb_ok sim_cfg sim_planned /\
  0 <= 1 < st_flightplan_entries sim_planned /\
  exists st',
    storage_flight_plan_delete_row_idx sim_cfg 1 sim_planned = Some (SCH_ST_OK, st') /\
    st_flightplan_tlb st' = <[1%nat := tlb_null]> (st_flightplan_tlb sim_planned) /\
    flash st' = flash sim_planned /\
    tlb_counter sim_cfg st' = tlb_counter sim_cfg sim_planned.
Proof.
  assert (H1 : 0 <= 1 < st_flightplan_entries sim_planned) by concrete.
  split; [exact sim_layout|]. split; [exact sim_planned_ok|]. split; [exact H1|].
  destruct (flight_plan_delete_only_tombstones sim_cfg sim_planned 1
              sim_layout sim_planned_ok H1)
    as (st' & Hdel & _ & Htlb & _ & _ & _ & _ & Hflash & _ & Hcounter).
  exists st'. split; [exact Hdel|]. split; [exact Htlb|]. split; [exact Hflash | exact Hcounter].
Defined.


(** * Further properties *)

(** ** Status variables: independence, single copies, address width *)

(** X1. Writing status variable [i] through the facade leaves the value read
    for every other variable [j], and changes neither the engine nor the
    TLB backup. *)
Theorem status_write_leaves_other_variables cfg st i j v :
  fram_layout_ok cfg ->
  0 <= i < dat_status_last_address cfg ->
  0 <= j < dat_status_last_address cfg ->
  i <> j ->
  exists st' w,
    dat_set_status_var cfg i v st = Some (SCH_ST_OK, st') /\
    dat_get_status_var cfg j st = Some (w, st) /\
    dat_get_status_var cfg j st' = Some (w, st') /\
    engine st' = engine st /\
    (forall x, ST_FRAM_SIZE - sizeof_tlb cfg <= x -> fram st' x = fram st x).
Proof.
  intros Hlayout Hi Hj Hij.
  destruct (dat_set_status_var_eq cfg Hlayout i v st Hi) as (st' & Hset & Heng & Hbk & Hw).
  pose proof Hlayout as (HM & HN & HV & Hfit & Hsim).
  exists st'. eexists. split; [exact Hset|]. split; [by apply dat_get_status_var_eq|].
  split; [|done].
  rewrite dat_get_status_var_eq by done. rewrite !Hw by lia.
  do 2 f_equal; destruct (SCH_STORAGE_TRIPLE_WR cfg); cbn [andb];
    eqb_decide; reflexivity.
Qed.

(** X2. The functions kept for testing the triple write touch the first copy
    only: what [_dat_set_system_var] writes is what [_dat_get_system_var]
    reads, while [dat_get_system_var] still returns the value that the
    two other copies hold when the triple write is enabled. *)
Theorem single_copy_write_is_outvoted cfg st i v w :
  fram_layout_ok cfg ->
  0 <= i < dat_status_last_address cfg ->
  INT_MIN <= v <= INT_MAX ->
  INT_MIN <= w <= INT_MAX ->
  exists st1 st2,
    dat_set_system_var cfg i v st = Some (SCH_ST_OK, st1) /\
    _dat_set_system_var cfg i w st1 = Some (SCH_ST_OK, st2) /\
    _dat_get_system_var cfg i st2 = Some (w, st2) /\
    dat_get_system_var cfg i st2 =
      Some (if SCH_STORAGE_TRIPLE_WR cfg then v else w, st2).
Proof.
  intros Hlayout Hi Hv Hw.
  pose proof Hlayout as (HM & HN & HV & Hfit & Hsim).
  set (N := dat_status_last_address cfg) in *.
  unfold dat_set_system_var.
  destruct (dat_set_status_var_eq cfg Hlayout i (value32_of_int v) st Hi)
    as (st1 & Hset & _ & _ & Hword).
  assert (Hi3 : 0 <= i < 3 * N) by lia.
  exists st1. eexists. split; [exact Hset|]. split.
  { unfold _dat_set_system_var. by apply storage_status_set_value_idx_eq. }
  assert (Hback : forall x, INT_MIN <= x <= INT_MAX ->
            value32_i (to_uint32 (value32_of_int x)) = x).
  { intros x Hx. unfold value32_i, value32_of_int.
    by rewrite !to_int32_to_uint32, to_int32_id. }
  split.
  - unfold _dat_get_system_var.
    erewrite bind_Some; [|by apply storage_status_get_value_idx_eq].
    unfold ret. rewrite status_word_set_fram by lia. rewrite Z.eqb_refl.
    by rewrite Hback.
  - unfold dat_get_system_var.
    rewrite (bind_Some _ _ _ _ _ (dat_get_status_var_eq cfg Hlayout i _ Hi)).
    unfold ret. fold N. rewrite !status_word_set_fram by lia.
    rewrite !Hword by lia. rewrite Z.eqb_refl.
    destruct (SCH_STORAGE_TRIPLE_WR cfg); cbn [andb orb].
    + eqb_decide. cbn [orb].
      assert (Hvote : forall a b, vote a b b = b).
      { intros a b. unfold vote. destruct (Z.eqb_spec a b) as [->|_]; cbn [orb];
          by rewrite ?Z.eqb_refl. }
      by rewrite Hvote, Hback.
    + by rewrite Hback.
Qed.


(** ** Payload records: the page rule, round trips, record sizes *)

Lemma page_check_rule a s :
  0 <= a -> 0 <= s < 2 ^ 16 -> a + s < 2 ^ 32 ->
  check_address_alignment a s =
    if a mod ST_PAGE_SIZE + s <? ST_PAGE_SIZE then SCH_ST_OK else SCH_ST_ERROR.
Proof.
  intros Ha Hs Hsum. unfold check_address_alignment, ST_PAGE_SIZE.
  rewrite (to_uint32_id a), (to_uint16_id s), (to_uint32_id (a + s)) by lia.
  destruct (Z.gtb_spec ((a + s) / 512) (a / 512)), (Z.ltb_spec (a mod 512 + s) 512);
    try done; exfalso; Z.div_mod_to_equations; lia.
Qed.

(** X4. The page check accepts a transfer of [s] bytes at [a] exactly when
    [a mod 512 + s < 512]: a transfer that ends on the last byte of a page
    is refused like one that crosses into the next page. An accepted write
    stores the bytes; a refused one returns the error and leaves the flash. *)
Theorem write_with_check_page_rule cfg st a data s :
  0 <= a -> 0 <= s < 2 ^ 16 -> a + s < 2 ^ 32 ->
  s <= Z.of_nat (length data) ->
  a + s <= flash_size cfg ->
  write_data_with_check cfg a data s st =
    (if a mod ST_PAGE_SIZE + s <? ST_PAGE_SIZE
     then Some (SCH_ST_OK,
                set_flash (mem_write (flash st) a (take (Z.to_nat s) data)) (FlashWrite a s) st)
     else Some (SCH_ST_ERROR, st)) /\
  read_data_with_check cfg a s st =
    (if a mod ST_PAGE_SIZE + s <? ST_PAGE_SIZE
     then Some ((SCH_ST_OK, Some (mem_read (flash st) a (Z.to_nat s))), st)
     else Some ((SCH_ST_ERROR, None), st)).
Proof.
  intros Ha Hs Hsum Hdata Hflash.
  unfold write_data_with_check, read_data_with_check.
  rewrite page_check_rule by done.
  destruct (Z.ltb_spec (a mod ST_PAGE_SIZE + s) ST_PAGE_SIZE).
  - change (SCH_ST_OK =? SCH_ST_ERROR) with false. cbv iota. split.
    + by rewrite (bind_Some _ _ _ _ _ (storage_write_flash_eq cfg 0 a data s st
                    ltac:(lia) Hs Hdata Hflash)).
    + unfold storage_read_flash. rewrite to_uint32_id, to_uint16_id by lia.
      unfold bind, gets, ret.
      replace (in_bounds a s (flash_size cfg)) with true; [done|].
      symmetry. apply in_bounds_true. lia.
  - done.
Qed.

Lemma respects_c_div {E : storage -> storage -> Prop} a b : respects E (c_div a b).
Proof. unfold c_div. repeat respects_step. Qed.

Lemma respects_c_mod {E : storage -> storage -> Prop} a b : respects E (c_mod a b).
Proof. unfold c_mod. repeat respects_step. Qed.

Lemma respects_array_get {E : storage -> storage -> Prop} {A} (l : list A) i :
  respects E (array_get l i).
Proof. unfold array_get. repeat respects_step. Qed.

(** The address of a sample depends on the payload tables only. *)
Lemma respects_get_sample_address cfg p i s :
  respects same_tables (_get_sample_address cfg p i s).
Proof.
  unfold _get_sample_address.
  repeat first
    [ apply respects_c_div | apply respects_c_mod | apply respects_array_get
    | apply respects_gets; by intros st s0 (? & ? & ? & ?)
    | respects_step ].
Qed.

Lemma same_tables_set_flash f e st : same_tables st (set_flash f e st).
Proof. done. Qed.

Lemma is_Some_true {A} (o : option A) : is_Some o -> bool_decide (is_Some o) = true.
Proof. intros. by apply bool_decide_eq_true. Qed.

(** What a successful [storage_payload_set_data] has done. *)
Lemma payload_set_inv cfg p i data schema st st' :
  storage_payload_set_data cfg p i (Some data) (Some schema) st = Some (SCH_ST_OK, st') ->
  let s := to_uint16 (size schema) in
  storage_is_open st = true /\ is_Some (st_payload_addr st) /\
  exists a,
    _get_sample_address cfg p i s st = Some ((SCH_ST_OK, Some a), st) /\
    check_address_alignment a s = SCH_ST_OK /\
    Z.of_nat (length (take (Z.to_nat s) data)) = s /\
    to_uint32 a + s <= flash_size cfg /\
    st' = set_flash (mem_write (flash st) (to_uint32 a) (take (Z.to_nat s) data))
            (FlashWrite (to_uint32 a) s) st.
Proof.
  intros H s. unfold storage_payload_set_data, bind at 1, gets in H.
  unfold bind at 1, gets in H.
  destruct (storage_is_open st); [|by injection H].
  destruct (st_payload_addr st) as [pa|] eqn:Hpa; last first.
  { rewrite bool_decide_eq_false_2 in H by (by intros [? ?]). by injection H. }
  rewrite is_Some_true in H by eauto. cbn [negb orb] in H.
  apply bind_inv in H as ([rc addr_] & st0 & Haddr & H).
  pose proof (read_only_get_sample_address _ _ _ _ _ _ _ Haddr) as ->.
  fold s in Haddr, H.
  destruct (Z.eqb_spec rc SCH_ST_OK) as [->|]; cbn [negb] in H; [|by injection H].
  apply bind_inv in H as (a & st0 & Ha & H). destruct addr_ as [a'|]; [|done].
  injection Ha as -> <-.
  apply bind_inv in H as (rc & st1 & Hw & H).
  unfold write_data_with_check in Hw.
  assert (Hchk : check_address_alignment a s = SCH_ST_OK).
  { unfold check_address_alignment in *. destruct (_ >? _); [|done].
    change (SCH_ST_ERROR =? SCH_ST_ERROR) with true in Hw. by injection Hw as <- <-. }
  rewrite Hchk in Hw.
  change (SCH_ST_OK =? SCH_ST_ERROR) with false in Hw. cbv iota in Hw.
  apply bind_inv in Hw as (rw & st2 & Hw & Hrc).
  unfold storage_write_flash in Hw.
  apply bind_inv in Hw as (src & st3 & Hsrc & Hw).
  apply buffer_slice_inv in Hsrc as (-> & Hsrc & _ & _ & _ & Hlen).
  rewrite drop_0 in Hsrc.
  unfold bind, gets, modify, ret in Hw.
  destruct (in_bounds _ _ _) eqn:Hb; [|done]. injection Hw as <- <-.
  apply in_bounds_true in Hb as (_ & _ & Hb).
  change (negb (SCH_ST_OK =? 0)) with false in Hrc. injection Hrc as <- <-.
  injection H as <-.
  split; [done|]. split; [eauto|]. exists a. split; [done|]. split; [done|].
  assert (Hss : to_uint16 s = s) by (unfold s, to_uint16; by apply Z.mod_mod).
  rewrite Hss in *. by subst src.
Qed.

Lemma payload_set_then_get cfg st p i data schema st' :
  storage_payload_set_data cfg p i (Some data) (Some schema) st = Some (SCH_ST_OK, st') ->
  storage_payload_get_data cfg p i PTR (Some schema) st' =
    Some ((SCH_ST_OK, Some (take (Z.to_nat (to_uint16 (size schema))) data)), st').
Proof.
  intros H. apply payload_set_inv in H as (Hopen & Hpa & a & Haddr & Hchk & Hlen & Hb & ->).
  set (s := to_uint16 (size schema)) in *.
  set (st' := set_flash _ _ st).
  destruct (respects_get_sample_address cfg p i s st st' _ _
              (same_tables_set_flash _ _ _) Haddr) as [_ Haddr'].
  unfold storage_payload_get_data, bind at 1, gets. unfold bind at 1, gets.
  change (storage_is_open st') with (storage_is_open st).
  change (st_payload_addr st') with (st_payload_addr st).
  rewrite Hopen, is_Some_true by done. cbn [negb orb].
  fold s. rewrite (bind_Some _ _ _ _ _ Haddr').
  change (negb (SCH_ST_OK =? SCH_ST_OK)) with false. cbv iota.
  unfold deref, bind at 1, ret at 1.
  unfold read_data_with_check. rewrite Hchk.
  change (SCH_ST_OK =? SCH_ST_ERROR) with false. cbv iota.
  assert (Hss : to_uint16 s = s) by (unfold s, to_uint16; by apply Z.mod_mod).
  unfold storage_read_flash, bind at 2, gets. rewrite Hss.
  replace (in_bounds (to_uint32 a) s (flash_size cfg)) with true; last first.
  { symmetry. apply in_bounds_true. pose proof (to_uint32_range a).
    assert (0 <= s) by (apply Z.mod_pos_bound; done). lia. }
  unfold bind, ret. change (negb (SCH_ST_OK =? 0)) with false. cbv iota.
  change (negb (SCH_ST_OK =? SCH_ST_ERROR)) with true. cbv iota.
  do 4 f_equal. subst st'. cbn [flash set_flash]. clear Haddr'.
  revert Hlen. generalize (take (Z.to_nat s) data) as src. intros src Hlen.
  replace (Z.to_nat s) with (length src) by lia. apply mem_read_write_same.
Qed.

(** X5. A sample stored by [storage_payload_set_data] is what
    [storage_payload_get_data] returns for the same payload and index: the
    first [size] bytes of the buffer that was written. The buffer held
    that many bytes, and one write of them to the flash is all that the
    store has changed. *)
Theorem payload_set_get_round_trip cfg st p i data schema st' :
  storage_payload_set_data cfg p i (Some data) (Some schema) st = Some (SCH_ST_OK, st') ->
  let s := to_uint16 (size schema) in
  storage_payload_get_data cfg p i PTR (Some schema) st' =
    Some ((SCH_ST_OK, Some (take (Z.to_nat s) data)), st') /\
  s <= Z.of_nat (length data) /\
  exists a,
    st' = set_flash (mem_write (flash st) a (take (Z.to_nat s) data)) (FlashWrite a s) st.
Proof.
  intros H s. split; [exact (payload_set_then_get cfg st p i data schema st' H)|].
  apply payload_set_inv in H as (_ & _ & a & _ & _ & Hlen & _ & ->). fold s in Hlen.
  split; [|by exists (to_uint32 a)].
  rewrite length_take in Hlen. lia.
Qed.

Lemma c_div_inv a b st r st' :
  c_div a b st = Some (r, st') -> st' = st /\ b <> 0 /\ r = Z.quot a b.
Proof.
  unfold c_div. destruct (Z.eqb_spec b 0); [done|]. by intros [= <- <-].
Qed.

Lemma c_mod_inv a b st r st' :
  c_mod a b st = Some (r, st') -> st' = st /\ b <> 0 /\ r = Z.rem a b.
Proof.
  unfold c_mod. destruct (Z.eqb_spec b 0); [done|]. by intros [= <- <-].
Qed.

(** Where an address returned by [_get_sample_address] comes from. *)
Lemma get_sample_address_inv cfg p i s st rc a st' :
  _get_sample_address cfg p i s st = Some ((rc, Some a), st') ->
  exists pa base,
    st_payload_addr st = Some pa /\ base ∈ pa /\
    s <> 0 /\ to_int32 (Z.quot ST_PAGE_SIZE s) <> 0 /\
    a = to_uint32 (base + Z.quot i (to_int32 (Z.quot ST_PAGE_SIZE s)) * ST_PAGE_SIZE
                        + Z.rem i (to_int32 (Z.quot ST_PAGE_SIZE s)) * s).
Proof.
  intros H. unfold _get_sample_address in H.
  apply bind_inv in H as (spp & st0 & Hd & H). apply c_div_inv in Hd as (-> & Hs & ->).
  destruct (Z.eqb_spec (to_int32 (Z.quot ST_PAGE_SIZE s)) 0) as [|Hspp]; [done|].
  apply bind_inv in H as (q & st0 & Hd & H). apply c_div_inv in Hd as (-> & _ & ->).
  apply bind_inv in H as (r & st0 & Hd & H). apply c_mod_inv in Hd as (-> & _ & ->).
  apply bind_inv in H as (pis & st0 & Hd & H). apply c_div_inv in Hd as (-> & _ & ->).
  apply bind_inv in H as (sec & st0 & Hd & H). apply c_div_inv in Hd as (-> & _ & ->).
  destruct (_ >? _); [done|]. unfold bind at 1, gets in H.
  destruct (_ >? _); [done|]. unfold bind at 1, gets in H.
  apply bind_inv in H as (pa & st0 & Hpa & H).
  destruct (st_payload_addr st) as [pa'|] eqn:Epa; [|done]. injection Hpa as -> <-.
  apply bind_inv in H as (base & st0 & Hbase & H).
  apply array_get_inv in Hbase as (-> & _ & Hbase & _).
  unfold bind, gets, ret in H.
  exists pa, base. split; [done|]. split; [by eapply list_elem_of_lookup_2|].
  split; [done|]. split; [done|].
  destruct (_ >? _); by injection H as _ <- _.
Qed.

(** X6. A schema whose record size is 0 makes the address computation divide
    by zero; one whose records are larger than a page is refused, and
    nothing is written or read. *)
Theorem payload_record_size_limits cfg st p i data schema :
  storage_is_open st = true ->
  is_Some (st_payload_addr st) ->
  (to_uint16 (size schema) = 0 ->
     storage_payload_set_data cfg p i (Some data) (Some schema) st = None /\
     storage_payload_get_data cfg p i PTR (Some schema) st = None) /\
  (ST_PAGE_SIZE < to_uint16 (size schema) ->
     storage_payload_set_data cfg p i (Some data) (Some schema) st = Some (SCH_ST_ERROR, st) /\
     storage_payload_get_data cfg p i PTR (Some schema) st = Some ((SCH_ST_ERROR, None), st)).
Proof.
  intros Hopen Hpa.
  assert (Hset : storage_payload_set_data cfg p i (Some data) (Some schema) st =
            (do '(rc, addr_) <- _get_sample_address cfg p i (to_uint16 (size schema));
             if negb (rc =? SCH_ST_OK) then ret SCH_ST_ERROR
             else do addr_ <- deref addr_;
                  do rc <- write_data_with_check cfg addr_ data (to_uint16 (size schema));
                  ret (if negb (rc =? SCH_ST_ERROR) then SCH_ST_OK else SCH_ST_ERROR)) st).
  { unfold storage_payload_set_data, bind at 1, gets. unfold bind at 1, gets.
    by rewrite Hopen, is_Some_true. }
  assert (Hget : storage_payload_get_data cfg p i PTR (Some schema) st =
            (do '(rc, addr_) <- _get_sample_address cfg p i (to_uint16 (size schema));
             if negb (rc =? SCH_ST_OK) then ret (SCH_ST_ERROR, None)
             else do addr_ <- deref addr_;
                  do '(rc, buf) <- read_data_with_check cfg addr_ (to_uint16 (size schema));
                  ret (if negb (rc =? SCH_ST_ERROR) then SCH_ST_OK else SCH_ST_ERROR, buf)) st).
  { unfold storage_payload_get_data, bind at 1, gets. unfold bind at 1, gets.
    by rewrite Hopen, is_Some_true. }
  rewrite Hset, Hget. clear Hset Hget. split.
  - intros ->.
    assert (Hnone : _get_sample_address cfg p i 0 st = None) by done.
    unfold bind. by rewrite Hnone.
  - intros Hs. unfold ST_PAGE_SIZE in *.
    assert (Herr : _get_sample_address cfg p i (to_uint16 (size schema)) st =
                     Some ((SCH_ST_ERROR, None), st)).
    { unfold _get_sample_address, ST_PAGE_SIZE.
      assert (H512 : 0 <= 512) by lia.
      assert (Hs0 : 0 < to_uint16 (size schema)) by lia.
      rewrite (bind_Some _ _ _ _ _ (c_div_eq 512 _ st H512 Hs0)).
      rewrite Z.div_small by lia. by change (to_int32 0 =? 0) with true. }
    by rewrite !(bind_Some _ _ _ _ _ Herr).
Qed.

(** With a record size that divides the page size, a sample whose index is
    the last one of a page is not stored. *)
Lemma last_record_never_stored cfg st p i data schema rc st' :
  0 < to_uint16 (size schema) ->
  ST_PAGE_SIZE mod to_uint16 (size schema) = 0 ->
  0 <= i ->
  i mod (ST_PAGE_SIZE / to_uint16 (size schema)) = ST_PAGE_SIZE / to_uint16 (size schema) - 1 ->
  (forall pa b, st_payload_addr st = Some pa -> b ∈ pa -> b mod ST_PAGE_SIZE = 0) ->
  flash_size cfg < 2 ^ 32 ->
  storage_payload_set_data cfg p i (Some data) (Some schema) st = Some (rc, st') ->
  rc = SCH_ST_ERROR /\ st' = st.
Proof.
  intros Hs Hdiv Hi Hlast Hal Hflash H.
  set (s := to_uint16 (size schema)) in *. unfold ST_PAGE_SIZE in *.
  assert (Hs16 : s < 2 ^ 16) by (apply Z.mod_pos_bound; done).
  assert (Hspp : s * (512 / s) = 512) by (apply Z.div_exact in Hdiv; lia).
  assert (Hq0 : 0 < 512 / s) by nia.
  assert (Hsle : s <= 512) by nia.
  assert (Hspp1 : 1 <= 512 / s <= 512) by nia.
  unfold storage_payload_set_data, bind at 1, gets in H. unfold bind at 1, gets in H.
  destruct (negb _ || negb _); [by injection H as <- <-|].
  apply bind_inv in H as ([rc0 addr_] & st0 & Haddr & H).
  pose proof (read_only_get_sample_address _ _ _ _ _ _ _ Haddr) as ->.
  fold s in Haddr, H.
  destruct (negb (rc0 =? SCH_ST_OK)); [by injection H as <- <-|].
  apply bind_inv in H as (a & st0 & Ha & H). destruct addr_ as [a'|]; [|done].
  injection Ha as -> <-.
  apply get_sample_address_inv in Haddr as (pa & base & Hpa & Hbase & _ & _ & Ha).
  unfold ST_PAGE_SIZE in Ha.
  rewrite (to_int32_id (Z.quot 512 s)) in Ha; last first.
  { rewrite Z.quot_div_nonneg by lia. unfold INT_MIN, INT_MAX.
    change (2 ^ 31) with 2147483648. lia. }
  rewrite (Z.quot_div_nonneg 512 s) in Ha by lia.
  rewrite (Z.quot_div_nonneg i), (Z.rem_mod_nonneg i), Hlast in Ha by lia.
  specialize (Hal pa base Hpa Hbase).
  assert (Hamod : 0 <= a < 2 ^ 32 /\ a mod 512 = 512 - s).
  { subst a. split; [apply to_uint32_range|].
    replace ((512 / s - 1) * s) with (512 - s) by nia.
    generalize (i / (512 / s)) as k. intros k. clear -Hal Hs Hsle.
    unfold to_uint32. change (2 ^ 32) with 4294967296.
    Z.div_mod_to_equations. lia. }
  destruct Hamod as [Harange Hamod].
  apply bind_inv in H as (rc1 & st1 & Hw & H).
  unfold write_data_with_check, check_address_alignment in Hw.
  rewrite (to_uint32_id a), (to_uint16_id s) in Hw by lia.
  change (2 ^ 32) with 4294967296 in *.
  destruct (Z.gtb_spec (to_uint32 (a + s) / ST_PAGE_SIZE) (a / ST_PAGE_SIZE)) as [Hgt|Hle].
  - change (SCH_ST_ERROR =? SCH_ST_ERROR) with true in Hw. injection Hw as <- <-.
    by injection H as <- <-.
  - exfalso. change (SCH_ST_OK =? SCH_ST_ERROR) with false in Hw. cbv iota in Hw.
    apply bind_inv in Hw as (rw & st2 & Hw & _).
    unfold storage_write_flash in Hw.
    apply bind_inv in Hw as (src & st3 & _ & Hw).
    unfold bind, gets in Hw. rewrite (to_uint32_id a), (to_uint16_id s) in Hw by lia.
    destruct (in_bounds _ _ _) eqn:Hb; [|done].
    apply in_bounds_true in Hb as (_ & _ & Hb).
    unfold ST_PAGE_SIZE in Hle. rewrite to_uint32_id in Hle by lia.
    revert Hle. Z.div_mod_to_equations. lia.
Qed.

(** ** Payload samples through the facade *)

(** What [storage_payload_set_data] can do to the state: one write of
    the record, or nothing. *)
Lemma payload_set_cases cfg p i data schema st rc st' :
  storage_payload_set_data cfg p i data schema st = Some (rc, st') ->
  (rc = SCH_ST_OK /\ exists f e, st' = set_flash f e st) \/ (rc = SCH_ST_ERROR /\ st' = st).
Proof.
  intros H. unfold storage_payload_set_data, bind at 1, gets in H.
  unfold bind at 1, gets in H.
  destruct (negb _ || negb _); [right; by injection H as <- <-|].
  destruct data as [data|]; [|right; by injection H as <- <-].
  destruct schema as [schema|]; [|right; by injection H as <- <-].
  apply bind_inv in H as ([rc0 addr_] & st0 & Haddr & H).
  pose proof (read_only_get_sample_address _ _ _ _ _ _ _ Haddr) as ->.
  destruct (negb (rc0 =? SCH_ST_OK)); [right; by injection H as <- <-|].
  apply bind_inv in H as (a & st0 & Ha & H). apply read_only_deref in Ha as ->.
  apply bind_inv in H as (rc1 & st1 & Hw & H). injection H as <- <-.
  unfold write_data_with_check in Hw.
  destruct (check_address_alignment _ _ =? SCH_ST_ERROR).
  { injection Hw as <- <-. by right. }
  apply bind_inv in Hw as (rw & st2 & Hw & Hrc).
  apply storage_write_flash_inv in Hw as (-> & src & ->).
  change (negb (SCH_ST_OK =? 0)) with false in Hrc. injection Hrc as <- <-.
  left. split; [done|]. eauto.
Qed.

Lemma respects_read_flash_same cfg p a len :
  respects same_payload (storage_read_flash cfg p a len).
Proof.
  intros st s r st' (_ & Hflash) H.
  unfold storage_read_flash, bind, gets, ret in *. rewrite Hflash.
  destruct (in_bounds _ _ _); [|done]. by injection H as <- <-.
Qed.

Lemma respects_weaken {A} (E E' : storage -> storage -> Prop) (m : M A) :
  (forall st s, E' st s -> E st s) -> respects E m -> respects E' m.
Proof. intros Hsub Hm st s a st' HE. apply Hm. by apply Hsub. Qed.

(** A payload read looks at the payload tables and at the flash only. *)
Lemma respects_payload_get cfg p i d schema :
  respects same_payload (storage_payload_get_data cfg p i d schema).
Proof.
  unfold storage_payload_get_data.
  apply respects_bind; [apply respects_gets; by intros st s ((? & ?) & ?) | intros ?].
  apply respects_bind; [apply respects_gets; by intros st s ((? & ? & ?) & ?) | intros ?].
  unfold read_data_with_check.
  repeat first
    [ apply respects_read_flash_same
    | apply (respects_weaken same_tables); [by intros st s [? _] |];
      apply respects_get_sample_address
    | respects_step ].
Qed.

Lemma int_sub_eq a b st :
  INT_MIN <= a - b <= INT_MAX -> int_sub a b st = Some (a - b, st).
Proof.
  intros H. unfold int_sub.
  by destruct (Z.leb_spec INT_MIN (a - b)), (Z.leb_spec (a - b) INT_MAX); try lia.
Qed.

Section PayloadFacade.

Variable cfg : config.
Variable data_map : list data_map_t.
Variable last_sensor : Z.
Hypothesis Hlayout : fram_layout_ok cfg.

Let N := dat_status_last_address cfg.

Lemma set_system_var_effect i x st rc st' :
  0 <= i < N -> INT_MIN <= x <= INT_MAX ->
  dat_set_system_var cfg i x st = Some (rc, st') ->
  engine st' = engine st /\
  dat_get_system_var cfg i st' = Some (x, st').
Proof.
  intros Hi Hx H. split; [|by eapply dat_set_get_system_var].
  unfold dat_set_system_var in H.
  destruct (dat_set_status_var_eq cfg Hlayout i (value32_of_int x) st Hi)
    as (st1 & Hset & Heng & _).
  rewrite Hset in H. by injection H as _ <-.
Qed.

Lemma engine_same_payload st st' : engine st' = engine st -> same_payload st st'.
Proof. unfold engine. intros [= ? ? ? ? ? ? ? ? ? ? ? ?]. by repeat split. Qed.

(** The outcomes of [dat_add_payload_sample] for a valid payload number. *)
Lemma add_payload_sample_cases data p schema q st rc st' :
  0 <= p -> data_map !! Z.to_nat p = Some schema ->
  0 <= sys_index schema < N ->
  dat_get_system_var cfg (sys_index schema) st = Some (q, st) ->
  dat_add_payload_sample cfg data_map last_sensor (Some data) p st = Some (rc, st') ->
  (rc = 0 /\ p < last_sensor /\
   exists st1,
     storage_payload_set_data cfg p q (Some data) (Some schema) st = Some (SCH_ST_OK, st1) /\
     engine st' = engine st1 /\
     dat_get_system_var cfg (sys_index schema) st' = Some (q + 1, st')) \/
  (rc = -1 /\ st' = st).
Proof.
  intros Hp Hschema Hidx Hq H. unfold dat_add_payload_sample in H.
  rewrite (bind_Some _ _ _ _ _ (array_get_eq _ _ st _ Hp Hschema)) in H.
  rewrite (bind_Some _ _ _ _ _ Hq) in H.
  apply bind_inv in H as (w & st0 & Hw & H). apply read_only_buffer_slice in Hw as ->.
  destruct (Z.geb_spec p last_sensor); [right; by injection H as <- <-|].
  apply bind_inv in H as (r & st1 & Hset & H).
  pose proof Hset as Hcases. apply payload_set_cases in Hcases as [[-> Hst1] | [-> ->]].
  - left. change (SCH_ST_OK >=? SCH_ST_OK) with true in H. cbv iota in H.
    apply bind_inv in H as (q1 & st2 & Hadd & H).
    apply int_add_inv in Hadd as (-> & -> & Hrange).
    apply bind_inv in H as (rc2 & st3 & Hvar & H). injection H as <- <-.
    apply set_system_var_effect in Hvar as [Heng Hget]; [|done..].
    split; [done|]. split; [lia|]. exists st1. done.
  - right. change (SCH_ST_ERROR >=? SCH_ST_OK) with false in H. by injection H as <- <-.
Qed.

End PayloadFacade.

(** X7. A sample added with [dat_add_payload_sample] is the most recent one:
    [dat_get_recent_payload_sample] with offset 0 returns its bytes. *)
Theorem payload_add_then_get_recent cfg data_map last_sensor st data p schema q st' :
  fram_layout_ok cfg ->
  0 <= p -> data_map !! Z.to_nat p = Some schema ->
  0 <= sys_index schema < dat_status_last_address cfg ->
  dat_get_system_var cfg (sys_index schema) st = Some (q, st) ->
  0 <= q ->
  dat_add_payload_sample cfg data_map last_sensor (Some data) p st = Some (0, st') ->
  dat_get_recent_payload_sample cfg data_map PTR p 0 st' =
    Some ((SCH_ST_OK, Some (take (Z.to_nat (to_uint16 (size schema))) data)), st') /\
  dat_get_payload_sample cfg data_map PTR p q st' =
    Some ((SCH_ST_OK, Some (take (Z.to_nat (to_uint16 (size schema))) data)), st').
Proof.
  intros Hlayout Hp Hschema Hidx Hq Hq0 H.
  pose proof (get_system_var_range cfg _ _ _ _ Hq) as Hrange.
  destruct (add_payload_sample_cases cfg data_map last_sensor Hlayout data p schema q st 0 st'
              Hp Hschema Hidx Hq H) as [(_ & _ & st1 & Hset & Heng & Hget) | [? _]]; [|done].
  apply payload_set_then_get in Hset.
  destruct (respects_payload_get cfg p q PTR (Some schema) st1 st' _ _
              (engine_same_payload _ _ Heng) Hset) as [_ Hread].
  split.
  - unfold dat_get_recent_payload_sample.
    rewrite (bind_Some _ _ _ _ _ (array_get_eq _ _ st' _ Hp Hschema)).
    rewrite (bind_Some _ _ _ _ _ Hget).
    rewrite (bind_Some _ _ _ _ _ (int_add_eq (q + 1) (-1) st' ltac:(lia))).
    rewrite (bind_Some _ _ _ _ _ (int_sub_eq (q + 1 + -1) 0 st' ltac:(lia))).
    replace (q + 1 + -1 - 0) with q by lia.
    destruct (Z.geb_spec q 0); [done | lia].
  - unfold dat_get_payload_sample.
    by rewrite (bind_Some _ _ _ _ _ (array_get_eq _ _ st' _ Hp Hschema)).
Qed.

(** X8. Asking for a sample further back than the samples stored is
    refused with -1, and nothing is read. *)
Theorem payload_recent_offset_out_of_range cfg data_map st p schema q offset :
  0 <= p -> data_map !! Z.to_nat p = Some schema ->
  dat_get_system_var cfg (sys_index schema) st = Some (q, st) ->
  0 <= q <= offset -> offset <= INT_MAX ->
  dat_get_recent_payload_sample cfg data_map PTR p offset st = Some ((-1, None), st).
Proof.
  intros Hp Hschema Hq Hoff Hmax. unfold dat_get_recent_payload_sample.
  rewrite (bind_Some _ _ _ _ _ (array_get_eq _ _ st _ Hp Hschema)).
  rewrite (bind_Some _ _ _ _ _ Hq).
  assert (Hr : INT_MIN <= q <= INT_MAX) by (by eapply get_system_var_range).
  unfold INT_MIN, INT_MAX in *. change (2 ^ 31) with 2147483648 in *.
  rewrite (bind_Some _ _ _ _ _ (int_add_eq q (-1) st
             ltac:(unfold INT_MIN, INT_MAX; change (2 ^ 31) with 2147483648; lia))).
  rewrite (bind_Some _ _ _ _ _ (int_sub_eq (q + -1) offset st
             ltac:(unfold INT_MIN, INT_MAX; change (2 ^ 31) with 2147483648; lia))).
  destruct (Z.geb_spec (q + -1 - offset) 0); [lia | done].
Qed.

(** ** The payload facade, run forwards *)

Lemma buffer_slice_defined buf off len st :
  0 <= off -> 0 <= len -> off + len <= Z.of_nat (length buf) ->
  buffer_slice buf off len st = Some (take (Z.to_nat len) (drop (Z.to_nat off) buf), st).
Proof.
  intros Ho Hl Hb. unfold buffer_slice.
  by destruct (Z.leb_spec 0 off), (Z.leb_spec 0 len),
       (Z.leb_spec (off + len) (Z.of_nat (length buf))); try lia.
Qed.

(** The last record of a page ends on the last byte of the page, and the
    page check refuses it. *)
Lemma last_record_check b i s :
  0 < s -> ST_PAGE_SIZE mod s = 0 -> 0 <= i ->
  i mod (ST_PAGE_SIZE / s) = ST_PAGE_SIZE / s - 1 ->
  0 <= b -> b mod ST_PAGE_SIZE = 0 ->
  b + (i / (ST_PAGE_SIZE / s) + 1) * ST_PAGE_SIZE < 2 ^ 32 ->
  check_address_alignment (code_address b i s) s = SCH_ST_ERROR.
Proof.
  intros Hs Hdiv Hi Hlast Hb Hal Hfit. unfold ST_PAGE_SIZE in *.
  assert (Hspp : s * (512 / s) = 512) by (apply Z.div_exact in Hdiv; lia).
  assert (Hspp0 : 0 < 512 / s) by nia.
  assert (Hsle : s <= 512) by nia.
  unfold code_address, check_address_alignment, ST_PAGE_SIZE. rewrite Hlast.
  replace ((512 / s - 1) * s) with (512 - s) by nia.
  assert (Hk : 0 <= i / (512 / s)) by (by apply Z.div_pos).
  revert Hk Hfit. generalize (i / (512 / s)) as k. intros k Hk Hfit.
  change (2 ^ 32) with 4294967296 in *.
  assert (Ha : 0 <= b + k * 512 + (512 - s) < 2 ^ 32)
    by (change (2 ^ 32) with 4294967296; lia).
  rewrite !(to_uint32_id _ Ha).
  rewrite (to_uint16_id s) by (change (2 ^ 16) with 65536; lia).
  rewrite to_uint32_id by (change (2 ^ 32) with 4294967296; lia).
  destruct (Z.gtb_spec ((b + k * 512 + (512 - s) + s) / 512)
              ((b + k * 512 + (512 - s)) / 512)) as [|Hle]; [done|].
  exfalso. revert Hle. Z.div_mod_to_equations. lia.
Qed.

Lemma payload_set_last_record_run cfg st p i data schema pa b :
  let s := to_uint16 (size schema) in
  0 < s -> ST_PAGE_SIZE mod s = 0 -> 0 <= i ->
  i mod (ST_PAGE_SIZE / s) = ST_PAGE_SIZE / s - 1 ->
  i < ST_PAGE_SIZE / s * (SCH_SIZE_PER_SECTION cfg / ST_PAGE_SIZE) ->
  ST_PAGE_SIZE <= SCH_SIZE_PER_SECTION cfg ->
  0 <= SCH_SECTIONS_PER_PAYLOAD cfg ->
  st_payload_addr st = Some pa ->
  0 <= p * SCH_SECTIONS_PER_PAYLOAD cfg
    <= st_payloads_entries st * SCH_SECTIONS_PER_PAYLOAD cfg ->
  pa !! Z.to_nat (p * SCH_SECTIONS_PER_PAYLOAD cfg) = Some b ->
  0 <= b -> b mod ST_PAGE_SIZE = 0 -> b + SCH_SIZE_PER_SECTION cfg < 2 ^ 32 ->
  storage_payload_set_data cfg p i (Some data) (Some schema) st = Some (SCH_ST_ERROR, st).
Proof.
  intros s Hs Hdiv Hi Hlast Hfirst Hsec HK Hpa Hp Hb Hb0 Hal Hfit.
  unfold ST_PAGE_SIZE in *.
  assert (Hspp : s * (512 / s) = 512) by (apply Z.div_exact in Hdiv; lia).
  assert (Hspp0 : 0 < 512 / s) by nia.
  assert (Hsle : s <= 512) by nia.
  assert (Hpis : 1 <= SCH_SIZE_PER_SECTION cfg / 512) by (apply Z.div_le_lower_bound; lia).
  assert (Hss : i / (512 / s * (SCH_SIZE_PER_SECTION cfg / 512)) = 0)
    by (apply Z.div_small; lia).
  assert (Hpage : i / (512 / s) < SCH_SIZE_PER_SECTION cfg / 512)
    by (apply Z.div_lt_upper_bound; lia).
  assert (Hchk : check_address_alignment (code_address b i s) s = SCH_ST_ERROR).
  { apply last_record_check; unfold ST_PAGE_SIZE; try done.
    assert (SCH_SIZE_PER_SECTION cfg / 512 * 512 <= SCH_SIZE_PER_SECTION cfg)
      by (Z.div_mod_to_equations; lia).
    nia. }
  pose proof (get_sample_address_eq cfg st p i s pa b) as Haddr.
  unfold ST_PAGE_SIZE in Haddr. cbv zeta in Haddr. rewrite Hss, Z.add_0_r in Haddr.
  specialize (Haddr ltac:(lia) Hi Hsec HK Hp Hpa Hb).
  unfold storage_payload_set_data, bind at 1, gets. unfold bind at 1, gets.
  destruct (storage_is_open st); [|done]. rewrite Hpa, is_Some_true by eauto.
  cbn [negb orb]. fold s. rewrite (bind_Some _ _ _ _ _ Haddr).
  destruct (_ >? _); [done|].
  change (negb (SCH_ST_OK =? SCH_ST_OK)) with false. cbv iota.
  unfold deref, bind at 1, ret. unfold write_data_with_check. rewrite Hchk.
  done.
Qed.

Section PayloadRuns.

Variable cfg : config.
Variable data_map : list data_map_t.
Variable last_sensor : Z.
Hypothesis Hlayout : fram_layout_ok cfg.

Let N := dat_status_last_address cfg.

(** What [dat_add_payload_sample] does with the outcome of
    [storage_payload_set_data]. *)
Lemma add_payload_sample_run data p schema q rc st st1 :
  0 <= p < last_sensor -> data_map !! Z.to_nat p = Some schema ->
  0 <= sys_index schema < N ->
  4 <= Z.of_nat (length data) ->
  dat_get_system_var cfg (sys_index schema) st = Some (q, st) ->
  storage_payload_set_data cfg p q (Some data) (Some schema) st = Some (rc, st1) ->
  (rc = SCH_ST_OK -> q + 1 <= INT_MAX) ->
  exists st',
    dat_add_payload_sample cfg data_map last_sensor (Some data) p st =
      Some (if rc =? SCH_ST_OK then 0 else -1, st') /\
    engine st' = engine st1 /\
    (rc <> SCH_ST_OK -> st' = st) /\
    dat_get_system_var cfg (sys_index schema) st' =
      Some (if rc =? SCH_ST_OK then q + 1 else q, st').
Proof.
  intros Hp Hschema Hidx Hdata Hq Hset Hmax.
  pose proof (get_system_var_range cfg _ _ _ _ Hq) as Hqr.
  unfold dat_add_payload_sample.
  rewrite (bind_Some _ _ _ _ _ (array_get_eq _ _ st _ (proj1 Hp) Hschema)).
  rewrite (bind_Some _ _ _ _ _ Hq).
  rewrite (bind_Some _ _ _ _ _
             (buffer_slice_defined data 0 4 st (Z.le_refl 0) ltac:(lia) ltac:(lia))).
  destruct (Z.geb_spec p last_sensor); [lia|].
  rewrite (bind_Some _ _ _ _ _ Hset).
  destruct (payload_set_cases _ _ _ _ _ _ _ _ Hset) as [[-> _] | [-> ->]].
  - change (SCH_ST_OK >=? SCH_ST_OK) with true. change (SCH_ST_OK =? SCH_ST_OK) with true.
    cbv iota. specialize (Hmax eq_refl).
    rewrite (bind_Some _ _ _ _ _ (int_add_eq q 1 st1 ltac:(lia))).
    destruct (dat_set_status_var_eq cfg Hlayout (sys_index schema) (value32_of_int (q + 1))
                st1 Hidx) as (st' & Hvar & Heng & _).
    exists st'. unfold dat_set_system_var at 1. rewrite (bind_Some _ _ _ _ _ Hvar).
    split; [done|]. split; [done|]. split; [done|].
    apply (dat_set_get_system_var cfg Hlayout _ _ st1 st' SCH_ST_OK); [done | lia | done].
  - change (SCH_ST_ERROR >=? SCH_ST_OK) with false.
    change (SCH_ST_ERROR =? SCH_ST_OK) with false. cbv iota.
    exists st. done.
Qed.

End PayloadRuns.


(** X10. When the record size divides the page size, the last record of every
    page ends on the last byte of its page, and the page check refuses
    it: [storage_payload_set_data] never stores a sample whose index is
    the last one of a page, and in the first section of a payload of the
    table it returns the error with nothing changed. *)
Theorem payload_last_record_of_page_refused cfg st p i data schema :
  let s := to_uint16 (size schema) in
  0 < s ->
  ST_PAGE_SIZE mod s = 0 ->
  0 <= i ->
  i mod (ST_PAGE_SIZE / s) = ST_PAGE_SIZE / s - 1 ->
  (forall pa b, st_payload_addr st = Some pa -> b ∈ pa -> 0 <= b /\ b mod ST_PAGE_SIZE = 0) ->
  flash_size cfg < 2 ^ 32 ->
  (forall rc st',
     storage_payload_set_data cfg p i (Some data) (Some schema) st = Some (rc, st') ->
     rc = SCH_ST_ERROR /\ st' = st) /\
  (forall pa b,
     st_payload_addr st = Some pa ->
     0 <= p * SCH_SECTIONS_PER_PAYLOAD cfg
       <= st_payloads_entries st * SCH_SECTIONS_PER_PAYLOAD cfg ->
     pa !! Z.to_nat (p * SCH_SECTIONS_PER_PAYLOAD cfg) = Some b ->
     i < ST_PAGE_SIZE / s * (SCH_SIZE_PER_SECTION cfg / ST_PAGE_SIZE) ->
     ST_PAGE_SIZE <= SCH_SIZE_PER_SECTION cfg ->
     0 <= SCH_SECTIONS_PER_PAYLOAD cfg ->
     b + SCH_SIZE_PER_SECTION cfg < 2 ^ 32 ->
     storage_payload_set_data cfg p i (Some data) (Some schema) st =
       Some (SCH_ST_ERROR, st)).
Proof.
  intros s Hs Hdiv Hi Hlast Hal Hflash. split.
  - intros rc st' H.
    apply (last_record_never_stored cfg st p i data schema rc st'); try done.
    intros pa b Hpa Hb. by destruct (Hal pa b Hpa Hb).
  - intros pa b Hpa Hp Hb Hfirst Hsec HK Hfit.
    destruct (Hal pa b Hpa (list_elem_of_lookup_2 _ _ _ Hb)) as [Hb0 Hbal].
    by apply (payload_set_last_record_run cfg st p i data schema pa b).
Qed.

(** X11. With a record size that divides the page size, a payload whose index
    has reached the last record of a page is stuck: whatever
    [dat_add_payload_sample] returns is -1 with nothing changed, the index
    included; and in the first section of a payload of the table it does
    return -1. *)
Theorem payload_stuck_at_end_of_page cfg data_map last_sensor st data p schema q :
  let s := to_uint16 (size schema) in
  fram_layout_ok cfg ->
  0 <= p -> data_map !! Z.to_nat p = Some schema ->
  0 <= sys_index schema < dat_status_last_address cfg ->
  dat_get_system_var cfg (sys_index schema) st = Some (q, st) ->
  0 < s ->
  ST_PAGE_SIZE mod s = 0 ->
  0 <= q ->
  q mod (ST_PAGE_SIZE / s) = ST_PAGE_SIZE / s - 1 ->
  (forall pa b, st_payload_addr st = Some pa -> b ∈ pa -> 0 <= b /\ b mod ST_PAGE_SIZE = 0) ->
  flash_size cfg < 2 ^ 32 ->
  (forall rc st',
     dat_add_payload_sample cfg data_map last_sensor (Some data) p st = Some (rc, st') ->
     rc = -1 /\ st' = st /\
     dat_get_system_var cfg (sys_index schema) st' = Some (q, st')) /\
  (forall pa b,
     p < last_sensor -> 4 <= Z.of_nat (length data) ->
     st_payload_addr st = Some pa ->
     0 <= p * SCH_SECTIONS_PER_PAYLOAD cfg
       <= st_payloads_entries st * SCH_SECTIONS_PER_PAYLOAD cfg ->
     pa !! Z.to_nat (p * SCH_SECTIONS_PER_PAYLOAD cfg) = Some b ->
     q < ST_PAGE_SIZE / s * (SCH_SIZE_PER_SECTION cfg / ST_PAGE_SIZE) ->
     ST_PAGE_SIZE <= SCH_SIZE_PER_SECTION cfg ->
     0 <= SCH_SECTIONS_PER_PAYLOAD cfg ->
     b + SCH_SIZE_PER_SECTION cfg < 2 ^ 32 ->
     dat_add_payload_sample cfg data_map last_sensor (Some data) p st = Some (-1, st)).
Proof.
  intros s Hlayout Hp Hschema Hidx Hq Hs Hdiv Hq0 Hlast Hal Hflash. split.
  - intros rc st' H.
    destruct (add_payload_sample_cases cfg data_map last_sensor Hlayout data p schema q st rc st'
                Hp Hschema Hidx Hq H) as [(_ & _ & st1 & Hset & _) | [-> ->]]; [|done].
    assert (Hal' : forall pa b, st_payload_addr st = Some pa -> b ∈ pa -> b mod ST_PAGE_SIZE = 0).
    { intros pa b Hpa Hb. by destruct (Hal pa b Hpa Hb). }
    by destruct (last_record_never_stored cfg st p q data schema _ _
                   Hs Hdiv Hq0 Hlast Hal' Hflash Hset).
  - intros pa b Hlt Hdata Hpa Hpk Hb Hfirst Hsec HK Hfit.
    destruct (Hal pa b Hpa (list_elem_of_lookup_2 _ _ _ Hb)) as [Hb0 Hbal].
    assert (Hset : storage_payload_set_data cfg p q (Some data) (Some schema) st =
                     Some (SCH_ST_ERROR, st))
      by (by apply (payload_set_last_record_run cfg st p q data schema pa b)).
    destruct (add_payload_sample_run cfg data_map last_sensor Hlayout data p schema q
                SCH_ST_ERROR st st ltac:(lia) Hschema Hidx Hdata Hq Hset ltac:(done))
      as (st' & Hadd & _ & Hst & _).
    rewrite (Hst ltac:(done)) in Hadd. exact Hadd.
Qed.

(** ** The state machine's sensor mask *)

Lemma land_pow2 a p :
  0 <= p -> Z.land a (2 ^ p) = if Z.testbit a p then 2 ^ p else 0.
Proof.
  intros Hp. apply Z.bits_inj'. intros k Hk.
  rewrite Z.land_spec, Z.pow2_bits_eqb by done.
  destruct (Z.eqb_spec p k) as [->|Hne].
  - rewrite andb_true_r. destruct (Z.testbit a k) eqn:E.
    + by rewrite Z.pow2_bits_true.
    + by rewrite Z.bits_0.
  - rewrite andb_false_r. destruct (Z.testbit a p).
    + by rewrite Z.pow2_bits_false.
    + by rewrite Z.bits_0.
Qed.

(** X12. A sensor counts as active exactly when the mask is below
    [2 ^ n_payloads] and has the bit of the sensor set. The sensor number
    is not compared with [n_payloads]: for a mask that is not negative a
    sensor beyond the last one is never active, while a negative mask
    passes the limit and is read bit by bit. *)
Theorem sensor_active_characterised payload active n :
  0 <= n < 31 -> 0 <= payload < 31 ->
  dat_stmachine_is_sensor_active payload active n =
    Some (if (active <? 2 ^ n) && Z.testbit active payload then 1 else 0) /\
  (0 <= active -> n <= payload ->
   dat_stmachine_is_sensor_active payload active n = Some 0) /\
  (active < 0 ->
   dat_stmachine_is_sensor_active payload active n =
     Some (if Z.testbit active payload then 1 else 0)).
Proof.
  intros Hn Hp.
  assert (Hmain : dat_stmachine_is_sensor_active payload active n =
            Some (if (active <? 2 ^ n) && Z.testbit active payload then 1 else 0)).
  { unfold dat_stmachine_is_sensor_active, shl_one.
    destruct (Z.leb_spec 0 n), (Z.ltb_spec n 31); try lia.
    destruct (Z.leb_spec 0 payload), (Z.ltb_spec payload 31); try lia.
    cbn [andb]. destruct (Z.geb_spec active (2 ^ n)), (Z.ltb_spec active (2 ^ n)); try lia.
    - done.
    - cbn [andb]. rewrite land_pow2 by lia.
      assert (0 < 2 ^ payload) by (apply Z.pow_pos_nonneg; lia).
      destruct (Z.testbit active payload); [|done].
      by destruct (Z.eqb_spec (2 ^ payload) 0); [lia|]. }
  split; [exact Hmain|]. split.
  - intros Ha Hnp. rewrite Hmain. destruct (Z.ltb_spec active (2 ^ n)); [|done].
    cbn [andb]. replace (Z.testbit active payload) with false; [done|].
    symmetry. apply Z.testbit_false; [lia|].
    rewrite Z.div_small; [done|]. split; [done|].
    assert (2 ^ n <= 2 ^ payload) by (apply Z.pow_le_mono_r; lia). lia.
  - intros Ha. rewrite Hmain.
    assert (0 < 2 ^ n) by (apply Z.pow_pos_nonneg; lia).
    by destruct (Z.ltb_spec active (2 ^ n)); [|lia].
Qed.

(** ** Flight-plan entries: what is stored is what is read *)

Lemma cstring_no_nul s : Forall (fun c => c <> 0) (cstring s).
Proof.
  induction s as [|c s IH]; simpl; [constructor|].
  destruct (Z.eqb_spec c 0); by constructor.
Qed.

Lemma scan_nul_app s rest :
  Forall (fun c => c <> 0) s -> scan_nul (s ++ rest) = option_map (app s) (scan_nul rest).
Proof.
  induction 1 as [|c s Hc Hs IH]; simpl.
  - by destruct (scan_nul rest).
  - destruct (Z.eqb_spec c 0); [done|]. rewrite IH. by destruct (scan_nul rest).
Qed.

Lemma scan_nul_terminated s rest :
  Forall (fun c => c <> 0) s -> scan_nul (s ++ 0 :: rest) = Some s.
Proof. intros H. rewrite scan_nul_app by done. simpl. by rewrite app_nil_r. Qed.

Lemma strncpy_length n src : length (strncpy n src) = n.
Proof.
  unfold strncpy. rewrite length_app, length_replicate, length_take. lia.
Qed.

Lemma strncpy_short n src :
  (length (cstring src) < n)%nat ->
  exists k, strncpy n src = cstring src ++ 0 :: replicate k 0.
Proof.
  intros H. unfold strncpy. rewrite take_ge by lia.
  destruct (n - length (cstring src))%nat as [|k] eqn:E; [lia|]. by exists k.
Qed.

Lemma strncpy_long n src :
  (n <= length (cstring src))%nat -> strncpy n src = take n (cstring src).
Proof.
  intros H. unfold strncpy. rewrite length_take_le by lia.
  by rewrite Nat.sub_diag, app_nil_r.
Qed.

Lemma encode_container_length row : length (encode_container row) = 512%nat.
Proof.
  unfold encode_container. rewrite !length_app, !encode32_length, !strncpy_length. done.
Qed.

Lemma encode_container_ints row :
  container_int (encode_container row) 0 = to_int32 (unixtime row) /\
  container_int (encode_container row) 4 = to_int32 (executions row) /\
  container_int (encode_container row) 8 = to_int32 (periodical row) /\
  container_int (encode_container row) 12 = to_int32 (node row).
Proof.
  unfold container_int, encode_container.
  assert (H : forall v rest, take 4 (encode32 v ++ rest) = encode32 v)
    by (intros; reflexivity).
  assert (H' : forall v rest, drop 4 (encode32 v ++ rest) = rest)
    by (intros; reflexivity).
  change 12%nat with (4 + (4 + 4))%nat. change 8%nat with (4 + 4)%nat.
  rewrite <- !drop_drop, !H', drop_0, !H, !decode_encode32, !to_int32_to_uint32. done.
Qed.

Lemma encode_container_strings row :
  drop 16 (encode_container row) =
    strncpy (Z.to_nat ST_CMD_MAX_STR_PARAMS) (cmd row) ++
    strncpy (Z.to_nat ST_CMD_MAX_STR_NAME) (args row) /\
  drop 264 (encode_container row) = strncpy (Z.to_nat ST_CMD_MAX_STR_NAME) (args row).
Proof.
  unfold encode_container.
  assert (H' : forall v rest, drop 4 (encode32 v ++ rest) = rest)
    by (intros; reflexivity).
  split.
  - change 16%nat with (4 + (4 + (4 + 4)))%nat. by rewrite <- !drop_drop, !H'.
  - change 264%nat with (4 + (4 + (4 + (4 + 248))))%nat. rewrite <- !drop_drop, !H'.
    rewrite drop_app_length'; [done|]. by rewrite strncpy_length.
Qed.

(** The two strings a reader finds in a stored entry: the command ends at
    its NUL when it is shorter than its field, and runs on into the
    arguments when it fills the field. *)
Lemma encode_container_strdup row :
  (length (cstring (args row)) < 248)%nat ->
  strdup_at (encode_container row) 16 =
    Some (if decide (length (cstring (cmd row)) < 248)%nat
          then cstring (cmd row)
          else take 248 (cstring (cmd row)) ++ cstring (args row)) /\
  strdup_at (encode_container row) 264 = Some (cstring (args row)).
Proof.
  intros Ha. unfold strdup_at. destruct (encode_container_strings row) as [-> ->].
  change (Z.to_nat ST_CMD_MAX_STR_PARAMS) with 248%nat.
  change (Z.to_nat ST_CMD_MAX_STR_NAME) with 248%nat.
  destruct (strncpy_short 248 (args row) Ha) as [ka Hka].
  assert (Hargs : scan_nul (strncpy 248 (args row)) = Some (cstring (args row))).
  { rewrite Hka. apply scan_nul_terminated, cstring_no_nul. }
  split; [|done].
  destruct (decide (length (cstring (cmd row)) < 248)%nat) as [Hc|Hc].
  - destruct (strncpy_short 248 (cmd row) Hc) as [kc ->].
    rewrite <- app_assoc. apply scan_nul_terminated, cstring_no_nul.
  - rewrite strncpy_long by lia. rewrite scan_nul_app, Hargs; [done|].
    apply Forall_take, cstring_no_nul.
Qed.

Lemma find_index_from_first tlb t i n st r st' :
  0 <= i ->
  find_index_from tlb t i n st = Some (r, st') ->
  forall j x, i <= j < (if r =? -1 then i + Z.of_nat n else r) ->
              tlb !! Z.to_nat j = Some x -> tlb_unixtime x <> t.
Proof.
  revert i. induction n as [|n IH]; intros i Hi H j x Hj Hx; simpl in H.
  - injection H as <- <-. simpl in Hj. lia.
  - apply bind_inv in H as (e & st1 & He & H).
    apply array_get_inv in He as (-> & _ & He & _).
    destruct (Z.eqb_spec (tlb_unixtime e) t) as [Heq|Hne].
    + injection H as <- <-. destruct (Z.eqb_spec i (-1)); lia.
    + destruct (decide (j = i)) as [->|Hji]; [congruence|].
      apply (IH (i + 1) ltac:(lia) H j x); [|done].
      destruct (r =? -1); lia.
Qed.

Lemma find_index_from_miss tlb t i n st :
  0 <= i -> (Z.to_nat i + n <= length tlb)%nat ->
  (forall j x, i <= j < i + Z.of_nat n -> tlb !! Z.to_nat j = Some x -> tlb_unixtime x <> t) ->
  find_index_from tlb t i n st = Some (-1, st).
Proof.
  intros Hi Hlen Hall.
  destruct (find_index_from_total tlb t i n st Hi Hlen) as [r Hr]. rewrite Hr.
  apply find_index_from_inv in Hr as (_ & [-> | (Hr & _ & e & He & Ht)]); [done|].
  exfalso. by apply (Hall r e).
Qed.

Lemma find_index_from_at tlb t i n st k e :
  0 <= i -> (Z.to_nat i + n <= length tlb)%nat ->
  i <= k < i + Z.of_nat n ->
  tlb !! Z.to_nat k = Some e -> tlb_unixtime e = t ->
  (forall j x, i <= j < k -> tlb !! Z.to_nat j = Some x -> tlb_unixtime x <> t) ->
  find_index_from tlb t i n st = Some (k, st).
Proof.
  intros Hi Hlen Hk He Ht Hbefore.
  destruct (find_index_from_total tlb t i n st Hi Hlen) as [r Hr].
  pose proof (find_index_from_first _ _ _ _ _ _ _ Hi Hr) as Hfirst.
  pose proof Hr as Hinv.
  apply find_index_from_inv in Hinv as (_ & [-> | (Hrr & _ & x & Hx & Hxt)]).
  - exfalso. apply (Hfirst k e); [simpl; lia | done..].
  - assert (Hne : (r =? -1) = false) by (apply Z.eqb_neq; lia).
    rewrite Hne in Hfirst.
    destruct (Z.lt_trichotomy r k) as [Hlt | [-> | Hgt]]; [|done|].
    + exfalso. apply (Hbefore r x); [lia | done..].
    + exfalso. apply (Hfirst k e); [lia | done..].
Qed.

Lemma tables_inv st st' :
  tables st' = tables st ->
  storage_is_open st' = storage_is_open st /\
  st_flightplan_addr st' = st_flightplan_addr st /\
  st_flightplan_entries st' = st_flightplan_entries st /\
  st_payload_addr st' = st_payload_addr st /\
  st_payloads_entries st' = st_payloads_entries st /\
  st_flightplan_base_addr st' = st_flightplan_base_addr st.
Proof. unfold tables. by intros [= ? ? ? ? ? ? ? ? ? ?]. Qed.

Section FlightPlanRoundTrip.

Variable cfg : config.
Hypothesis Hlayout : fram_layout_ok cfg.

Let MAX := SCH_FP_MAX_ENTRIES cfg.

(** What a TLB update leaves: the slot, the counter, and both of them in
    the backup. *)
Lemma update_tlb_effect i t a st rc st' :
  tlb_ok cfg st -> 0 <= i < MAX ->
  storage_flightplan_update_tlb cfg i t a st = Some (rc, st') ->
  exists meta,
    st_flightplan_tlb st !! Z.to_nat MAX = Some meta /\
    rc = SCH_ST_OK /\
    st_flightplan_tlb st' =
      <[Z.to_nat MAX := {| addr := to_uint32 (1 + addr meta);
                           tlb_unixtime := tlb_unixtime meta |}]>
        (<[Z.to_nat i := {| addr := to_uint32 a; tlb_unixtime := to_int32 t |}]>
           (st_flightplan_tlb st)) /\
    flash st' = flash st /\ tables st' = tables st /\ tlb_ok cfg st'.
Proof.
  intros Hok Hi H. pose proof Hok as (Hlen & Hent & Hty). fold MAX in Hlen, Hent.
  pose proof H as Hfr. apply (frame_update_tlb cfg Hlayout) in Hfr.
  destruct (Hfr Hok) as (Hok' & _).
  unfold storage_flightplan_update_tlb in H.
  apply bind_inv in H as ([] & st1 & H1 & H). apply tlb_store_inv in H1 as (e1 & _ & He1 & ->).
  apply bind_inv in H as ([] & st2 & H2 & H). apply tlb_store_inv in H2 as (e2 & _ & He2 & ->).
  cbn [st_flightplan_tlb set_tlb] in *.
  apply bind_inv in H as ([] & st3 & H3 & H). apply tlb_store_inv in H3 as (e3 & _ & He3 & ->).
  cbn [st_flightplan_tlb set_tlb] in *.
  rewrite list_lookup_insert_eq in He2 by lia. injection He2 as <-.
  rewrite !list_lookup_insert_ne in He3 by lia.
  rewrite list_insert_insert_eq in H.
  apply bind_inv in H as (rc1 & st4 & H4 & H).
  match type of H4 with
  | _ ?s = _ => assert (Hok3 : tlb_ok cfg s)
  end.
  { repeat split; cbn [st_flightplan_tlb st_flightplan_entries set_tlb];
      [by rewrite !length_insert | done |].
    repeat apply Forall_insert; try done; unfold addr_ok; cbn [addr];
      first [ apply to_uint32_range | by apply (Forall_lookup_1 _ _ _ _ Hty He1) ]. }
  apply (dump_tlb_slot_inv cfg Hlayout) in H4 as (-> & _ & e4 & _ & ->); [|done|lia].
  simpl in H.
  apply (dump_tlb_slot_inv cfg Hlayout) in H as (-> & _ & e5 & _ & ->); [|done|lia].
  exists e3. split; [done|]. split; [done|]. split; [done|]. done.
Qed.

(** An insertion that needs no rebuild and returns OK: the first free slot
    of the TLB now points to the entry, which has been written to the
    flash at the address the counter gave. *)
Lemma set_st_stores row st st' :
  tlb_ok cfg st ->
  tlb_counter cfg st <= commands_per_section cfg ->
  storage_flight_plan_set_st cfg (Some row) st = Some (SCH_ST_OK, st') ->
  exists k meta a,
    0 <= k < st_flightplan_entries st /\
    (forall j x, 0 <= j < k -> st_flightplan_tlb st !! Z.to_nat j = Some x ->
                 tlb_unixtime x <> ST_FP_NULL) /\
    st_flightplan_tlb st !! Z.to_nat MAX = Some meta /\
    0 <= a < 2 ^ 32 /\ a + FP_CONTAINER_SIZE <= flash_size cfg /\
    st_flightplan_tlb st' =
      <[Z.to_nat MAX := {| addr := to_uint32 (1 + addr meta);
                           tlb_unixtime := tlb_unixtime meta |}]>
        (<[Z.to_nat k := {| addr := a; tlb_unixtime := to_int32 (unixtime row) |}]>
           (st_flightplan_tlb st)) /\
    flash st' = mem_write (flash st) a (encode_container row) /\
    tables st' = tables st /\ tlb_ok cfg st'.
Proof.
  intros Hok Hcnt H. pose proof Hok as (Hlen & Hent & Hty). fold MAX in Hlen, Hent.
  pose proof Hlayout as (HM & _). fold MAX in HM.
  unfold storage_flight_plan_set_st, bind at 1, gets in H.
  destruct (storage_is_open st); simpl in H; [|by injection H].
  apply bind_inv in H as (meta & st0 & Hmeta & H).
  apply tlb_load_inv in Hmeta as (-> & _ & Hmeta). fold MAX in Hmeta.
  rewrite (tlb_counter_eq cfg st meta Hmeta) in Hcnt.
  apply bind_inv in H as ([] & st1 & Hre & H).
  destruct (Z.gtb_spec (addr meta) (commands_per_section cfg)); [lia|].
  injection Hre as <-.
  apply bind_inv in H as (k & st0 & Hfind & H).
  unfold storage_flightplan_find_index_tlb, bind, gets in Hfind.
  pose proof (find_index_from_first _ _ _ _ _ _ _ (Z.le_refl 0) Hfind) as Hfirst.
  apply find_index_from_inv in Hfind as (-> & Hidx).
  unfold bind at 1, gets in H.
  destruct ((k =? -1) || (k >=? st_flightplan_entries st)) eqn:Hguard; [by injection H|].
  apply orb_false_iff in Hguard as [Hne Hlt]. rewrite Hne in Hfirst.
  apply Z.eqb_neq in Hne. destruct Hidx as [? | (Hidx & _)]; [done|].
  rewrite Z.geb_leb in Hlt. apply Z.leb_gt in Hlt.
  apply bind_inv in H as (meta' & st0 & Hmeta' & H).
  apply tlb_load_inv in Hmeta' as (-> & _ & Hmeta'). fold MAX in Hmeta'.
  rewrite Hmeta in Hmeta'. injection Hmeta' as <-.
  apply bind_inv in H as (sec & st0 & Hs & H). apply read_only_c_div in Hs as ->.
  apply bind_inv in H as (iis & st0 & Hs & H). apply read_only_c_mod in Hs as ->.
  unfold bind at 1, gets in H.
  apply bind_inv in H as (fpa & st0 & Hs & H). apply read_only_deref in Hs as ->.
  apply bind_inv in H as (base & st0 & Hs & H). apply read_only_array_get in Hs as ->.
  apply bind_inv in H as (rc1 & st2 & Hup & H).
  apply update_tlb_effect in Hup as (meta' & Hmeta' & -> & Htlb & Hflash & Htab & Hok2);
    [|done|lia].
  rewrite Hmeta in Hmeta'. injection Hmeta' as <-.
  change (SCH_ST_OK =? SCH_ST_OK) with true in H. cbv iota in H.
  set (a := to_uint32 (base + iis * FP_CONTAINER_SIZE)) in *.
  assert (Ha : 0 <= a < 2 ^ 32) by apply to_uint32_range.
  unfold storage_write_flash in H.
  apply bind_inv in H as (src & st3 & Hsrc & H).
  apply buffer_slice_inv in Hsrc as (-> & Hsrc & _ & _ & _ & _).
  rewrite (to_uint32_id a) in H by done.
  change (to_uint16 FP_CONTAINER_SIZE) with 512 in *.
  rewrite drop_0, take_ge in Hsrc by (rewrite encode_container_length; lia). subst src.
  unfold bind, gets, modify, ret in H.
  destruct (in_bounds _ _ _) eqn:Hb; [|done]. injection H as <-.
  apply in_bounds_true in Hb as (_ & _ & Hb).
  exists k, meta, a. split; [lia|]. split.
  { intros j x Hj Hx. apply (Hfirst j x); [lia | done]. }
  split; [done|]. split; [done|]. split; [done|].
  cbn [st_flightplan_tlb flash set_flash]. rewrite Htlb, Hflash.
  rewrite (to_uint32_id a) by done. split; [done|]. split; [done|].
  split; [done|]. destruct Hok2 as (? & ? & ?). by repeat split.
Qed.

(** Reading the entry of a slot whose 512 bytes are known. *)
Lemma get_idx_eq st k e row :
  0 <= k < st_flightplan_entries st ->
  st_flightplan_tlb st !! Z.to_nat k = Some e ->
  tlb_unixtime e <> ST_FP_NULL ->
  0 <= addr e < 2 ^ 32 -> addr e + FP_CONTAINER_SIZE <= flash_size cfg ->
  mem_read (flash st) (addr e) 512 = encode_container row ->
  (length (cstring (args row)) < 248)%nat ->
  storage_flight_plan_get_idx cfg k PTR st =
    Some ((SCH_ST_OK,
           Some {| unixtime := to_int32 (unixtime row);
                   executions := to_int32 (executions row);
                   periodical := to_int32 (periodical row);
                   node := to_int32 (node row);
                   cmd := if decide (length (cstring (cmd row)) < 248)%nat
                          then cstring (cmd row)
                          else take 248 (cstring (cmd row)) ++ cstring (args row);
                   args := cstring (args row) |}), st).
Proof.
  intros Hk He Hlive Ha Hb Hread Hargs.
  unfold storage_flight_plan_get_idx, bind at 1, gets.
  destruct (Z.geb_spec k (st_flightplan_entries st)); [lia|]. cbn [is_null orb].
  rewrite (bind_Some _ _ _ _ _ (tlb_load_eq k st e ltac:(lia) He)).
  destruct (Z.eqb_spec (tlb_unixtime e) ST_FP_NULL); [done|].
  unfold storage_read_flash, bind at 2, gets.
  rewrite (to_uint32_id (addr e)) by done.
  change (to_uint16 FP_CONTAINER_SIZE) with 512 in *.
  replace (in_bounds (addr e) 512 (flash_size cfg)) with true; last first.
  { symmetry. apply in_bounds_true. unfold FP_CONTAINER_SIZE in Hb. lia. }
  unfold bind at 1, ret at 1. change (SCH_ST_OK =? SCH_ST_OK) with true. cbv iota.
  change (Z.to_nat 512) with 512%nat. rewrite Hread.
  destruct (encode_container_strdup row Hargs) as [-> ->].
  destruct (encode_container_ints row) as (-> & -> & -> & ->).
  done.
Qed.

(** The entry an insertion has stored, read back by its time. *)
Lemma set_then_get t c a e p n st st' :
  tlb_ok cfg st ->
  tlb_counter cfg st <= commands_per_section cfg ->
  t <= INT_MAX ->
  (forall j x, 0 <= j < MAX -> st_flightplan_tlb st !! Z.to_nat j = Some x ->
               tlb_unixtime x <> t) ->
  (length (cstring a) < 248)%nat ->
  storage_flight_plan_set cfg t (Some c) (Some a) e p n st = Some (SCH_ST_OK, st') ->
  0 <= t /\
  exists k,
    0 <= k < MAX /\
    storage_flightplan_find_index_tlb cfg t st' = Some (k, st') /\
    storage_flight_plan_get_idx cfg k PTR st' =
      Some ((SCH_ST_OK,
             Some {| unixtime := t;
                     executions := to_int32 e;
                     periodical := to_int32 p;
                     node := to_int32 n;
                     cmd := if decide (length (cstring c) < 248)%nat
                            then cstring c
                            else take 248 (cstring c) ++ cstring a;
                     args := cstring a |}), st') /\
    tlb_ok cfg st' /\
    st_flightplan_entries st' = st_flightplan_entries st /\
    (forall j, 0 <= j < MAX -> j <> k ->
       st_flightplan_tlb st' !! Z.to_nat j = st_flightplan_tlb st !! Z.to_nat j).
Proof.
  intros Hok Hcnt Ht Hfresh Hargs H. pose proof Hok as (Hlen & Hent & Hty).
  fold MAX in Hlen, Hent.
  unfold storage_flight_plan_set, bind at 1, gets in H.
  destruct (Z.ltb_spec t 0); [by injection H|].
  destruct (negb (storage_is_open st)); [by injection H|]. cbn [orb] in H.
  split; [done|].
  assert (Htt : to_int32 t = t) by (apply to_int32_id; unfold INT_MIN; lia).
  apply set_st_stores in H
    as (k & meta & ad & Hk & Hfirst & Hmeta & Had & Hb & Htlb & Hflash & Htab & Hok');
    [|done..].
  cbn [unixtime] in Htlb. rewrite Htt in Htlb.
  apply tables_inv in Htab as (_ & _ & Hentries & _).
  assert (Hslot : st_flightplan_tlb st' !! Z.to_nat k =
                    Some {| addr := ad; tlb_unixtime := t |}).
  { rewrite Htlb, list_lookup_insert_ne by lia. apply list_lookup_insert_eq. lia. }
  assert (Hothers : forall j, 0 <= j < MAX -> j <> k ->
            st_flightplan_tlb st' !! Z.to_nat j = st_flightplan_tlb st !! Z.to_nat j).
  { intros j Hj Hjk. rewrite Htlb, !list_lookup_insert_ne by lia. done. }
  exists k. split; [lia|]. split; [|split; [|done]].
  - unfold storage_flightplan_find_index_tlb, bind, gets. rewrite Htt.
    apply (find_index_from_at _ _ _ _ _ k {| addr := ad; tlb_unixtime := t |});
      [lia | | lia | done | done |].
    { destruct Hok' as (Hlen' & _). fold MAX in Hlen'. lia. }
    intros j x Hj Hx. rewrite Hothers in Hx by lia. apply (Hfresh j x); [lia | done].
  - rewrite <- Htt at 1.
    apply (get_idx_eq st' k {| addr := ad; tlb_unixtime := t |}
             {| unixtime := t; executions := e; periodical := p; node := n;
                cmd := c; args := a |}); cbn [addr tlb_unixtime args]; try done.
    + lia.
    + unfold ST_FP_NULL. lia.
    + rewrite Hflash. rewrite <- (encode_container_length
        {| unixtime := t; executions := e; periodical := p; node := n; cmd := c; args := a |}).
      apply mem_read_write_same.
Qed.

End FlightPlanRoundTrip.

(** X13. A flight-plan entry comes back as it went in: after an insertion that
    returns OK, [storage_flight_plan_get_st] for the same time returns OK
    with the four numbers and the two strings of the entry, provided no
    entry with that time was stored before and both strings are shorter
    than their 248-byte fields. *)
Theorem flight_plan_set_get_round_trip cfg st t c a e p n st' :
  fram_layout_ok cfg ->
  tlb_ok cfg st ->
  tlb_counter cfg st <= commands_per_section cfg ->
  t <= INT_MAX ->
  (forall j x, 0 <= j < SCH_FP_MAX_ENTRIES cfg ->
     st_flightplan_tlb st !! Z.to_nat j = Some x -> tlb_unixtime x <> t) ->
  (length (cstring c) < 248)%nat ->
  (length (cstring a) < 248)%nat ->
  storage_flight_plan_set cfg t (Some c) (Some a) e p n st = Some (SCH_ST_OK, st') ->
  storage_flight_plan_get_st cfg t PTR st' =
    Some ((SCH_ST_OK,
           Some {| unixtime := t; executions := to_int32 e; periodical := to_int32 p;
                   node := to_int32 n; cmd := cstring c; args := cstring a |}), st').
Proof.
  intros Hlayout Hok Hcnt Ht Hfresh Hc Ha H.
  destruct (set_then_get cfg Hlayout t c a e p n st st' Hok Hcnt Ht Hfresh Ha H)
    as (_ & k & Hk & Hfind & Hget & _).
  unfold storage_flight_plan_get_st. rewrite (bind_Some _ _ _ _ _ Hfind).
  destruct (Z.ltb_spec k 0); [lia|]. rewrite Hget.
  by destruct (decide (length (cstring c) < 248)%nat).
Qed.

(** X14. A command of 248 characters or more fills its field without a
    terminating NUL: the entry that is read back has the first 248
    characters of the command followed by the arguments as its command. *)
Theorem flight_plan_long_command_runs_into_arguments cfg st t c a e p n st' :
  fram_layout_ok cfg ->
  tlb_ok cfg st ->
  tlb_counter cfg st <= commands_per_section cfg ->
  t <= INT_MAX ->
  (forall j x, 0 <= j < SCH_FP_MAX_ENTRIES cfg ->
     st_flightplan_tlb st !! Z.to_nat j = Some x -> tlb_unixtime x <> t) ->
  (248 <= length (cstring c))%nat ->
  (length (cstring a) < 248)%nat ->
  storage_flight_plan_set cfg t (Some c) (Some a) e p n st = Some (SCH_ST_OK, st') ->
  storage_flight_plan_get_st cfg t PTR st' =
    Some ((SCH_ST_OK,
           Some {| unixtime := t; executions := to_int32 e; periodical := to_int32 p;
                   node := to_int32 n;
                   cmd := take 248 (cstring c) ++ cstring a;
                   args := cstring a |}), st').
Proof.
  intros Hlayout Hok Hcnt Ht Hfresh Hc Ha H.
  destruct (set_then_get cfg Hlayout t c a e p n st st' Hok Hcnt Ht Hfresh Ha H)
    as (_ & k & Hk & Hfind & Hget & _).
  unfold storage_flight_plan_get_st. rewrite (bind_Some _ _ _ _ _ Hfind).
  destruct (Z.ltb_spec k 0); [lia|]. rewrite Hget.
  destruct (decide (length (cstring c) < 248)%nat); [lia | done].
Qed.

(** ** Flight-plan entries: unknown times, a full table, reading once *)

Section FlightPlanErrors.

Variable cfg : config.
Hypothesis Hlayout : fram_layout_ok cfg.
Hypothesis Hqueue : 0 <= dat_fpl_queue cfg < dat_status_last_address cfg.

Let MAX := SCH_FP_MAX_ENTRIES cfg.

Lemma find_index_tlb_miss t st :
  tlb_ok cfg st ->
  (forall j x, 0 <= j < MAX -> st_flightplan_tlb st !! Z.to_nat j = Some x ->
               tlb_unixtime x <> to_int32 t) ->
  storage_flightplan_find_index_tlb cfg t st = Some (-1, st).
Proof.
  intros (Hlen & _) Hmiss. pose proof Hlayout as (HM & _). fold MAX in Hlen, HM.
  unfold storage_flightplan_find_index_tlb, bind, gets.
  apply find_index_from_miss; [lia | lia |].
  intros j x Hj Hx. apply (Hmiss j x); [fold MAX; lia | done].
Qed.

Lemma get_args_miss t st :
  storage_flightplan_find_index_tlb cfg t st = Some (-1, st) ->
  storage_flight_plan_get_st cfg t PTR st = Some ((SCH_ST_ERROR, None), st) /\
  storage_flight_plan_get_args cfg t PTR PTR PTR PTR PTR st = Some ((SCH_ST_ERROR, None), st) /\
  storage_flight_plan_delete_row cfg t st = Some (SCH_ST_ERROR, st).
Proof.
  intros Hfind.
  assert (Hget : storage_flight_plan_get_st cfg t PTR st = Some ((SCH_ST_ERROR, None), st)).
  { unfold storage_flight_plan_get_st. by rewrite (bind_Some _ _ _ _ _ Hfind). }
  split; [done|]. split.
  - unfold storage_flight_plan_get_args. rewrite (bind_Some _ _ _ _ _ Hfind).
    cbn [is_null orb]. by rewrite (bind_Some _ _ _ _ _ Hget).
  - unfold storage_flight_plan_delete_row. by rewrite (bind_Some _ _ _ _ _ Hfind).
Qed.

Lemma dat_get_fp_miss t st :
  storage_flightplan_find_index_tlb cfg t st = Some (-1, st) ->
  dat_get_fp cfg t PTR PTR PTR PTR st = Some ((SCH_ST_ERROR, None), st) /\
  dat_del_fp cfg t st = Some (SCH_ST_ERROR, st).
Proof.
  intros Hfind. destruct (get_args_miss t st Hfind) as (_ & Hargs & Hdel).
  destruct (dat_get_system_var_total cfg Hlayout st _ Hqueue) as [q Hq].
  unfold dat_get_fp, dat_del_fp. rewrite !(bind_Some _ _ _ _ _ Hq).
  rewrite (bind_Some _ _ _ _ _ Hargs), (bind_Some _ _ _ _ _ Hdel). done.
Qed.

End FlightPlanErrors.

(** X15. Asking for a time that no entry has is an error that changes nothing:
    the reads return the error without a row, the delete returns the error,
    and so do [dat_get_fp] and [dat_del_fp]. *)
Theorem flight_plan_unknown_time_is_an_error cfg st t :
  fram_layout_ok cfg ->
  0 <= dat_fpl_queue cfg < dat_status_last_address cfg ->
  tlb_ok cfg st ->
  (forall j x, 0 <= j < SCH_FP_MAX_ENTRIES cfg ->
     st_flightplan_tlb st !! Z.to_nat j = Some x -> tlb_unixtime x <> to_int32 t) ->
  storage_flight_plan_get_st cfg t PTR st = Some ((SCH_ST_ERROR, None), st) /\
  storage_flight_plan_get_args cfg t PTR PTR PTR PTR PTR st = Some ((SCH_ST_ERROR, None), st) /\
  storage_flight_plan_delete_row cfg t st = Some (SCH_ST_ERROR, st) /\
  dat_get_fp cfg t PTR PTR PTR PTR st = Some ((SCH_ST_ERROR, None), st) /\
  dat_del_fp cfg t st = Some (SCH_ST_ERROR, st).
Proof.
  intros Hlayout Hqueue Hok Hmiss.
  pose proof (find_index_tlb_miss cfg Hlayout t st Hok Hmiss) as Hfind.
  destruct (get_args_miss cfg t st Hfind) as (H1 & H2 & H3).
  destruct (dat_get_fp_miss cfg Hlayout Hqueue t st Hfind) as (H4 & H5).
  done.
Qed.

(** X16. When every slot of the table holds an entry, an insertion that needs
    no rebuild is refused: [storage_flight_plan_set] and [dat_set_fp]
    return the error and leave the state, the queue counter included. *)
Theorem flight_plan_full_table_refuses cfg st t c a e p :
  fram_layout_ok cfg ->
  0 <= dat_fpl_queue cfg < dat_status_last_address cfg ->
  tlb_ok cfg st ->
  tlb_counter cfg st <= commands_per_section cfg ->
  (forall j x, 0 <= j < st_flightplan_entries st ->
     st_flightplan_tlb st !! Z.to_nat j = Some x -> tlb_unixtime x <> ST_FP_NULL) ->
  storage_flight_plan_set cfg t c a e p (SCH_COMM_NODE cfg) st = Some (SCH_ST_ERROR, st) /\
  dat_set_fp cfg t c a e p st = Some (SCH_ST_ERROR, st).
Proof.
  intros Hlayout Hqueue Hok Hcnt Hfull.
  pose proof Hok as (Hlen & Hent & Hty). pose proof Hlayout as (HM & _).
  assert (Hset : forall row, storage_flight_plan_set_st cfg row st = Some (SCH_ST_ERROR, st)).
  { intros row. unfold storage_flight_plan_set_st, bind at 1, gets.
    destruct row as [row|]; [|done]. destruct (storage_is_open st); [|done]. cbn [negb].
    destruct (lookup_lt_is_Some_2 (st_flightplan_tlb st)
                (Z.to_nat (SCH_FP_MAX_ENTRIES cfg)) ltac:(lia)) as [meta Hmeta].
    rewrite (bind_Some _ _ _ _ _ (tlb_load_eq _ st meta HM Hmeta)).
    rewrite (tlb_counter_eq cfg st meta Hmeta) in Hcnt.
    destruct (Z.gtb_spec (addr meta) (commands_per_section cfg)); [lia|].
    unfold bind at 1, ret at 1.
    destruct (find_index_from_total (st_flightplan_tlb st) (to_int32 ST_FP_NULL) 0
                (Z.to_nat (SCH_FP_MAX_ENTRIES cfg)) st) as [r Hr]; [lia | lia |].
    unfold storage_flightplan_find_index_tlb, bind at 1, gets. unfold bind at 1.
    rewrite Hr. unfold bind at 1, gets.
    apply find_index_from_inv in Hr as (_ & [-> | (Hrr & _ & x & Hx & Hxt)]); [done|].
    destruct (Z.eqb_spec r (-1)); [done|].
    destruct (Z.geb_spec r (st_flightplan_entries st)); [done|].
    exfalso. apply (Hfull r x); [lia | done | done]. }
  assert (Hst : storage_flight_plan_set cfg t c a e p (SCH_COMM_NODE cfg) st
                  = Some (SCH_ST_ERROR, st)).
  { unfold storage_flight_plan_set, bind, gets.
    destruct c; [|done]. destruct a; [|done]. destruct (_ || _); [done | apply Hset]. }
  split; [done|].
  destruct (dat_get_system_var_total cfg Hlayout st _ Hqueue) as [q Hq].
  unfold dat_set_fp. by rewrite (bind_Some _ _ _ _ _ Hq), (bind_Some _ _ _ _ _ Hst).
Qed.

Lemma find_index_tlb_same cfg t st s :
  st_flightplan_tlb s = st_flightplan_tlb st ->
  forall r, storage_flightplan_find_index_tlb cfg t st = Some (r, st) ->
            storage_flightplan_find_index_tlb cfg t s = Some (r, s).
Proof.
  intros Htlb r H. unfold storage_flightplan_find_index_tlb, bind, gets in *.
  rewrite Htlb.
  destruct (find_index_from _ _ _ _ st) as [[r' st0]|] eqn:E; [|done].
  pose proof (read_only_find_index_from _ _ _ _ _ _ _ E) as ->. injection H as ->.
  destruct (find_index_from _ _ _ _ s) as [[r' s0]|] eqn:E'.
  - pose proof (read_only_find_index_from _ _ _ _ _ _ _ E') as ->.
    revert E E'. generalize (Z.to_nat (SCH_FP_MAX_ENTRIES cfg)) as n. generalize 0 as i.
    intros i n. revert i. induction n as [|n IH]; intros i; simpl.
    + by intros [= <-] [= <-].
    + unfold bind, array_get. destruct (i <? 0); [done|].
      destruct (st_flightplan_tlb st !! Z.to_nat i) as [x|]; [|done]. unfold ret.
      destruct (tlb_unixtime x =? to_int32 t); [by intros [= <-] [= <-] | apply IH].
  - exfalso. revert E E'. generalize (Z.to_nat (SCH_FP_MAX_ENTRIES cfg)) as n.
    generalize 0 as i. intros i n. revert i. induction n as [|n IH]; intros i; simpl.
    + done.
    + unfold bind, array_get. destruct (i <? 0); [done|].
      destruct (st_flightplan_tlb st !! Z.to_nat i) as [x|]; [|done]. unfold ret.
      destruct (tlb_unixtime x =? to_int32 t); [done | apply IH].
Qed.

(** X17. An entry is handed out once: after [dat_set_fp] has stored an entry
    for a time that no other entry has, [dat_get_fp] for that time returns
    OK with the entry and removes it, a second [dat_get_fp] returns the
    error, and the queue counter is back at its value before the
    insertion. *)
Theorem flight_plan_entry_is_read_once cfg st t c a e p q st1 :
  fram_layout_ok cfg ->
  0 <= dat_fpl_queue cfg < dat_status_last_address cfg ->
  tlb_ok cfg st ->
  tlb_counter cfg st <= commands_per_section cfg ->
  t <= INT_MAX ->
  (forall j x, 0 <= j < SCH_FP_MAX_ENTRIES cfg ->
     st_flightplan_tlb st !! Z.to_nat j = Some x -> tlb_unixtime x <> t) ->
  (length (cstring c) < 248)%nat ->
  (length (cstring a) < 248)%nat ->
  dat_get_system_var cfg (dat_fpl_queue cfg) st = Some (q, st) ->
  dat_set_fp cfg t (Some c) (Some a) e p st = Some (SCH_ST_OK, st1) ->
  exists st2,
    dat_get_fp cfg t PTR PTR PTR PTR st1 =
      Some ((SCH_ST_OK,
             Some {| unixtime := t; executions := to_int32 e; periodical := to_int32 p;
                     node := to_int32 (SCH_COMM_NODE cfg);
                     cmd := strncpy 248 (cstring c);
                     args := strncpy 248 (cstring a) |}), st2) /\
    dat_get_fp cfg t PTR PTR PTR PTR st2 = Some ((SCH_ST_ERROR, None), st2) /\
    dat_get_system_var cfg (dat_fpl_queue cfg) st2 = Some (q, st2).
Proof.
  intros Hlayout Hqueue Hok Hcnt Ht Hfresh Hc Ha Hq Hset.
  pose proof Hlayout as (HM & _).
  pose proof (get_system_var_range cfg _ _ _ _ Hq) as Hqr.
  (* the insertion *)
  unfold dat_set_fp in Hset. rewrite (bind_Some _ _ _ _ _ Hq) in Hset.
  apply bind_inv in Hset as (rc & s1 & Hst & Hset).
  destruct (Z.eqb_spec rc SCH_ST_OK) as [->|Hne]; [|by injection Hset as -> _].
  apply bind_inv in Hset as (q1 & s0 & Hadd & Hset).
  apply int_add_inv in Hadd as (-> & -> & Hq1).
  apply bind_inv in Hset as (rc2 & s2 & Hvar & Hset). injection Hset as ->.
  apply (set_system_var_effect cfg Hlayout) in Hvar as [Heng Hq1get]; [|done..].
  destruct (set_then_get cfg Hlayout t c a e p (SCH_COMM_NODE cfg) st s1 Hok Hcnt Ht Hfresh Ha Hst)
    as (Ht0 & k & Hk & Hfind & Hget & Hok1 & Hent1 & Hothers).
  apply engine_inv in Heng as (Hent' & Htlb' & Hflash').
  assert (Hokst1 : tlb_ok cfg st1).
  { destruct Hok1 as (? & ? & ?). repeat split; congruence. }
  assert (Hfind1 := find_index_tlb_same cfg t s1 st1 Htlb' k Hfind).
  assert (Hsame : same_slot k s1 st1) by (repeat split; congruence).
  destruct (respects_get_idx cfg k PTR s1 st1 _ _ Hsame Hget) as [_ Hget1].
  assert (Hkent : 0 <= k < st_flightplan_entries st1).
  { unfold storage_flight_plan_get_idx, bind at 1, gets in Hget1.
    destruct (Z.geb_spec k (st_flightplan_entries st1)); [done | lia]. }
  destruct (delete_row_idx_facts cfg Hlayout st1 k Hokst1 Hkent)
    as (s3 & Hdel & Hok3 & Hent3 & Hflash3 & Htlb3).
  assert (Hfr : frame cfg st1 s3) by (by eapply frame_delete_row_idx).
  destruct (Hfr Hokst1) as (_ & _ & Hfram3).
  destruct (dat_set_status_var_eq cfg Hlayout (dat_fpl_queue cfg) (value32_of_int q) s3 Hqueue)
    as (st2 & Hvar2 & Heng2 & _ & _).
  apply engine_inv in Heng2 as (Hent2 & Htlb2 & Hflash2).
  assert (Hq2 : dat_get_system_var cfg (dat_fpl_queue cfg) st2 = Some (q, st2)).
  { apply (dat_set_get_system_var cfg Hlayout _ _ s3 st2 SCH_ST_OK); done. }
  exists st2. split; [|split; [|done]].
  - unfold dat_get_fp. rewrite (bind_Some _ _ _ _ _ Hq1get).
    assert (Hargs : storage_flight_plan_get_args cfg t PTR PTR PTR PTR PTR st1 =
              Some ((SCH_ST_OK,
                     Some {| unixtime := t; executions := to_int32 e;
                             periodical := to_int32 p;
                             node := to_int32 (SCH_COMM_NODE cfg);
                             cmd := strncpy 248 (cstring c);
                             args := strncpy 248 (cstring a) |}), st1)).
    { unfold storage_flight_plan_get_args. rewrite (bind_Some _ _ _ _ _ Hfind1).
      cbn [is_null orb].
      assert (Hgetst : storage_flight_plan_get_st cfg t PTR st1 =
                storage_flight_plan_get_idx cfg k PTR st1).
      { unfold storage_flight_plan_get_st. rewrite (bind_Some _ _ _ _ _ Hfind1).
        by destruct (Z.ltb_spec k 0); [lia|]. }
      rewrite Hget1 in Hgetst. rewrite (bind_Some _ _ _ _ _ Hgetst).
      change (negb (SCH_ST_OK =? SCH_ST_OK)) with false. cbv iota.
      unfold bind, deref, ret. cbn [unixtime executions periodical node cmd args].
      destruct (decide (length (cstring c) < 248)%nat); [done | lia]. }
    rewrite (bind_Some _ _ _ _ _ Hargs).
    change (SCH_ST_OK =? SCH_ST_OK) with true. cbv iota.
    assert (Hdelrow : storage_flight_plan_delete_row cfg t st1 = Some (SCH_ST_OK, s3)).
    { unfold storage_flight_plan_delete_row. rewrite (bind_Some _ _ _ _ _ Hfind1).
      by destruct (Z.ltb_spec k 0); [lia|]. }
    rewrite (bind_Some _ _ _ _ _ Hdelrow).
    change (SCH_ST_OK =? SCH_ST_OK) with true. cbv iota.
    rewrite (bind_Some _ _ _ _ _ (int_add_eq (q + 1) (-1) s3 ltac:(lia))).
    replace (q + 1 + -1) with q by lia. unfold dat_set_system_var.
    by rewrite (bind_Some _ _ _ _ _ Hvar2).
  - apply (dat_get_fp_miss cfg Hlayout Hqueue).
    apply (find_index_tlb_miss cfg Hlayout).
    { destruct Hok3 as (? & ? & ?). repeat split; congruence. }
    intros j x Hj Hx. rewrite Htlb2, Htlb3 in Hx.
    assert (Htt : to_int32 t = t) by (apply to_int32_id; unfold INT_MIN; lia).
    rewrite Htt. destruct (decide (j = k)) as [->|Hjk].
    + rewrite list_lookup_insert_eq in Hx by (destruct Hokst1 as (? & _); lia).
      injection Hx as <-. cbn. unfold ST_FP_NULL. lia.
    + rewrite list_lookup_insert_ne in Hx by lia. rewrite Htlb' in Hx.
      rewrite Hothers in Hx by lia. by apply (Hfresh j x).
Qed.

(** ** The TLB and its backup in the FRAM *)

#[global] Instance keeps_times_preorder : PreOrder keeps_times.
Proof. split; [intros st H; exact H | intros s1 s2 s3 H12 H23 H; exact (H23 (H12 H))]. Qed.

#[global] Instance keeps_backup_preorder cfg : PreOrder (keeps_backup cfg).
Proof. split; [intros st H; exact H | intros s1 s2 s3 H12 H23 H; exact (H23 (H12 H))]. Qed.

Create HintDb times.

Lemma times_storage_write_flash cfg p a data len :
  preserves keeps_times (storage_write_flash cfg p a data len).
Proof. intros st rc st' H. apply storage_write_flash_inv in H as (_ & src & ->). by intros Ht. Qed.

Lemma times_storage_erase_flash cfg p a :
  preserves keeps_times (storage_erase_flash cfg p a).
Proof. intros st rc st' H. apply storage_erase_flash_inv in H as (_ & f & a' & ->). by intros Ht. Qed.

Lemma times_storage_write_fram cfg a data len :
  preserves keeps_times (storage_write_fram cfg a data len).
Proof. intros st rc st' H. apply storage_write_fram_inv in H as (_ & src & -> & _). by intros Ht. Qed.

Lemma times_tlb_store i f :
  (forall e, time_ok e -> time_ok (f e)) -> preserves keeps_times (tlb_store i f).
Proof.
  intros Hf st u st' H Ht. apply tlb_store_inv in H as (e & _ & He & ->).
  cbn [st_flightplan_tlb set_tlb]. apply Forall_insert; [done|].
  apply Hf. by eapply Forall_lookup_1.
Qed.

Lemma time_ok_to_int32 a t : time_ok {| addr := a; tlb_unixtime := to_int32 t |}.
Proof.
  unfold time_ok, to_int32, INT_MIN, INT_MAX. cbn [tlb_unixtime].
  change (2 ^ 31) with 2147483648. change (2 ^ 32) with 4294967296.
  Z.div_mod_to_equations. lia.
Qed.

Lemma time_ok_const a t :
  INT_MIN <= t <= INT_MAX -> time_ok {| addr := a; tlb_unixtime := t |}.
Proof. done. Qed.

#[global] Hint Resolve times_storage_write_flash times_storage_erase_flash
  times_storage_write_fram : times.

Ltac times_step :=
  lazymatch goal with
  | |- preserves _ (modify (log_event _)) => apply preserves_modify; by intros ? ?
  | |- preserves _ (tlb_store _ _) =>
      apply times_tlb_store; intros ? ?;
      first [ apply time_ok_to_int32 | done | by apply time_ok_const ]
  | |- _ => pres_step
  end.

Ltac times_auto :=
  repeat first [ times_step
               | solve [eauto with times]
               | solve [apply preserves_read_only; eauto with read_only] ].

Lemma times_dump_tlb cfg i : preserves keeps_times (storage_flightplan_dump_tlb cfg i).
Proof. unfold storage_flightplan_dump_tlb. times_auto. Qed.

#[global] Hint Resolve times_dump_tlb : times.

Lemma times_update_tlb cfg i t a :
  preserves keeps_times (storage_flightplan_update_tlb cfg i t a).
Proof. unfold storage_flightplan_update_tlb. times_auto. Qed.

#[global] Hint Resolve times_update_tlb : times.

Lemma times_erase_index_tlb cfg i :
  preserves keeps_times (flight_plan_erase_index_tlb cfg i).
Proof. unfold flight_plan_erase_index_tlb. times_auto. Qed.

Lemma times_rebuild_entry cfg buf i rc : preserves keeps_times (rebuild_entry cfg buf i rc).
Proof. unfold rebuild_entry. times_auto. Qed.

#[global] Hint Resolve times_erase_index_tlb times_rebuild_entry : times.

Lemma times_rebuild cfg : preserves keeps_times (flight_plan_rebuild_tlb cfg).
Proof. unfold flight_plan_rebuild_tlb. times_auto. Qed.

#[global] Hint Resolve times_rebuild : times.

Lemma decode_encode_fp_addr e : addr_ok e -> time_ok e -> decode_fp_addr (encode_fp_addr e) = e.
Proof.
  intros Ha Ht. destruct e as [a t]. unfold decode_fp_addr, encode_fp_addr, addr_ok, time_ok in *.
  cbn [addr tlb_unixtime] in *.
  assert (H1 : forall v rest, take 4 (encode32 v ++ rest) = encode32 v)
    by (intros; reflexivity).
  assert (H2 : forall v w, take 4 (drop 4 (encode32 v ++ encode32 w)) = encode32 w)
    by (intros; reflexivity).
  rewrite H1, H2, !decode_encode32, to_int32_to_uint32.
  by rewrite to_uint32_id, to_int32_id.
Qed.

Lemma tlb_bytes_length tlb : length (tlb_bytes tlb) = (8 * length tlb)%nat.
Proof.
  unfold tlb_bytes. induction tlb as [|e tlb IH]; [done|].
  cbn [map concat length]. rewrite length_app, IH, encode_fp_addr_length. lia.
Qed.

Lemma tlb_bytes_slot tlb j e :
  tlb !! j = Some e -> take 8 (drop (8 * j) (tlb_bytes tlb)) = encode_fp_addr e.
Proof.
  unfold tlb_bytes. revert j. induction tlb as [|x tlb IH]; intros j Hj; [done|].
  cbn [map concat]. destruct j as [|j].
  - injection Hj as ->. rewrite drop_0, take_app_length'; [done|].
    by rewrite encode_fp_addr_length.
  - replace (8 * S j)%nat with (8 + 8 * j)%nat by lia.
    rewrite <- drop_drop, drop_app_length' by (by rewrite encode_fp_addr_length).
    by apply IH.
Qed.

Lemma mem_read_write_inside m a bs off len :
  (off + len <= length bs)%nat ->
  mem_read (mem_write m a bs) (a + Z.of_nat off) len = take len (drop off bs).
Proof.
  intros H. rewrite <- (mem_read_write_same m a bs) at 2.
  by rewrite mem_read_slice.
Qed.

Section Backup.

Variable cfg : config.
Hypothesis Hlayout : fram_layout_ok cfg.

Let MAX := SCH_FP_MAX_ENTRIES cfg.

Lemma synced_set_flash f e st j : synced_at cfg st j -> synced_at cfg (set_flash f e st) j.
Proof. done. Qed.

Lemma store_sync i f st u st' :
  tlb_store i f st = Some (u, st') ->
  forall j, j <> Z.to_nat i -> synced_at cfg st j -> synced_at cfg st' j.
Proof.
  intros H j Hj Hs e He. apply tlb_store_inv in H as (x & _ & Hx & ->).
  cbn [st_flightplan_tlb set_tlb fram] in *.
  rewrite list_lookup_insert_ne in He by done. by apply Hs.
Qed.

Lemma dump_slot_sync i st rc st' :
  tlb_ok cfg st -> 0 <= i ->
  storage_flightplan_dump_tlb cfg i st = Some (rc, st') ->
  rc = SCH_ST_OK /\ tlb_ok cfg st' /\
  synced_at cfg st' (Z.to_nat i) /\
  forall j, synced_at cfg st j -> synced_at cfg st' j.
Proof.
  intros Hok Hi H. pose proof H as Hfr. apply (frame_dump_tlb cfg Hlayout) in Hfr.
  destruct (Hfr Hok) as (Hok' & _).
  apply (dump_tlb_slot_inv cfg Hlayout) in H as (-> & Hmax & e & He & ->); [|done..].
  split; [done|]. split; [done|]. split.
  - intros x Hx. cbn [st_flightplan_tlb set_fram fram] in *.
    rewrite He in Hx. injection Hx as <-. rewrite Z2Nat.id by done.
    apply (mem_read_write_same _ _ (encode_fp_addr e)).
  - intros j Hs x Hx. cbn [st_flightplan_tlb set_fram fram] in *.
    destruct (decide (j = Z.to_nat i)) as [->|Hne].
    + rewrite He in Hx. injection Hx as <-. rewrite Z2Nat.id by done.
      apply (mem_read_write_same _ _ (encode_fp_addr e)).
    + rewrite mem_read_write_disjoint; [by apply Hs|].
      rewrite encode_fp_addr_length. unfold sizeof_fp_addr_t. lia.
Qed.

Lemma dump_all_sync st rc st' :
  tlb_ok cfg st ->
  storage_flightplan_dump_tlb cfg (-1) st = Some (rc, st') ->
  rc = SCH_ST_OK /\ tlb_ok cfg st' /\
  st_flightplan_tlb st' = st_flightplan_tlb st /\
  forall j, synced_at cfg st' j.
Proof.
  intros Hok H. pose proof Hok as (Hlen & _). fold MAX in Hlen.
  pose proof H as Hfr. apply (frame_dump_tlb cfg Hlayout) in Hfr.
  destruct (Hfr Hok) as (Hok' & _).
  unfold storage_flightplan_dump_tlb, bind at 1, gets in H.
  change (-1 <? 0) with true in H. cbv iota in H.
  unfold storage_write_fram in H.
  apply bind_inv in H as (src & st0 & Hsrc & H).
  apply buffer_slice_inv in Hsrc as (-> & Hsrc & _ & _ & _ & _).
  rewrite drop_0, take_ge in Hsrc
    by (rewrite tlb_bytes_length; unfold sizeof_tlb, sizeof_fp_addr_t; fold MAX; lia).
  subst src. unfold bind, gets, modify, ret in H.
  destruct (in_bounds _ _ _); [|done]. injection H as <- <-.
  split; [done|]. split; [done|]. split; [done|].
  intros j e He. cbn [st_flightplan_tlb set_fram fram] in *.
  rewrite (to_uint32_id (tlb_addr_start cfg)) by apply to_uint32_range.
  apply lookup_lt_Some in He as Hlt.
  replace (Z.of_nat j * sizeof_fp_addr_t) with (Z.of_nat (8 * j))
    by (unfold sizeof_fp_addr_t; lia).
  rewrite mem_read_write_inside by (rewrite tlb_bytes_length; lia).
  by apply tlb_bytes_slot.
Qed.

Lemma backup_update_tlb i t a :
  preserves (keeps_backup cfg) (storage_flightplan_update_tlb cfg i t a).
Proof.
  intros st rc st' H (Hok & Htimes & Hsync).
  assert (Htimes' : Forall time_ok (st_flightplan_tlb st'))
    by (by apply (times_update_tlb cfg i t a st rc st')).
  unfold storage_flightplan_update_tlb in H.
  apply bind_inv in H as ([] & st1 & H1 & H).
  assert (Hok1 : tlb_ok cfg st1).
  { eapply (frame_tlb_store cfg i); [|exact H1|done]. intros ? ?. by apply addr_ok_set_unixtime. }
  pose proof (store_sync _ _ _ _ _ H1) as Hs1.
  pose proof H1 as Hi. apply tlb_store_inv in Hi as (_ & Hi & _).
  apply bind_inv in H as ([] & st2 & H2 & H).
  assert (Hok2 : tlb_ok cfg st2).
  { eapply (frame_tlb_store cfg i); [|exact H2|done]. intros ? ?. apply addr_ok_set_addr. }
  pose proof (store_sync _ _ _ _ _ H2) as Hs2.
  apply bind_inv in H as ([] & st3 & H3 & H).
  assert (Hok3 : tlb_ok cfg st3).
  { eapply (frame_tlb_store cfg MAX); [|exact H3|done]. intros ? ?. apply addr_ok_set_addr. }
  pose proof (store_sync _ _ _ _ _ H3) as Hs3.
  pose proof Hlayout as (HM & _). fold MAX in HM.
  apply bind_inv in H as (rc1 & st4 & H4 & H).
  apply dump_slot_sync in H4 as (-> & Hok4 & Hat4 & Hkeep4); [|done..].
  change (SCH_ST_OK =? SCH_ST_OK) with true in H. cbv iota in H.
  apply dump_slot_sync in H as (-> & Hok5 & Hat5 & Hkeep5); [|done..].
  split; [done|]. split; [done|]. intros j.
  destruct (decide (j = Z.to_nat MAX)) as [->|HjM]; [done|].
  apply Hkeep5. destruct (decide (j = Z.to_nat i)) as [->|Hji]; [done|].
  apply Hkeep4, Hs3, Hs2, Hs1; done.
Qed.

Lemma backup_erase_index_tlb i :
  preserves (keeps_backup cfg) (flight_plan_erase_index_tlb cfg i).
Proof.
  intros st rc st' H (Hok & Htimes & Hsync).
  assert (Htimes' : Forall time_ok (st_flightplan_tlb st'))
    by (by apply (times_erase_index_tlb cfg i st rc st')).
  unfold flight_plan_erase_index_tlb, bind at 1, gets in H.
  destruct (Z.ltb_spec i 0); [by injection H as <- <-|].
  destruct (i >=? _); [by injection H as <- <-|]. cbn [orb] in H.
  apply bind_inv in H as ([] & st1 & H1 & H).
  assert (Hok1 : tlb_ok cfg st1).
  { eapply (frame_tlb_store cfg i); [|exact H1|done]. intros ? ?. by apply addr_ok_set_unixtime. }
  pose proof (store_sync _ _ _ _ _ H1) as Hs1.
  apply bind_inv in H as ([] & st2 & H2 & H).
  assert (Hok2 : tlb_ok cfg st2).
  { eapply (frame_tlb_store cfg i); [|exact H2|done]. intros ? ?. apply addr_ok_set_addr. }
  pose proof (store_sync _ _ _ _ _ H2) as Hs2.
  apply dump_slot_sync in H as (-> & Hok3 & Hat3 & Hkeep3); [|done..].
  split; [done|]. split; [done|]. intros j.
  destruct (decide (j = Z.to_nat i)) as [->|Hji]; [done|].
  apply Hkeep3, Hs2, Hs1; done.
Qed.

Lemma backup_storage_write_flash p a data len :
  preserves (keeps_backup cfg) (storage_write_flash cfg p a data len).
Proof. intros st rc st' H. apply storage_write_flash_inv in H as (_ & src & ->). by intros Ht. Qed.

Lemma to_backup_bind {A B} (m : M A) (k : A -> M B) :
  preserves (frame cfg) m -> preserves keeps_times m ->
  (forall a, preserves (to_backup cfg) (k a)) ->
  preserves (to_backup cfg) (bind m k).
Proof.
  intros Hf Ht Hk st b st'' H Hok Htimes.
  apply bind_inv in H as (a & st' & H1 & H2).
  destruct (Hf _ _ _ H1 Hok) as (Hok' & _).
  apply (Hk a st' b st'' H2 Hok'). by apply (Ht _ _ _ H1).
Qed.

Lemma to_backup_dump_all (k : Z -> Z) :
  preserves (to_backup cfg) (do rc3 <- storage_flightplan_dump_tlb cfg (-1); ret (k rc3)).
Proof.
  intros st b st' H Hok Htimes.
  apply bind_inv in H as (rc3 & st1 & Hd & H). injection H as <- <-.
  apply dump_all_sync in Hd as (_ & Hok1 & Htlb & Hsync); [|done].
  split; [done|]. split; [by rewrite Htlb | done].
Qed.

Lemma to_backup_keeps {A} (m : M A) :
  preserves (to_backup cfg) m -> preserves (keeps_backup cfg) m.
Proof. intros Hm st a st' H (Hok & Htimes & _). by apply (Hm st a st' H). Qed.

End Backup.

Ltac to_backup_auto :=
  repeat first
    [ apply to_backup_dump_all; assumption
    | apply to_backup_bind; [solve [frame_auto] | solve [times_auto] | intros ?]
    | lazymatch goal with
      | |- preserves _ (match ?x with _ => _ end) => destruct x
      | |- preserves _ (let _ := _ in _) => cbv zeta
      end ].

Section BackupOps.

Variable cfg : config.
Hypothesis Hlayout : fram_layout_ok cfg.

(** A rebuild ends with a dump of the whole TLB. *)
Lemma backup_rebuild : preserves (keeps_backup cfg) (flight_plan_rebuild_tlb cfg).
Proof.
  apply to_backup_keeps. unfold flight_plan_rebuild_tlb.
  to_backup_auto.
Qed.

Lemma times_set_tlb_null st :
  keeps_times st (set_tlb (replicate (length (st_flightplan_tlb st)) tlb_null) st).
Proof. intros _. cbn [st_flightplan_tlb set_tlb]. by apply Forall_replicate. Qed.

(** So does a reset. *)
Lemma backup_reset : preserves (keeps_backup cfg) (storage_flight_plan_reset cfg).
Proof.
  intros st rc st' H Hb. pose proof Hb as (Hok & Htimes & _).
  unfold storage_flight_plan_reset, bind at 1, gets in H. unfold bind at 1, gets in H.
  destruct (negb _ || negb _); [by injection H as <- <-|].
  apply bind_inv in H as (rc0 & st1 & Hloop & H).
  assert (Hfr1 : preserves (frame cfg)
            (for_range 0 (Z.to_nat (st_flightplan_sections cfg)) (reset_section cfg) SCH_ST_OK))
    by frame_auto.
  assert (Ht1 : preserves keeps_times
            (for_range 0 (Z.to_nat (st_flightplan_sections cfg)) (reset_section cfg) SCH_ST_OK))
    by (unfold reset_section; times_auto).
  destruct (Hfr1 _ _ _ Hloop Hok) as (Hok1 & _).
  pose proof (Ht1 _ _ _ Hloop Htimes) as Htimes1.
  unfold bind at 1, gets in H. unfold bind at 1, modify in H.
  revert H.
  match goal with
  | |- ?m ?s = _ -> _ =>
      assert (Hm : preserves (to_backup cfg) m) by (to_backup_auto); intros H
  end.
  apply (Hm _ _ _ H).
  - destruct Hok1 as (Hlen & Hent & _).
    repeat split; cbn [st_flightplan_tlb st_flightplan_entries set_tlb];
      [by rewrite length_replicate | done | apply Forall_replicate, addr_ok_tlb_null].
  - by apply times_set_tlb_null.
Qed.

Lemma backup_set_st row : preserves (keeps_backup cfg) (storage_flight_plan_set_st cfg row).
Proof.
  unfold storage_flight_plan_set_st.
  repeat first
    [ apply backup_update_tlb; done
    | apply backup_rebuild
    | apply backup_storage_write_flash
    | pres_step
    | solve [apply preserves_read_only; eauto with read_only] ].
Qed.

Lemma backup_run_op op : preserves (keeps_backup cfg) (run_op cfg op).
Proof.
  destruct op; simpl.
  - apply backup_set_st.
  - unfold storage_flight_plan_set.
    repeat first [ pres_step | apply backup_set_st
                 | solve [apply preserves_read_only; eauto with read_only] ].
  - apply preserves_read_only. read_only_auto.
  - apply preserves_read_only. read_only_auto.
  - apply preserves_read_only. read_only_auto.
  - unfold storage_flight_plan_delete_row, storage_flight_plan_delete_row_idx.
    repeat first [ pres_step | apply backup_erase_index_tlb; done
                 | solve [apply preserves_read_only; eauto with read_only] ].
  - unfold storage_flight_plan_delete_row_idx.
    repeat first [ pres_step | apply backup_erase_index_tlb; done
                 | solve [apply preserves_read_only; eauto with read_only] ].
Qed.

Lemma backup_run_ops ops : preserves (keeps_backup cfg) (run_ops cfg ops).
Proof.
  induction ops as [|op ops IH]; simpl.
  - apply preserves_read_only, read_only_ret.
  - repeat first [ pres_step | apply backup_run_op | apply IH
                 | solve [apply preserves_read_only; eauto with read_only] ].
Qed.

End BackupOps.

(** ** The backup under the facade of repoData.c *)

Section BackupFacade.

Variable cfg : config.
Hypothesis Hlayout : fram_layout_ok cfg.

Let N := dat_status_last_address cfg.

(** A status variable is written below the TLB backup. *)
Lemma backup_dat_set_system_var i x :
  0 <= i < N -> preserves (keeps_backup cfg) (dat_set_system_var cfg i x).
Proof.
  intros Hi st rc st' H (Hok & Htimes & Hsync).
  destruct (dat_set_status_var_eq cfg Hlayout i (value32_of_int x) st Hi)
    as (s & Hset & Heng & Hfram & _).
  unfold dat_set_system_var in H. rewrite Hset in H. injection H as _ <-.
  apply engine_inv in Heng as (Hent & Htlb & _).
  split; [|split].
  - destruct Hok as (? & ? & ?). repeat split; congruence.
  - by rewrite Htlb.
  - intros j e He. rewrite Htlb in He. rewrite <- (Hsync j e He).
    apply mem_read_ext. intros y Hy. apply Hfram.
    rewrite (tlb_addr_start_eq cfg Hlayout) in Hy. unfold sizeof_fp_addr_t in Hy. lia.
Qed.

Hypothesis Hqueue : 0 <= dat_fpl_queue cfg < N.

Ltac backup_auto :=
  repeat first
    [ apply backup_dat_set_system_var; done
    | apply backup_set_st; done
    | apply backup_reset; done
    | apply backup_erase_index_tlb; done
    | pres_step
    | solve [apply preserves_read_only; eauto with read_only] ].

Lemma backup_dat_set_fp t c a e p : preserves (keeps_backup cfg) (dat_set_fp cfg t c a e p).
Proof. unfold dat_set_fp, storage_flight_plan_set. backup_auto. Qed.

Lemma backup_delete_row t : preserves (keeps_backup cfg) (storage_flight_plan_delete_row cfg t).
Proof.
  unfold storage_flight_plan_delete_row, storage_flight_plan_delete_row_idx. backup_auto.
Qed.

Lemma backup_dat_get_fp t p1 p2 p3 p4 :
  preserves (keeps_backup cfg) (dat_get_fp cfg t p1 p2 p3 p4).
Proof.
  unfold dat_get_fp.
  repeat first [ apply backup_delete_row | backup_auto ].
Qed.

Lemma backup_dat_del_fp t : preserves (keeps_backup cfg) (dat_del_fp cfg t).
Proof. unfold dat_del_fp. repeat first [ apply backup_delete_row | backup_auto ]. Qed.

Lemma backup_dat_reset_fp : preserves (keeps_backup cfg) (dat_reset_fp cfg).
Proof. unfold dat_reset_fp. backup_auto. Qed.

Lemma backup_dat_purge_fp now fp_i : preserves (keeps_backup cfg) (dat_purge_fp cfg now fp_i).
Proof.
  unfold dat_purge_fp, purge_entry, storage_flight_plan_delete_row_idx. backup_auto.
Qed.

End BackupFacade.

(** X18. The FRAM backup follows the TLB: after each of the flight-plan
    functions of the facade, and after any sequence of flight-plan
    operations of the storage, the FRAM holds every slot of the TLB as the
    TLB has it. *)
Theorem flight_plan_backup_is_kept cfg st :
  fram_layout_ok cfg ->
  0 <= dat_fpl_queue cfg < dat_status_last_address cfg ->
  backup_ok cfg st ->
  (forall t c a e p rc st',
     dat_set_fp cfg t c a e p st = Some (rc, st') -> backup_ok cfg st') /\
  (forall t p1 p2 p3 p4 r st',
     dat_get_fp cfg t p1 p2 p3 p4 st = Some (r, st') -> backup_ok cfg st') /\
  (forall t rc st', dat_del_fp cfg t st = Some (rc, st') -> backup_ok cfg st') /\
  (forall rc st', dat_reset_fp cfg st = Some (rc, st') -> backup_ok cfg st') /\
  (forall now fp_i rc st',
     dat_purge_fp cfg now fp_i st = Some (rc, st') -> backup_ok cfg st') /\
  (forall ops rcs st', run_ops cfg ops st = Some (rcs, st') -> backup_ok cfg st').
Proof.
  intros Hlayout Hqueue Hb.
  refine (conj _ (conj _ (conj _ (conj _ (conj _ _))))).
  - intros t c a e p rc st' H. by apply (backup_dat_set_fp cfg Hlayout Hqueue _ _ _ _ _ _ _ _ H).
  - intros t p1 p2 p3 p4 r st' H.
    by apply (backup_dat_get_fp cfg Hlayout Hqueue _ _ _ _ _ _ _ _ H).
  - intros t rc st' H. by apply (backup_dat_del_fp cfg Hlayout Hqueue _ _ _ _ H).
  - intros rc st' H. by apply (backup_dat_reset_fp cfg Hlayout Hqueue _ _ _ H).
  - intros now fp_i rc st' H. by apply (backup_dat_purge_fp cfg Hlayout Hqueue _ _ _ _ _ H).
  - intros ops rcs st' H. by apply (backup_run_ops cfg Hlayout _ _ _ _ H).
Qed.

(** ** Restart *)

Lemma respects_read_fram cfg a len :
  respects (fun st s => fram s = fram st) (storage_read_fram cfg a len).
Proof.
  intros st s r st' Hfram H.
  unfold storage_read_fram, bind, gets, ret in *. rewrite Hfram.
  destruct (in_bounds _ _ _); [|done]. by injection H as <- <-.
Qed.

(** A status variable is read from the FRAM alone. *)
Lemma respects_dat_get_status_var cfg i :
  respects (fun st s => fram s = fram st) (dat_get_status_var cfg i).
Proof.
  unfold dat_get_status_var, storage_status_get_value_idx.
  repeat first [ apply respects_read_fram | respects_step ].
Qed.

Lemma load_tlb_of_backup cfg st s :
  fram_layout_ok cfg -> backup_ok cfg st -> fram s = fram st ->
  storage_flightplan_load_tlb cfg s = Some (SCH_ST_OK, set_tlb (st_flightplan_tlb st) s).
Proof.
  intros Hlayout (Hok & Htimes & Hsync) Hfram. pose proof Hok as (Hlen & _ & Haddr).
  pose proof Hlayout as (HM & _).
  rewrite load_tlb_eq by done. do 3 f_equal. rewrite Hfram.
  apply list_eq. intros j.
  destruct (decide (j < Z.to_nat (SCH_FP_MAX_ENTRIES cfg + 1))%nat) as [Hj|Hj].
  - rewrite decode_tlb_lookup by done.
    destruct (lookup_lt_is_Some_2 (st_flightplan_tlb st) j ltac:(lia)) as [e He].
    rewrite He. f_equal.
    rewrite mem_read_slice by (unfold sizeof_tlb, sizeof_fp_addr_t; lia).
    replace (Z.of_nat (8 * j)) with (Z.of_nat j * sizeof_fp_addr_t)
      by (unfold sizeof_fp_addr_t; lia).
    rewrite (Hsync j e He). apply decode_encode_fp_addr.
    + by apply (Forall_lookup_1 _ _ _ _ Haddr He).
    + by apply (Forall_lookup_1 _ _ _ _ Htimes He).
  - rewrite !lookup_ge_None_2; [done | lia | rewrite decode_tlb_length; lia].
Qed.

(** X19. The flight plan survives a restart: closing the repository and
    initialising it again reloads the TLB from its FRAM backup as it was,
    with the flash and the status variables untouched, so that every entry
    is read by its time as before. *)
Theorem flight_plan_survives_restart cfg last_sensor st :
  fram_layout_ok cfg ->
  backup_ok cfg st ->
  exists st',
    (run dat_repo_close; dat_repo_init cfg last_sensor) st = Some (tt, st') /\
    storage_is_open st' = true /\
    st_flightplan_entries st' = SCH_FP_MAX_ENTRIES cfg /\
    st_flightplan_tlb st' = st_flightplan_tlb st /\
    flash st' = flash st /\ fram st' = fram st /\
    backup_ok cfg st' /\
    (st_flightplan_entries st = SCH_FP_MAX_ENTRIES cfg ->
     forall t r, storage_flight_plan_get_st cfg t PTR st = Some (r, st) ->
                 storage_flight_plan_get_st cfg t PTR st' = Some (r, st')) /\
    (forall i v, dat_get_status_var cfg i st = Some (v, st) ->
                 dat_get_status_var cfg i st' = Some (v, st')).
Proof.
  intros Hlayout Hb. pose proof Hb as (Hok & Htimes & Hsync).
  pose proof Hok as (Hlen & Hent & Haddr). pose proof Hlayout as (HM & _).
  assert (Hload : forall s, fram s = fram st ->
            storage_flightplan_load_tlb cfg s = Some (SCH_ST_OK, set_tlb (st_flightplan_tlb st) s))
    by (intros s Hs; by apply load_tlb_of_backup).
  unfold dat_repo_close, dat_repo_init, storage_close, storage_init,
    storage_table_status_init, storage_table_payload_init, storage_table_flight_plan_init.
  unfold bind, modify, gets, ret. cbn. rewrite Hload by reflexivity.
  eexists. split; [reflexivity|]. cbn.
  repeat (split; [reflexivity|]).
  split; [|split].
  - split; [|split]; [|done|intros j; exact (Hsync j)].
    split; [done|]. split; [cbn; lia | done].
  - intros Hmax t r H. unfold storage_flight_plan_get_st in *.
    apply bind_inv in H as (k & s & Hfind & H).
    pose proof (read_only_find_index_tlb _ _ _ _ _ Hfind) as ->.
    erewrite bind_Some; [|by apply (find_index_tlb_same cfg t st); [reflexivity | exact Hfind]].
    destruct (k <? 0); [by injection H as <-|].
    eapply respects_get_idx; [|exact H]. by repeat split.
  - intros i v H. eapply respects_dat_get_status_var; [|exact H]. reflexivity.
Qed.

(** ** Erasing the payloads, and [dat_delete_memory_sections] *)

#[global] Instance flash_only_preorder : PreOrder flash_only.
Proof.
  split; [by intros st|].
  intros s1 s2 s3 (H1 & H2 & H3) (H4 & H5 & H6). repeat split; congruence.
Qed.

Lemma flash_only_erase cfg p a : preserves flash_only (storage_erase_flash cfg p a).
Proof. intros st rc st' H. by apply storage_erase_flash_inv in H as (_ & f & a' & ->). Qed.

Lemma flash_only_payload_reset cfg : preserves flash_only (storage_payload_reset cfg).
Proof.
  unfold storage_payload_reset, storage_payload_reset_table, reset_table_section.
  repeat first [ apply flash_only_erase | pres_step
               | solve [apply preserves_read_only; eauto with read_only] ].
Qed.

Section MemorySections.

Variable cfg : config.
Variable data_map : list data_map_t.
Variable last_sensor : Z.
Hypothesis Hlayout : fram_layout_ok cfg.

Let N := dat_status_last_address cfg.

(** What a write of variable [i] does to the value read for variable [j]. *)
Lemma system_var_after_write i j x q st :
  0 <= i < N -> 0 <= j < N -> INT_MIN <= x <= INT_MAX ->
  dat_get_system_var cfg j st = Some (q, st) ->
  exists st',
    dat_set_system_var cfg i x st = Some (SCH_ST_OK, st') /\
    engine st' = engine st /\
    dat_get_system_var cfg j st' = Some (if j =? i then x else q, st').
Proof.
  intros Hi Hj Hx Hq.
  destruct (dat_set_status_var_eq cfg Hlayout i (value32_of_int x) st Hi)
    as (st' & Hset & Heng & _ & Hw).
  exists st'. split; [exact Hset|]. split; [exact Heng|].
  destruct (Z.eqb_spec j i) as [->|Hne].
  { by apply (dat_set_get_system_var cfg Hlayout i x st st' SCH_ST_OK). }
  pose proof Hlayout as (HM & HN & HV & Hfit & Hsim). fold N in HN.
  assert (Hread : forall s, dat_get_system_var cfg j s =
            Some (value32_i (if SCH_STORAGE_TRIPLE_WR cfg
                             then vote (status_word s j) (status_word s (j + N))
                                       (status_word s (j + N * 2))
                             else status_word s j), s)).
  { intros s. unfold dat_get_system_var.
    by rewrite (bind_Some _ _ _ _ _ (dat_get_status_var_eq cfg Hlayout j s Hj)). }
  rewrite Hread in Hq. injection Hq as <-. rewrite Hread. do 3 f_equal.
  rewrite !Hw by (fold N; lia). fold N.
  destruct (SCH_STORAGE_TRIPLE_WR cfg); cbn [andb]; eqb_decide; reflexivity.
Qed.

Hypothesis Hschemas : forall schema, schema ∈ data_map -> 0 <= sys_index schema < N.

(** The loop that resets the index of each payload. *)
Lemma reset_indexes_run n lo st :
  0 <= lo -> lo + Z.of_nat n <= Z.of_nat (length data_map) ->
  exists st',
    for_range lo n
      (fun i _ => do schema <- array_get data_map i;
                  run dat_set_system_var cfg (sys_index schema) 0;
                  ret tt) tt st = Some (tt, st') /\
    engine st' = engine st /\
    (forall i, 0 <= i < N ->
       dat_get_system_var cfg i st = Some (0, st) ->
       dat_get_system_var cfg i st' = Some (0, st')) /\
    (forall j schema, lo <= j < lo + Z.of_nat n ->
       data_map !! Z.to_nat j = Some schema ->
       dat_get_system_var cfg (sys_index schema) st' = Some (0, st')).
Proof.
  revert lo st. induction n as [|n IH]; intros lo st Hlo Hlen.
  - exists st. split; [done|]. split; [done|]. split; [done|]. intros j schema Hj. lia.
  - destruct (lookup_lt_is_Some_2 data_map (Z.to_nat lo) ltac:(lia)) as [schema Hschema].
    pose proof (Hschemas schema (list_elem_of_lookup_2 _ _ _ Hschema)) as Hidx.
    assert (Hzero : INT_MIN <= 0 <= INT_MAX) by (by vm_compute).
    destruct (dat_get_system_var_total cfg Hlayout st _ Hidx) as [q0 Hq0].
    destruct (system_var_after_write (sys_index schema) (sys_index schema) 0 q0 st
                Hidx Hidx Hzero Hq0) as (st1 & Hset & Heng1 & Hget1).
    rewrite Z.eqb_refl in Hget1.
    destruct (IH (lo + 1) st1 ltac:(lia) ltac:(lia)) as (st' & Hloop & Heng & Hkeep & Hdone).
    exists st'. split; [|split; [|split]].
    + cbn [for_range].
      assert (Hbody : (do schema <- array_get data_map lo;
                       run dat_set_system_var cfg (sys_index schema) 0;
                       ret tt) st = Some (tt, st1)).
      { rewrite (bind_Some _ _ _ _ _ (array_get_eq _ _ st _ Hlo Hschema)).
        by rewrite (bind_Some _ _ _ _ _ Hset). }
      rewrite (bind_Some _ _ _ _ _ Hbody). exact Hloop.
    + congruence.
    + intros i Hi Hq. apply Hkeep; [done|].
      destruct (system_var_after_write (sys_index schema) i 0 0 st Hidx Hi Hzero Hq)
        as (st1' & Hset' & _ & Hget').
      rewrite Hset in Hset'. injection Hset' as <-.
      by destruct (i =? sys_index schema).
    + intros j schema' Hj Hschema'. destruct (decide (j = lo)) as [->|Hne].
      * rewrite Hschema in Hschema'. injection Hschema' as <-. by apply Hkeep.
      * apply (Hdone j); [lia | done].
Qed.

End MemorySections.

(** X20. [storage_payload_reset] erases flash only: the TLB, the FRAM and with
    it every status variable are as before, so the index of each payload
    keeps its value. A storage that is closed, or has no payload table, or
    no payload, is refused with nothing changed. *)
Theorem payload_reset_keeps_indexes cfg st :
  (storage_is_open st = false \/ st_payload_addr st = None \/ st_payloads_entries st = 0 ->
   storage_payload_reset cfg st = Some (SCH_ST_ERROR, st)) /\
  (forall rc st',
     storage_payload_reset cfg st = Some (rc, st') ->
     st_flightplan_tlb st' = st_flightplan_tlb st /\
     fram st' = fram st /\
     forall i v, dat_get_status_var cfg i st = Some (v, st) ->
                 dat_get_status_var cfg i st' = Some (v, st')).
Proof.
  split.
  - intros H. unfold storage_payload_reset, bind, gets, ret.
    destruct H as [-> | [-> | ->]]; [done | |].
    + rewrite bool_decide_eq_false_2 by (by intros [? ?]). by rewrite orb_true_r.
    + by rewrite orb_true_r.
  - intros rc st' H. apply flash_only_payload_reset in H as (_ & Htlb & Hfram).
    split; [done|]. split; [done|]. intros i v Hv.
    by eapply respects_dat_get_status_var; [|exact Hv].
Qed.

(** X21. [dat_delete_memory_sections] returns what the flight-plan reset
    returned, whatever the payload reset did, and leaves the queue counter
    and the index of every payload at 0. *)
Theorem delete_memory_sections_resets_counters cfg data_map last_sensor st :
  fram_layout_ok cfg ->
  0 <= dat_fpl_queue cfg < dat_status_last_address cfg ->
  last_sensor <= Z.of_nat (length data_map) ->
  (forall schema, schema ∈ data_map -> 0 <= sys_index schema < dat_status_last_address cfg) ->
  forall rc0 s0 rc s1,
    storage_payload_reset cfg st = Some (rc0, s0) ->
    storage_flight_plan_reset cfg s0 = Some (rc, s1) ->
    exists st',
      dat_delete_memory_sections cfg data_map last_sensor st = Some (rc, st') /\
      engine st' = engine s1 /\
      dat_get_system_var cfg (dat_fpl_queue cfg) st' = Some (0, st') /\
      forall j schema, 0 <= j < last_sensor ->
        data_map !! Z.to_nat j = Some schema ->
        dat_get_system_var cfg (sys_index schema) st' = Some (0, st').
Proof.
  intros Hlayout Hqueue Hlen Hschemas rc0 s0 rc s1 Hpay Hfp.
  assert (Hzero : INT_MIN <= 0 <= INT_MAX) by (by vm_compute).
  destruct (reset_indexes_run cfg data_map Hlayout Hschemas (Z.to_nat last_sensor) 0 s1
              ltac:(lia) ltac:(lia)) as (s2 & Hloop & Heng2 & Hkeep & Hdone).
  destruct (dat_get_system_var_total cfg Hlayout s2 _ Hqueue) as [q Hq].
  destruct (system_var_after_write cfg Hlayout (dat_fpl_queue cfg) (dat_fpl_queue cfg) 0 q s2
              Hqueue Hqueue Hzero Hq) as (st' & Hset & Heng & Hget).
  rewrite Z.eqb_refl in Hget.
  exists st'. split; [|split; [congruence | split; [exact Hget|]]].
  - unfold dat_delete_memory_sections.
    rewrite (bind_Some _ _ _ _ _ Hpay), (bind_Some _ _ _ _ _ Hfp).
    rewrite (bind_Some _ _ _ _ _ Hloop). by rewrite (bind_Some _ _ _ _ _ Hset).
  - intros j schema Hj Hschema.
    pose proof (Hschemas schema (list_elem_of_lookup_2 _ _ _ Hschema)) as Hidx.
    assert (Hj0 : dat_get_system_var cfg (sys_index schema) s2 = Some (0, s2))
      by (apply (Hdone j); [lia | done]).
    destruct (system_var_after_write cfg Hlayout (dat_fpl_queue cfg) (sys_index schema) 0 0 s2
                Hqueue Hidx Hzero Hj0) as (st1 & Hset' & _ & Hget').
    rewrite Hset in Hset'. injection Hset' as <-.
    by destruct (sys_index schema =? dat_fpl_queue cfg).
Qed.

(** ** The properties on the simulated node *)

Lemma time_okb_sound l : forallb time_okb l = true -> Forall time_ok l.
Proof.
  induction l as [|e l IH]; simpl; [constructor|].
  intros [He Hl]%andb_true_iff. constructor; [|by apply IH].
  unfold time_okb in He. apply andb_true_iff in He as [H0 H1].
  split; [by apply Z.leb_le | by apply Z.leb_le].
Qed.

Lemma backup_okb_sound cfg st : tlb_ok cfg st -> backup_okb cfg st = true -> backup_ok cfg st.
Proof.
  intros Hok [Ht Hs]%andb_true_iff. split; [done|]. split; [by apply time_okb_sound|].
  intros j e He. rewrite forallb_forall in Hs.
  assert (Hin : In j (seq 0 (length (st_flightplan_tlb st))))
    by (apply in_seq; apply lookup_lt_Some in He; lia).
  specialize (Hs j Hin). unfold synced_atb in Hs. rewrite He in Hs.
  by apply bool_decide_eq_true in Hs.
Qed.

Lemma sim_ready_backup : backup_ok sim_cfg sim_ready.
Proof. apply backup_okb_sound; [exact sim_ready_ok | vm_compute; reflexivity]. Defined.

Lemma sim_planned_backup : backup_ok sim_cfg sim_planned.
Proof. apply backup_okb_sound; [exact sim_planned_ok | vm_compute; reflexivity]. Defined.

Lemma sim_full_ok : tlb_ok sim_cfg sim_full.
Proof. concrete_tlb_ok. Defined.

(** No entry of a concrete TLB has the time [t]. *)
Ltac fresh_time :=
  let j := fresh "j" in let x := fresh "x" in
  let Hj := fresh "Hj" in let Hx := fresh "Hx" in
  intros j x Hj Hx;
  match type of Hj with
  | 0 <= _ < ?n =>
      let v := eval vm_compute in n in
      replace n with v in Hj by (vm_compute; reflexivity)
  end;
  assert (j = 0 \/ j = 1 \/ j = 2 \/ j = 3) as [-> | [-> | [-> | ->]]] by lia;
  vm_compute in Hx; injection Hx as <-; vm_compute; discriminate.

Lemma sim_payload_aligned st :
  st_payload_addr st = Some [6144; 8192; 10240; 12288] ->
  forall pa b, st_payload_addr st = Some pa -> b ∈ pa -> 0 <= b /\ b mod ST_PAGE_SIZE = 0.
Proof.
  intros H pa b Hpa Hb. rewrite H in Hpa. injection Hpa as <-.
  repeat (apply elem_of_cons in Hb as [->|Hb]; [by vm_compute|]).
  by apply elem_of_nil in Hb.
Qed.

Lemma status_write_leaves_other_variables_witness :
  exists st',
    dat_set_status_var sim_cfg 3 42 sim_planned = Some (SCH_ST_OK, st') /\
    dat_get_status_var sim_cfg 5 sim_planned = Some (3, sim_planned) /\
    dat_get_status_var sim_cfg 5 st' = Some (3, st').
Proof.
  destruct (status_write_leaves_other_variables sim_cfg sim_planned 3 5 42 sim_layout)
    as (st' & w & Hset & Hget & Hget' & _); [concrete | concrete | discriminate |].
  assert (E : fst <$> dat_get_status_var sim_cfg 5 sim_planned = Some 3)
    by (vm_compute; reflexivity).
  rewrite Hget in E. injection E as ->.
  exists st'. split; [exact Hset|]. split; [exact Hget | exact Hget'].
Defined.

Lemma single_copy_write_is_outvoted_witness :
  exists st1 st2,
    dat_set_system_var sim_cfg 3 7 sim_ready = Some (SCH_ST_OK, st1) /\
    _dat_set_system_var sim_cfg 3 9 st1 = Some (SCH_ST_OK, st2) /\
    _dat_get_system_var sim_cfg 3 st2 = Some (9, st2) /\
    dat_get_system_var sim_cfg 3 st2 = Some (7, st2).
Proof.
  apply (single_copy_write_is_outvoted sim_cfg sim_ready 3 7 9 sim_layout); concrete.
Defined.


Lemma write_with_check_page_rule_witness :
  (exists st', write_data_with_check sim_cfg 6144 sim_sample 200 sim_ready
                 = Some (SCH_ST_OK, st')) /\
  write_data_with_check sim_cfg 6544 sim_sample 200 sim_ready = Some (SCH_ST_ERROR, sim_ready) /\
  read_data_with_check sim_cfg 6544 200 sim_ready = Some ((SCH_ST_ERROR, None), sim_ready).
Proof.
  destruct (write_with_check_page_rule sim_cfg sim_ready 6144 sim_sample 200) as [Hw _];
    [concrete..|].
  destruct (write_with_check_page_rule sim_cfg sim_ready 6544 sim_sample 200) as [Hw' Hr'];
    [concrete..|].
  split; [eexists; exact Hw|]. split; [exact Hw' | exact Hr'].
Defined.

Lemma sensor_active_characterised_witness :
  dat_stmachine_is_sensor_active 1 2 3 = Some 1 /\
  dat_stmachine_is_sensor_active 1 5 3 = Some 0 /\
  dat_stmachine_is_sensor_active 1 10 3 = Some 0 /\
  dat_stmachine_is_sensor_active 1 (-2) 3 = Some 1.
Proof.
  destruct (sensor_active_characterised 1 2 3) as (H1 & _); [concrete..|].
  destruct (sensor_active_characterised 1 5 3) as (H2 & _); [concrete..|].
  destruct (sensor_active_characterised 1 10 3) as (H3 & _); [concrete..|].
  destruct (sensor_active_characterised 1 (-2) 3) as (_ & _ & H4); [concrete..|].
  split; [exact H1|]. split; [exact H2|]. split; [exact H3|].
  apply H4. concrete.
Defined.

Lemma payload_set_get_round_trip_witness :
  exists st',
    storage_payload_set_data sim_cfg 0 2 (Some sim_sample) (Some sim_schema) sim_ready
      = Some (SCH_ST_OK, st') /\
    storage_payload_get_data sim_cfg 0 2 PTR (Some sim_schema) st'
      = Some ((SCH_ST_OK, Some (take 200 sim_sample)), st').
Proof.
  destruct (outcome_intro
              (storage_payload_set_data sim_cfg 0 2 (Some sim_sample) (Some sim_schema))
              sim_ready SCH_ST_OK) as (st' & Hrun & _); [vm_compute; reflexivity|].
  exists st'. split; [exact Hrun|].
  pose proof (payload_set_get_round_trip sim_cfg sim_ready 0 2 sim_sample sim_schema st' Hrun)
    as H. cbv zeta in H. destruct H as [H _]. exact H.
Defined.

Lemma payload_record_size_limits_witness :
  storage_payload_set_data sim_cfg 0 0 (Some sim_sample)
    (Some {| size := 65536; sys_index := 3 |}) sim_ready = None /\
  storage_payload_set_data sim_cfg 0 0 (Some sim_sample)
    (Some {| size := 600; sys_index := 3 |}) sim_ready = Some (SCH_ST_ERROR, sim_ready) /\
  storage_payload_get_data sim_cfg 0 0 PTR
    (Some {| size := 600; sys_index := 3 |}) sim_ready = Some ((SCH_ST_ERROR, None), sim_ready).
Proof.
  assert (Hopen : storage_is_open sim_ready = true) by (vm_compute; reflexivity).
  assert (Hpa : is_Some (st_payload_addr sim_ready)) by (eexists; vm_compute; reflexivity).
  destruct (payload_record_size_limits sim_cfg sim_ready 0 0 sim_sample
              {| size := 65536; sys_index := 3 |} Hopen Hpa) as [H0 _].
  destruct (payload_record_size_limits sim_cfg sim_ready 0 0 sim_sample
              {| size := 600; sys_index := 3 |} Hopen Hpa) as [_ H600].
  destruct H0 as [H0 _]; [vm_compute; reflexivity|].
  destruct H600 as [Hs Hg]; [vm_compute; reflexivity|].
  split; [exact H0|]. split; [exact Hs | exact Hg].
Defined.

Lemma payload_add_then_get_recent_witness :
  exists st',
    dat_add_payload_sample sim_cfg sim_data_map sim_last_sensor (Some sim_sample_256) 0 sim_ready
      = Some (0, st') /\
    dat_get_recent_payload_sample sim_cfg sim_data_map PTR 0 0 st'
      = Some ((SCH_ST_OK, Some (take 256 sim_sample_256)), st') /\
    dat_get_payload_sample sim_cfg sim_data_map PTR 0 0 st'
      = Some ((SCH_ST_OK, Some (take 256 sim_sample_256)), st').
Proof.
  destruct (outcome_intro
              (dat_add_payload_sample sim_cfg sim_data_map sim_last_sensor
                 (Some sim_sample_256) 0) sim_ready 0) as (st' & Hrun & _);
    [vm_compute; reflexivity|].
  assert (Hq : dat_get_system_var sim_cfg (sys_index sim_schema_256) sim_ready
                 = Some (0, sim_ready)).
  { apply read_only_outcome; [apply read_only_dat_get_system_var | vm_compute; reflexivity]. }
  exists st'. split; [exact Hrun|].
  apply (payload_add_then_get_recent sim_cfg sim_data_map sim_last_sensor sim_ready
           sim_sample_256 0 sim_schema_256 0 st' sim_layout);
    [concrete | reflexivity | concrete | exact Hq | concrete | exact Hrun].
Defined.

Lemma payload_recent_offset_out_of_range_witness :
  dat_get_recent_payload_sample sim_cfg sim_data_map PTR 0 0 sim_ready
    = Some ((-1, None), sim_ready) /\
  dat_get_recent_payload_sample sim_cfg sim_data_map PTR 0 1 sim_sampled
    = Some ((-1, None), sim_sampled).
Proof.
  split.
  - apply (payload_recent_offset_out_of_range sim_cfg sim_data_map sim_ready 0 sim_schema_256 0 0);
      [concrete | reflexivity | | concrete | concrete].
    apply read_only_outcome; [apply read_only_dat_get_system_var | vm_compute; reflexivity].
  - apply (payload_recent_offset_out_of_range sim_cfg sim_data_map sim_sampled 0
             sim_schema_256 1 1);
      [concrete | reflexivity | | concrete | concrete].
    apply read_only_outcome; [apply read_only_dat_get_system_var | vm_compute; reflexivity].
Defined.


Lemma payload_last_record_of_page_refused_witness :
  storage_payload_set_data sim_cfg 0 1 (Some sim_sample_256) (Some sim_schema_256) sim_ready
    = Some (SCH_ST_ERROR, sim_ready) /\
  storage_payload_set_data sim_cfg 0 3 (Some sim_sample_256) (Some sim_schema_256) sim_ready
    = Some (SCH_ST_ERROR, sim_ready).
Proof.
  assert (Hpa : st_payload_addr sim_ready = Some [6144; 8192; 10240; 12288])
    by (vm_compute; reflexivity).
  split.
  - pose proof (payload_last_record_of_page_refused sim_cfg sim_ready 0 1 sim_sample_256
                  sim_schema_256) as H. cbv zeta in H.
    destruct H as [_ H];
      [concrete | concrete | concrete | concrete
      | exact (sim_payload_aligned sim_ready Hpa) | concrete |].
    apply (H [6144; 8192; 10240; 12288] 6144); first [exact Hpa | concrete].
  - pose proof (payload_last_record_of_page_refused sim_cfg sim_ready 0 3 sim_sample_256
                  sim_schema_256) as H. cbv zeta in H.
    destruct H as [_ H];
      [concrete | concrete | concrete | concrete
      | exact (sim_payload_aligned sim_ready Hpa) | concrete |].
    apply (H [6144; 8192; 10240; 12288] 6144); first [exact Hpa | concrete].
Defined.

Lemma payload_stuck_at_end_of_page_witness :
  dat_get_system_var sim_cfg 4 sim_sampled = Some (1, sim_sampled) /\
  dat_add_payload_sample sim_cfg sim_data_map sim_last_sensor (Some sim_sample_256) 0 sim_sampled
    = Some (-1, sim_sampled).
Proof.
  assert (Hpa : st_payload_addr sim_sampled = Some [6144; 8192; 10240; 12288])
    by (vm_compute; reflexivity).
  assert (Hq : dat_get_system_var sim_cfg (sys_index sim_schema_256) sim_sampled
                 = Some (1, sim_sampled)).
  { apply read_only_outcome; [apply read_only_dat_get_system_var | vm_compute; reflexivity]. }
  split; [exact Hq|].
  pose proof (payload_stuck_at_end_of_page sim_cfg sim_data_map sim_last_sensor sim_sampled
                sim_sample_256 0 sim_schema_256 1) as H. cbv zeta in H.
  destruct H as [_ H];
    [exact sim_layout | concrete | reflexivity | concrete | exact Hq
    | concrete | concrete | concrete | concrete
    | exact (sim_payload_aligned sim_sampled Hpa) | concrete |].
  apply (H [6144; 8192; 10240; 12288] 6144); first [exact Hpa | concrete].
Defined.

Lemma flight_plan_set_get_round_trip_witness :
  exists st',
    storage_flight_plan_set sim_cfg 3000 sim_cmd sim_args 1 0 1 sim_planned
      = Some (SCH_ST_OK, st') /\
    storage_flight_plan_get_st sim_cfg 3000 PTR st'
      = Some ((SCH_ST_OK, Some (sim_row 3000)), st').
Proof.
  destruct (outcome_intro (storage_flight_plan_set sim_cfg 3000 sim_cmd sim_args 1 0 1)
              sim_planned SCH_ST_OK) as (st' & Hrun & _); [vm_compute; reflexivity|].
  exists st'. split; [exact Hrun|].
  apply (flight_plan_set_get_round_trip sim_cfg sim_planned 3000 [112; 105; 110; 103] [53]
           1 0 1 st' sim_layout sim_planned_ok);
    [concrete | concrete | fresh_time | vm_compute; lia | vm_compute; lia | exact Hrun].
Defined.

Lemma flight_plan_long_command_runs_into_arguments_witness :
  exists st',
    storage_flight_plan_set sim_cfg 3000 (Some sim_long_cmd) sim_args 1 0 1 sim_planned
      = Some (SCH_ST_OK, st') /\
    storage_flight_plan_get_st sim_cfg 3000 PTR st'
      = Some ((SCH_ST_OK,
               Some {| unixtime := 3000; executions := 1; periodical := 0; node := 1;
                       cmd := replicate 248 65 ++ [53]; args := [53] |}), st').
Proof.
  destruct (outcome_intro
              (storage_flight_plan_set sim_cfg 3000 (Some sim_long_cmd) sim_args 1 0 1)
              sim_planned SCH_ST_OK) as (st' & Hrun & _); [vm_compute; reflexivity|].
  exists st'. split; [exact Hrun|].
  apply (flight_plan_long_command_runs_into_arguments sim_cfg sim_planned 3000 sim_long_cmd [53]
           1 0 1 st' sim_layout sim_planned_ok);
    [concrete | concrete | fresh_time | vm_compute; lia | vm_compute; lia | exact Hrun].
Defined.

Lemma flight_plan_unknown_time_is_an_error_witness :
  dat_get_fp sim_cfg 777 PTR PTR PTR PTR sim_planned = Some ((SCH_ST_ERROR, None), sim_planned) /\
  dat_del_fp sim_cfg 777 sim_planned = Some (SCH_ST_ERROR, sim_planned).
Proof.
  destruct (flight_plan_unknown_time_is_an_error sim_cfg sim_planned 777 sim_layout)
    as (_ & _ & _ & Hget & Hdel); [concrete | exact sim_planned_ok | fresh_time |].
  split; [exact Hget | exact Hdel].
Defined.

Lemma flight_plan_full_table_refuses_witness :
  dat_set_fp sim_cfg 500 sim_cmd sim_args 1 0 sim_full = Some (SCH_ST_ERROR, sim_full).
Proof.
  apply (flight_plan_full_table_refuses sim_cfg sim_full 500 sim_cmd sim_args 1 0 sim_layout);
    [concrete | exact sim_full_ok | concrete | fresh_time].
Defined.

Lemma flight_plan_entry_is_read_once_witness :
  exists st1 st2,
    dat_set_fp sim_cfg 3000 sim_cmd sim_args 1 0 sim_planned = Some (SCH_ST_OK, st1) /\
    dat_get_fp sim_cfg 3000 PTR PTR PTR PTR st1 =
      Some ((SCH_ST_OK,
             Some {| unixtime := 3000; executions := 1; periodical := 0; node := 1;
                     cmd := strncpy 248 [112; 105; 110; 103];
                     args := strncpy 248 [53] |}), st2) /\
    dat_get_fp sim_cfg 3000 PTR PTR PTR PTR st2 = Some ((SCH_ST_ERROR, None), st2) /\
    dat_get_system_var sim_cfg (dat_fpl_queue sim_cfg) st2 = Some (3, st2).
Proof.
  destruct (outcome_intro (dat_set_fp sim_cfg 3000 sim_cmd sim_args 1 0)
              sim_planned SCH_ST_OK) as (st1 & Hrun & _); [vm_compute; reflexivity|].
  assert (Hq : dat_get_system_var sim_cfg (dat_fpl_queue sim_cfg) sim_planned
                 = Some (3, sim_planned)).
  { apply read_only_outcome; [apply read_only_dat_get_system_var | vm_compute; reflexivity]. }
  destruct (flight_plan_entry_is_read_once sim_cfg sim_planned 3000 [112; 105; 110; 103] [53]
              1 0 3 st1 sim_layout) as (st2 & H1 & H2 & H3);
    [concrete | exact sim_planned_ok | concrete | concrete | fresh_time
    | vm_compute; lia | vm_compute; lia | exact Hq | exact Hrun |].
  exists st1, st2. split; [exact Hrun|]. split; [exact H1|]. split; [exact H2 | exact H3].
Defined.

Lemma flight_plan_backup_is_kept_witness :
  exists st',
    dat_set_fp sim_cfg 3000 sim_cmd sim_args 1 0 sim_planned = Some (SCH_ST_OK, st') /\
    backup_ok sim_cfg st'.
Proof.
  destruct (outcome_intro (dat_set_fp sim_cfg 3000 sim_cmd sim_args 1 0)
              sim_planned SCH_ST_OK) as (st' & Hrun & _); [vm_compute; reflexivity|].
  destruct (flight_plan_backup_is_kept sim_cfg sim_planned sim_layout) as (Hset & _);
    [concrete | exact sim_planned_backup |].
  exists st'. split; [exact Hrun|]. exact (Hset _ _ _ _ _ _ _ Hrun).
Defined.

Lemma flight_plan_survives_restart_witness :
  exists st',
    (run dat_repo_close; dat_repo_init sim_cfg sim_last_sensor) sim_planned = Some (tt, st') /\
    st_flightplan_tlb st' = st_flightplan_tlb sim_planned /\
    storage_flight_plan_get_st sim_cfg 1001 PTR st' = Some ((SCH_ST_OK, Some (sim_row 1001)), st').
Proof.
  destruct (flight_plan_survives_restart sim_cfg sim_last_sensor sim_planned sim_layout
              sim_planned_backup)
    as (st' & Hrun & _ & _ & Htlb & _ & _ & _ & Hget & _).
  exists st'. split; [exact Hrun|]. split; [exact Htlb|].
  apply Hget; [vm_compute; reflexivity|].
  apply read_only_outcome; [apply read_only_get_st | vm_compute; reflexivity].
Defined.

Lemma payload_reset_keeps_indexes_witness :
  dat_get_status_var sim_cfg 4 sim_busy = Some (1, sim_busy) /\
  exists st',
    storage_payload_reset sim_cfg sim_busy = Some (SCH_ST_OK, st') /\
    dat_get_status_var sim_cfg 4 st' = Some (1, st').
Proof.
  assert (Hq : dat_get_status_var sim_cfg 4 sim_busy = Some (1, sim_busy)).
  { apply read_only_outcome; [apply read_only_dat_get_status_var | vm_compute; reflexivity]. }
  split; [exact Hq|].
  destruct (outcome_intro (storage_payload_reset sim_cfg) sim_busy SCH_ST_OK)
    as (st' & Hrun & _); [vm_compute; reflexivity|].
  exists st'. split; [exact Hrun|].
  destruct (payload_reset_keeps_indexes sim_cfg sim_busy) as [_ H].
  destruct (H _ _ Hrun) as (_ & _ & Hkeep). exact (Hkeep _ _ Hq).
Defined.

Lemma delete_memory_sections_resets_counters_witness :
  dat_get_system_var sim_cfg (dat_fpl_queue sim_cfg) sim_busy = Some (3, sim_busy) /\
  dat_get_system_var sim_cfg 4 sim_busy = Some (1, sim_busy) /\
  exists st',
    dat_delete_memory_sections sim_cfg sim_data_map sim_last_sensor sim_busy
      = Some (SCH_ST_OK, st') /\
    dat_get_system_var sim_cfg (dat_fpl_queue sim_cfg) st' = Some (0, st') /\
    dat_get_system_var sim_cfg 4 st' = Some (0, st') /\
    dat_get_system_var sim_cfg 3 st' = Some (0, st').
Proof.
  split.
  { apply read_only_outcome; [apply read_only_dat_get_system_var | vm_compute; reflexivity]. }
  split.
  { apply read_only_outcome; [apply read_only_dat_get_system_var | vm_compute; reflexivity]. }
  destruct (outcome_intro (storage_payload_reset sim_cfg) sim_busy SCH_ST_OK)
    as (s0 & Hpay & Hs0); [vm_compute; reflexivity|].
  destruct (outcome_intro (storage_flight_plan_reset sim_cfg) s0 SCH_ST_OK)
    as (s1 & Hfp & _); [rewrite Hs0; vm_compute; reflexivity|].
  clear Hs0.
  destruct (delete_memory_sections_resets_counters sim_cfg sim_data_map sim_last_sensor sim_busy
              sim_layout) with (rc0 := SCH_ST_OK) (s0 := s0) (rc := SCH_ST_OK) (s1 := s1)
    as (st' & Hrun & _ & Hqueue & Hidx); [concrete | concrete | | exact Hpay | exact Hfp |].
  { intros schema Hs. unfold sim_data_map in Hs.
    repeat (apply elem_of_cons in Hs as [->|Hs]; [concrete|]).
    apply elem_of_nil in Hs. destruct Hs. }
  exists st'. split; [exact Hrun|]. split; [exact Hqueue|]. split.
  - apply (Hidx 0 sim_schema_256); [concrete | reflexivity].
  - apply (Hidx 1 sim_schema); [concrete | reflexivity].
Defined.
